(** * ask-bi: a shallow embedding of the retrieval-augmented answer pipeline

    The development follows the Python sources of the repository:

    - [utils/qa_chain.py]   : [chat_history_to_str], [qa_search];
    - [app.py]              : [format_chat_history], the query-processing
                              step of the Streamlit script;
    - [utils/streamlit.py]  : [clear_chat];
    - [create_statistical_summary.py] : [load_data] and the document loop.

    Python objects that are shared and mutated (metadata dictionaries) live
    in an explicit heap; calls to the external collaborators (vector store,
    chat model) are recorded in a trace; exceptions are an explicit
    outcome.

    The LangChain and pandas operations the sources call are embedded by
    their library behaviour: a dictionary piped into a chain runs each of
    its branches on the same input, [RunnablePassthrough] returns its
    input, a prompt template formats a value with [str]; [pd.cut] uses
    right-closed bins and leaves other values missing, [unique] keeps a
    missing value, a comparison with a missing value selects no row, and
    [NaT] has no [strftime]. *)

From Stdlib Require Import ZArith Lia Bool Ascii String.
From Stdlib Require DecimalString.
From stdpp Require Import base gmap strings list.

(** ** Python preliminaries *)

Module Py.

(** The line feed and the two quote characters, which a string literal
    cannot hold directly. *)
Definition nl : string := String (ascii_of_nat 10) EmptyString.
Definition squote : ascii := ascii_of_nat 39.
Definition dquote : ascii := ascii_of_nat 34.
Definition backslash : ascii := ascii_of_nat 92.

(** [s.startswith(p)]. *)
Fixpoint startswith (s p : string) {struct p} : bool :=
  match p with
  | EmptyString => true
  | String a p' =>
      match s with
      | EmptyString => false
      | String b s' => Ascii.eqb a b && startswith s' p'
      end
  end.

(** [needle in hay] on Python strings. *)
Fixpoint str_contains (needle hay : string) : bool :=
  startswith hay needle
  || match hay with
     | EmptyString => false
     | String _ rest => str_contains needle rest
     end.

(** [sep.join(parts)]. *)
Fixpoint join (sep : string) (parts : list string) : string :=
  match parts with
  | [] => EmptyString
  | [p] => p
  | p :: rest => p +:+ sep +:+ join sep rest
  end.

(** An exception of the [Exception] hierarchy: its class name and the
    text [str(e)] yields.  Interpreter-level signals ([KeyboardInterrupt],
    [SystemExit]) are not failures of a call and are outside the model. *)
Record exn := Exn { exn_class : string; exn_str : string }.

(** What evaluating a Python call yields. *)
Inductive outcome (A : Type) :=
| Returned (a : A)
| Raised (e : exn).
Arguments Returned {A} a.
Arguments Raised {A} e.

(** Object identities of dictionaries on the heap. *)
Definition loc := positive.

(** Python values as they occur in metadata and result dictionaries.  A
    nested dictionary is held by reference ([VRef]); a float is carried
    as its IEEE-754 binary64 bit pattern, the engine never computes on
    one. *)
#[warnings="-register-all"]
Inductive pyval :=
| VNone
| VInt (z : Z)
| VFloat (bits : Z)
| VStr (s : string)
| VRef (l : loc)
| VList (items : list pyval).

(** [s[start:]] on a list, [start] any Python integer. *)
Definition slice_from {A} (start : Z) (l : list A) : list A :=
  let n := Z.of_nat (length l) in
  let s := if (start <? 0)%Z then Z.max (n + start) 0 else Z.min start n in
  drop (Z.to_nat s) l.

(** [s[:-1]]. *)
Definition drop_last {A} (l : list A) : list A :=
  take (length l - 1) l.

End Py.

Import Py.

(** ** Conversation turns *)

(** A message dictionary: ["role"], ["content"], and on assistant turns
    stored by the application ["metadata"], the list of metadata
    dictionaries that grounded the answer. *)
Record message := Message {
  role : string;
  content : string;
  msg_metadata : option pyval
}.

(** ** utils/qa_chain.py: [chat_history_to_str] *)

(** The body of the [for] loop: the text appended for one message. *)
Definition history_line (msg : message) : string :=
  (if String.eqb (role msg) "user" then "User" else "Assistant")
  +:+ ": " +:+ content msg +:+ nl +:+ nl.

(** [chat_history=None] is [None]; the loop accumulates into
    [chat_history_text] from the left. *)
Definition chat_history_to_str (chat_history : option (list message)) : string :=
  let chat_history_text := EmptyString in
  match chat_history with
  | Some (m :: ms) =>
      fold_left (fun acc msg => acc +:+ history_line msg) (m :: ms) chat_history_text
  | _ => chat_history_text
  end.

(** ** app.py: [format_chat_history] *)

Definition format_chat_history (messages : list message) (max_messages : Z)
  : list message :=
  let recent_messages :=
    if (Z.of_nat (length messages) >? max_messages)%Z
    then slice_from (- max_messages) messages
    else messages in
  map (fun msg =>
         {| role := if String.eqb (role msg) "user" then "user" else "assistant";
            content := content msg;
            msg_metadata := None |})
      recent_messages.

(** The default of the [max_messages] parameter. *)
Definition default_max_messages : Z := 10.

(** ** Documents, the heap and the external collaborators *)

(** A retrieved [Document]: its text, its [metadata] attribute (a reference
    to a dictionary object; [None] when the attribute is missing or is
    [None]), and a [similarity_score] attribute when the store attached
    one. *)
Record Document := {
  page_content : string;
  metadata : option loc;
  similarity_score : option pyval
}.

(** Calls that leave the process. *)
Inductive event :=
| EvRetrieve (query : string) (k : Z)
| EvGenerate (prompt : string).

(** The state the engine runs in: the dictionary objects and the calls made
    so far. *)
Record world := World {
  heap : gmap loc (gmap string pyval);
  trace : list event
}.

(** A vector store answers a similarity search with documents or an
    exception; the answer may depend on the calls made before. *)
Record VectorStore := {
  similarity_search : list event -> string -> Z -> outcome (list Document)
}.

(** [vectorstore.as_retriever(search_type="similarity",
    search_kwargs={"k": k})]. *)
Record VectorStoreRetriever := {
  retriever_store : VectorStore;
  retriever_k : Z
}.

(** ** [str] and [repr] of the values passed through the chain *)

(** The input of a runnable: a string or a dictionary with string keys, in
    insertion order. *)
#[warnings="-register-all"]
Inductive pyobj :=
| OStr (s : string)
| ODict (items : list (string * pyobj)).

Fixpoint has_char (c : ascii) (s : string) : bool :=
  match s with
  | EmptyString => false
  | String c' rest => Ascii.eqb c c' || has_char c rest
  end.

Definition hex_digit (n : nat) : ascii :=
  match String.get n "0123456789abcdef" with
  | Some c => c
  | None => "0"%char
  end.

(** The code points from U+0080 on that [str.isprintable] rejects, as
    inclusive ranges: control and format characters, separators other
    than the space, surrogates, private-use and unassigned code points
    (the Unicode 14.0 database of CPython 3.11). *)
Definition nonprintable : list (N * N) :=
  [(128, 160); (173, 173); (888, 889); (896, 899); (907, 907); (909, 909);
   (930, 930); (1328, 1328); (1367, 1368); (1419, 1420); (1424, 1424);
   (1480, 1487); (1515, 1518); (1525, 1541); (1564, 1564); (1757, 1757);
   (1806, 1807); (1867, 1868); (1970, 1983); (2043, 2044); (2094, 2095);
   (2111, 2111); (2140, 2141); (2143, 2143); (2155, 2159); (2191, 2199);
   (2274, 2274); (2436, 2436); (2445, 2446); (2449, 2450); (2473, 2473);
   (2481, 2481); (2483, 2485); (2490, 2491); (2501, 2502); (2505, 2506);
   (2511, 2518); (2520, 2523); (2526, 2526); (2532, 2533); (2559, 2560);
   (2564, 2564); (2571, 2574); (2577, 2578); (2601, 2601); (2609, 2609);
   (2612, 2612); (2615, 2615); (2618, 2619); (2621, 2621); (2627, 2630);
   (2633, 2634); (2638, 2640); (2642, 2648); (2653, 2653); (2655, 2661);
   (2679, 2688); (2692, 2692); (2702, 2702); (2706, 2706); (2729, 2729);
   (2737, 2737); (2740, 2740); (2746, 2747); (2758, 2758); (2762, 2762);
   (2766, 2767); (2769, 2783); (2788, 2789); (2802, 2808); (2816, 2816);
   (2820, 2820); (2829, 2830); (2833, 2834); (2857, 2857); (2865, 2865);
   (2868, 2868); (2874, 2875); (2885, 2886); (2889, 2890); (2894, 2900);
   (2904, 2907); (2910, 2910); (2916, 2917); (2936, 2945); (2948, 2948);
   (2955, 2957); (2961, 2961); (2966, 2968); (2971, 2971); (2973, 2973);
   (2976, 2978); (2981, 2983); (2987, 2989); (3002, 3005); (3011, 3013);
   (3017, 3017); (3022, 3023); (3025, 3030); (3032, 3045); (3067, 3071);
   (3085, 3085); (3089, 3089); (3113, 3113); (3130, 3131); (3141, 3141);
   (3145, 3145); (3150, 3156); (3159, 3159); (3163, 3164); (3166, 3167);
   (3172, 3173); (3184, 3190); (3213, 3213); (3217, 3217); (3241, 3241);
   (3252, 3252); (3258, 3259); (3269, 3269); (3273, 3273); (3278, 3284);
   (3287, 3292); (3295, 3295); (3300, 3301); (3312, 3312); (3315, 3327);
   (3341, 3341); (3345, 3345); (3397, 3397); (3401, 3401); (3408, 3411);
   (3428, 3429); (3456, 3456); (3460, 3460); (3479, 3481); (3506, 3506);
   (3516, 3516); (3518, 3519); (3527, 3529); (3531, 3534); (3541, 3541);
   (3543, 3543); (3552, 3557); (3568, 3569); (3573, 3584); (3643, 3646);
   (3676, 3712); (3715, 3715); (3717, 3717); (3723, 3723); (3748, 3748);
   (3750, 3750); (3774, 3775); (3781, 3781); (3783, 3783); (3790, 3791);
   (3802, 3803); (3808, 3839); (3912, 3912); (3949, 3952); (3992, 3992);
   (4029, 4029); (4045, 4045); (4059, 4095); (4294, 4294); (4296, 4300);
   (4302, 4303); (4681, 4681); (4686, 4687); (4695, 4695); (4697, 4697);
   (4702, 4703); (4745, 4745); (4750, 4751); (4785, 4785); (4790, 4791);
   (4799, 4799); (4801, 4801); (4806, 4807); (4823, 4823); (4881, 4881);
   (4886, 4887); (4955, 4956); (4989, 4991); (5018, 5023); (5110, 5111);
   (5118, 5119); (5760, 5760); (5789, 5791); (5881, 5887); (5910, 5918);
   (5943, 5951); (5972, 5983); (5997, 5997); (6001, 6001); (6004, 6015);
   (6110, 6111); (6122, 6127); (6138, 6143); (6158, 6158); (6170, 6175);
   (6265, 6271); (6315, 6319); (6390, 6399); (6431, 6431); (6444, 6447);
   (6460, 6463); (6465, 6467); (6510, 6511); (6517, 6527); (6572, 6575);
   (6602, 6607); (6619, 6621); (6684, 6685); (6751, 6751); (6781, 6782);
   (6794, 6799); (6810, 6815); (6830, 6831); (6863, 6911); (6989, 6991);
   (7039, 7039); (7156, 7163); (7224, 7226); (7242, 7244); (7305, 7311);
   (7355, 7356); (7368, 7375); (7419, 7423); (7958, 7959); (7966, 7967);
   (8006, 8007); (8014, 8015); (8024, 8024); (8026, 8026); (8028, 8028);
   (8030, 8030); (8062, 8063); (8117, 8117); (8133, 8133); (8148, 8149);
   (8156, 8156); (8176, 8177); (8181, 8181); (8191, 8207); (8232, 8239);
   (8287, 8303); (8306, 8307); (8335, 8335); (8349, 8351); (8385, 8399);
   (8433, 8447); (8588, 8591); (9255, 9279); (9291, 9311); (11124, 11125);
   (11158, 11158); (11508, 11512); (11558, 11558); (11560, 11564);
   (11566, 11567); (11624, 11630); (11633, 11646); (11671, 11679);
   (11687, 11687); (11695, 11695); (11703, 11703); (11711, 11711);
   (11719, 11719); (11727, 11727); (11735, 11735); (11743, 11743);
   (11870, 11903); (11930, 11930); (12020, 12031); (12246, 12271);
   (12284, 12288); (12352, 12352); (12439, 12440); (12544, 12548);
   (12592, 12592); (12687, 12687); (12772, 12783); (12831, 12831);
   (42125, 42127); (42183, 42191); (42540, 42559); (42744, 42751);
   (42955, 42959); (42962, 42962); (42964, 42964); (42970, 42993);
   (43053, 43055); (43066, 43071); (43128, 43135); (43206, 43213);
   (43226, 43231); (43348, 43358); (43389, 43391); (43470, 43470);
   (43482, 43485); (43519, 43519); (43575, 43583); (43598, 43599);
   (43610, 43611); (43715, 43738); (43767, 43776); (43783, 43784);
   (43791, 43792); (43799, 43807); (43815, 43815); (43823, 43823);
   (43884, 43887); (44014, 44015); (44026, 44031); (55204, 55215);
   (55239, 55242); (55292, 63743); (64110, 64111); (64218, 64255);
   (64263, 64274); (64280, 64284); (64311, 64311); (64317, 64317);
   (64319, 64319); (64322, 64322); (64325, 64325); (64451, 64466);
   (64912, 64913); (64968, 64974); (64976, 65007); (65050, 65055);
   (65107, 65107); (65127, 65127); (65132, 65135); (65141, 65141);
   (65277, 65280); (65471, 65473); (65480, 65481); (65488, 65489);
   (65496, 65497); (65501, 65503); (65511, 65511); (65519, 65531);
   (65534, 65535); (65548, 65548); (65575, 65575); (65595, 65595);
   (65598, 65598); (65614, 65615); (65630, 65663); (65787, 65791);
   (65795, 65798); (65844, 65846); (65935, 65935); (65949, 65951);
   (65953, 65999); (66046, 66175); (66205, 66207); (66257, 66271);
   (66300, 66303); (66340, 66348); (66379, 66383); (66427, 66431);
   (66462, 66462); (66500, 66503); (66518, 66559); (66718, 66719);
   (66730, 66735); (66772, 66775); (66812, 66815); (66856, 66863);
   (66916, 66926); (66939, 66939); (66955, 66955); (66963, 66963);
   (66966, 66966); (66978, 66978); (66994, 66994); (67002, 67002);
   (67005, 67071); (67383, 67391); (67414, 67423); (67432, 67455);
   (67462, 67462); (67505, 67505); (67515, 67583); (67590, 67591);
   (67593, 67593); (67638, 67638); (67641, 67643); (67645, 67646);
   (67670, 67670); (67743, 67750); (67760, 67807); (67827, 67827);
   (67830, 67834); (67868, 67870); (67898, 67902); (67904, 67967);
   (68024, 68027); (68048, 68049); (68100, 68100); (68103, 68107);
   (68116, 68116); (68120, 68120); (68150, 68151); (68155, 68158);
   (68169, 68175); (68185, 68191); (68256, 68287); (68327, 68330);
   (68343, 68351); (68406, 68408); (68438, 68439); (68467, 68471);
   (68498, 68504); (68509, 68520); (68528, 68607); (68681, 68735);
   (68787, 68799); (68851, 68857); (68904, 68911); (68922, 69215);
   (69247, 69247); (69290, 69290); (69294, 69295); (69298, 69375);
   (69416, 69423); (69466, 69487); (69514, 69551); (69580, 69599);
   (69623, 69631); (69710, 69713); (69750, 69758); (69821, 69821);
   (69827, 69839); (69865, 69871); (69882, 69887); (69941, 69941);
   (69960, 69967); (70007, 70015); (70112, 70112); (70133, 70143);
   (70162, 70162); (70207, 70271); (70279, 70279); (70281, 70281);
   (70286, 70286); (70302, 70302); (70314, 70319); (70379, 70383);
   (70394, 70399); (70404, 70404); (70413, 70414); (70417, 70418);
   (70441, 70441); (70449, 70449); (70452, 70452); (70458, 70458);
   (70469, 70470); (70473, 70474); (70478, 70479); (70481, 70486);
   (70488, 70492); (70500, 70501); (70509, 70511); (70517, 70655);
   (70748, 70748); (70754, 70783); (70856, 70863); (70874, 71039);
   (71094, 71095); (71134, 71167); (71237, 71247); (71258, 71263);
   (71277, 71295); (71354, 71359); (71370, 71423); (71451, 71452);
   (71468, 71471); (71495, 71679); (71740, 71839); (71923, 71934);
   (71943, 71944); (71946, 71947); (71956, 71956); (71959, 71959);
   (71990, 71990); (71993, 71994); (72007, 72015); (72026, 72095);
   (72104, 72105); (72152, 72153); (72165, 72191); (72264, 72271);
   (72355, 72367); (72441, 72703); (72713, 72713); (72759, 72759);
   (72774, 72783); (72813, 72815); (72848, 72849); (72872, 72872);
   (72887, 72959); (72967, 72967); (72970, 72970); (73015, 73017);
   (73019, 73019); (73022, 73022); (73032, 73039); (73050, 73055);
   (73062, 73062); (73065, 73065); (73103, 73103); (73106, 73106);
   (73113, 73119); (73130, 73439); (73465, 73647); (73649, 73663);
   (73714, 73726); (74650, 74751); (74863, 74863); (74869, 74879);
   (75076, 77711); (77811, 77823); (78895, 82943); (83527, 92159);
   (92729, 92735); (92767, 92767); (92778, 92781); (92863, 92863);
   (92874, 92879); (92910, 92911); (92918, 92927); (92998, 93007);
   (93018, 93018); (93026, 93026); (93048, 93052); (93072, 93759);
   (93851, 93951); (94027, 94030); (94088, 94094); (94112, 94175);
   (94181, 94191); (94194, 94207); (100344, 100351); (101590, 101631);
   (101641, 110575); (110580, 110580); (110588, 110588); (110591, 110591);
   (110883, 110927); (110931, 110947); (110952, 110959); (111356, 113663);
   (113771, 113775); (113789, 113791); (113801, 113807); (113818, 113819);
   (113824, 118527); (118574, 118575); (118599, 118607); (118724, 118783);
   (119030, 119039); (119079, 119080); (119155, 119162); (119275, 119295);
   (119366, 119519); (119540, 119551); (119639, 119647); (119673, 119807);
   (119893, 119893); (119965, 119965); (119968, 119969); (119971, 119972);
   (119975, 119976); (119981, 119981); (119994, 119994); (119996, 119996);
   (120004, 120004); (120070, 120070); (120075, 120076); (120085, 120085);
   (120093, 120093); (120122, 120122); (120127, 120127); (120133, 120133);
   (120135, 120137); (120145, 120145); (120486, 120487); (120780, 120781);
   (121484, 121498); (121504, 121504); (121520, 122623); (122655, 122879);
   (122887, 122887); (122905, 122906); (122914, 122914); (122917, 122917);
   (122923, 123135); (123181, 123183); (123198, 123199); (123210, 123213);
   (123216, 123535); (123567, 123583); (123642, 123646); (123648, 124895);
   (124903, 124903); (124908, 124908); (124911, 124911); (124927, 124927);
   (125125, 125126); (125143, 125183); (125260, 125263); (125274, 125277);
   (125280, 126064); (126133, 126208); (126270, 126463); (126468, 126468);
   (126496, 126496); (126499, 126499); (126501, 126502); (126504, 126504);
   (126515, 126515); (126520, 126520); (126522, 126522); (126524, 126529);
   (126531, 126534); (126536, 126536); (126538, 126538); (126540, 126540);
   (126544, 126544); (126547, 126547); (126549, 126550); (126552, 126552);
   (126554, 126554); (126556, 126556); (126558, 126558); (126560, 126560);
   (126563, 126563); (126565, 126566); (126571, 126571); (126579, 126579);
   (126584, 126584); (126589, 126589); (126591, 126591); (126602, 126602);
   (126620, 126624); (126628, 126628); (126634, 126634); (126652, 126703);
   (126706, 126975); (127020, 127023); (127124, 127135); (127151, 127152);
   (127168, 127168); (127184, 127184); (127222, 127231); (127406, 127461);
   (127491, 127503); (127548, 127551); (127561, 127567); (127570, 127583);
   (127590, 127743); (128728, 128732); (128749, 128751); (128765, 128767);
   (128884, 128895); (128985, 128991); (129004, 129007); (129009, 129023);
   (129036, 129039); (129096, 129103); (129114, 129119); (129160, 129167);
   (129198, 129199); (129202, 129279); (129620, 129631); (129646, 129647);
   (129653, 129655); (129661, 129663); (129671, 129679); (129709, 129711);
   (129723, 129727); (129734, 129743); (129754, 129759); (129768, 129775);
   (129783, 129791); (129939, 129939); (129995, 130031); (130042, 131071);
   (173792, 173823); (177977, 177983); (178206, 178207); (183970, 183983);
   (191457, 194559); (195102, 196607); (201547, 917759); (918000, 1114111)]%N.

(** [chr(cp).isprintable()] for a code point from U+0080 on. *)
Definition isprintable (cp : N) : bool :=
  negb (existsb (fun r => (fst r <=? cp)%N && (cp <=? snd r)%N) nonprintable).

(** [width] hexadecimal digits of [n], in lower case. *)
Fixpoint hex (width : nat) (n : N) : string :=
  match width with
  | O => EmptyString
  | S w => hex w (n / 16)%N +:+ String (hex_digit (N.to_nat (n mod 16)%N)) EmptyString
  end.

(** One ASCII character of [repr(s)] for the chosen quote. *)
Definition repr_char (quote c : ascii) : string :=
  let n := nat_of_ascii c in
  if Ascii.eqb c quote || Ascii.eqb c backslash then String backslash (String c EmptyString)
  else if (n =? 9)%nat then String backslash "t"
  else if (n =? 10)%nat then String backslash "n"
  else if (n =? 13)%nat then String backslash "r"
  else if (n <? 32)%nat || (n =? 127)%nat then
    String backslash
      (String "x"%char
         (String (hex_digit (n / 16)%nat) (String (hex_digit (n mod 16)%nat) EmptyString)))
  else String c EmptyString.

(** One character from U+0080 on: [bytes] is its UTF-8 encoding, which is
    kept when the character is printable; otherwise the character is
    written as an escape of two, four or eight hexadecimal digits. *)
Definition repr_code_point (cp : N) (bytes : string) : string :=
  if isprintable cp then bytes
  else if (cp <? 256)%N then String backslash (String "x"%char (hex 2 cp))
  else if (cp <? 65536)%N then String backslash (String "u"%char (hex 4 cp))
  else String backslash (String "U"%char (hex 8 cp)).

(** The six payload bits of a continuation byte. *)
Definition continuation (c : ascii) : N := (N_of_ascii c mod 64)%N.

(** The characters of [repr(s)] between the quotes.  A [str] is held as
    its UTF-8 encoding: a byte below 128 is a character, a leading byte
    announces one, two or three continuation bytes.  Byte sequences that
    encode no [str] are outside the model and end the scan unchanged. *)
Fixpoint repr_chars (quote : ascii) (s : string) : string :=
  match s with
  | EmptyString => EmptyString
  | String c rest =>
      let n := N_of_ascii c in
      if (n <? 128)%N then repr_char quote c +:+ repr_chars quote rest
      else if (n <? 224)%N then
        match rest with
        | String c1 rest1 =>
            repr_code_point ((n mod 32) * 64 + continuation c1)%N
                            (String c (String c1 EmptyString))
            +:+ repr_chars quote rest1
        | _ => s
        end
      else if (n <? 240)%N then
        match rest with
        | String c1 (String c2 rest2) =>
            repr_code_point
              (((n mod 16) * 64 + continuation c1) * 64 + continuation c2)%N
              (String c (String c1 (String c2 EmptyString)))
            +:+ repr_chars quote rest2
        | _ => s
        end
      else
        match rest with
        | String c1 (String c2 (String c3 rest3)) =>
            repr_code_point
              ((((n mod 8) * 64 + continuation c1) * 64 + continuation c2) * 64
               + continuation c3)%N
              (String c (String c1 (String c2 (String c3 EmptyString))))
            +:+ repr_chars quote rest3
        | _ => s
        end
  end.

(** [repr(s)] of a [str]: single quotes, unless the text holds a single
    quote and no double quote. *)
Definition repr_str (s : string) : string :=
  let quote := if has_char squote s && negb (has_char dquote s) then dquote else squote in
  String quote (repr_chars quote s) +:+ String quote EmptyString.

Fixpoint repr (v : pyobj) : string :=
  match v with
  | OStr s => repr_str s
  | ODict items =>
      "{" +:+ join ", " (map (fun kv => repr_str (fst kv) +:+ ": " +:+ repr (snd kv)) items)
      +:+ "}"
  end.

(** [str(v)], which is also what formatting [v] into a slot yields. *)
Definition str (v : pyobj) : string :=
  match v with
  | OStr s => s
  | ODict _ => repr v
  end.

(** [d[key]] on a dictionary value. *)
Fixpoint getitem (items : list (string * pyobj)) (key : string) : option pyobj :=
  match items with
  | [] => None
  | (k, v) :: rest => if String.eqb k key then Some v else getitem rest key
  end.

(** ** A state and exception monad for the statements of the engine *)

Definition M (A : Type) : Type := world -> outcome A * world.

Definition ret {A} (a : A) : M A := fun w => (Returned a, w).

Definition raise {A} (e : exn) : M A := fun w => (Raised e, w).

Definition bind {A B} (c : M A) (k : A -> M B) : M B :=
  fun w =>
    match c w with
    | (Returned a, w') => k a w'
    | (Raised e, w') => (Raised e, w')
    end.

(** [try: c  except Exception as e: h e]. *)
Definition try_except {A} (c : M A) (h : exn -> M A) : M A :=
  fun w =>
    match c w with
    | (Returned a, w') => (Returned a, w')
    | (Raised e, w') => h e w'
    end.

#[global] Instance M_ret : MRet M := @ret.
#[global] Instance M_bind : MBind M := fun A B k c => bind c k.

(** A [for] loop that collects one value per element. *)
Fixpoint for_each {A B} (f : A -> M B) (xs : list A) : M (list B) :=
  match xs with
  | [] => ret []
  | x :: rest =>
      y ← f x;
      ys ← for_each f rest;
      ret (y :: ys)
  end.

(** A new dictionary object. *)
Definition alloc (d : gmap string pyval) : M loc :=
  fun w =>
    let l := fresh (dom (heap w)) in
    (Returned l, {| heap := <[l := d]> (heap w); trace := trace w |}).

(** [d[key] = v] on the dictionary at [l]. *)
Definition dict_setitem (l : loc) (key : string) (v : pyval) : M unit :=
  fun w =>
    (Returned tt,
     {| heap := alter (fun d => <[key := v]> d) l (heap w); trace := trace w |}).

(** [del d[key]] on the dictionary at [l]; a missing key is a [KeyError]. *)
Definition dict_delitem (l : loc) (key : string) : M unit :=
  fun w =>
    match heap w !! l ≫= (.!! key) with
    | Some _ =>
        (Returned tt,
         {| heap := alter (fun d => delete key d) l (heap w); trace := trace w |})
    | None => (Raised (Exn "KeyError" (repr_str key)), w)
    end.

(** [retriever.invoke(query)]. *)
Definition retriever_invoke (r : VectorStoreRetriever) (query : string)
  : M (list Document) :=
  fun w =>
    (similarity_search (retriever_store r) (trace w) query (retriever_k r),
     {| heap := heap w; trace := trace w ++ [EvRetrieve query (retriever_k r)] |}).

(** ** Prompt templates *)

(** An f-string template is literal text and [{name}] slots.  The template
    of this module has no doubled or unbalanced braces. *)
Inductive segment :=
| Lit (text : string)
| Slot (name : string).

Fixpoint scan_template (t : string) (in_slot : bool) (acc : string) : list segment :=
  match t with
  | EmptyString => if in_slot then [] else [Lit acc]
  | String c rest =>
      if in_slot then
        if Ascii.eqb c "}"%char then Slot acc :: scan_template rest false EmptyString
        else scan_template rest true (acc +:+ String c EmptyString)
      else
        if Ascii.eqb c "{"%char then Lit acc :: scan_template rest true EmptyString
        else scan_template rest false (acc +:+ String c EmptyString)
  end.

(** [ChatPromptTemplate.from_template(template)]: one human message. *)
Definition from_template (t : string) : list segment :=
  scan_template t false EmptyString.

(** [prompt.format] on keyword arguments: each slot receives [str] of its variable; a
    missing variable is a [KeyError]. *)
Fixpoint format_prompt (segs : list segment) (kwargs : list (string * pyobj))
  : outcome string :=
  match segs with
  | [] => Returned EmptyString
  | Lit text :: rest =>
      match format_prompt rest kwargs with
      | Returned tail => Returned (text +:+ tail)
      | Raised e => Raised e
      end
  | Slot name :: rest =>
      match getitem kwargs name with
      | None => Raised (Exn "KeyError" (repr_str name))
      | Some v =>
          match format_prompt rest kwargs with
          | Returned tail => Returned (str v +:+ tail)
          | Raised e => Raised e
          end
      end
  end.

(** The [template] literal of [qa_search]. *)
Definition template : string :=
  "You are a helpful assistant that provides accurate information based on the given context." +:+ nl +:+
  "    " +:+ nl +:+
  "    Chat History:" +:+ nl +:+
  "    {chat_history}" +:+ nl +:+
  EmptyString +:+ nl +:+
  "    Context:" +:+ nl +:+
  "    {context}" +:+ nl +:+
  "    " +:+ nl +:+
  "    Question:" +:+ nl +:+
  "    {question}" +:+ nl +:+
  "    " +:+ nl +:+
  "    Answer the question based only on the provided context." +:+ nl +:+
  "    If the context is incomplete or vague, do your best to respond using the available information. " +:+ nl +:+
  "    If the question appears incomplete (e.g. starts with “Can you find”, “Do you”, or cuts off unexpectedly), politely inform the user that the question seems incomplete and ask them to rephrase. " +:+ nl +:+
  "    If the question refers to previous questions or responses, use the chat history to understand what the user is referring to." +:+ nl +:+
  "    If a full answer isn’t possible, clearly state what’s missing and politely ask the user for clarification. " +:+ nl +:+
  "    Do not invent or assume facts that are not explicitly present in the context. " +:+ nl +:+
  "    Keep responses brief and focused (no more than 300 words). " +:+ nl +:+
  "    Avoid repetition and long paragraphs. " +:+ nl +:+
  "    ".

(** ** utils/qa_chain.py: [qa_search] *)

Section Engine.

(** The module-level [llm = initialize_llm()]: a chat model at
    temperature 0, followed by [StrOutputParser]; it answers a prompt with
    text or an exception. *)
Variable llm : list event -> string -> outcome string.

Definition llm_invoke (prompt : string) : M string :=
  fun w =>
    (llm (trace w) prompt,
     {| heap := heap w; trace := trace w ++ [EvGenerate prompt] |}).

(** [format_docs] of [create_stuff_documents_chain]: the default document
    prompt is [{page_content}], the default separator two line feeds. *)
Definition format_docs (docs : list Document) : string :=
  join (nl +:+ nl) (map page_content docs).

(** [create_stuff_documents_chain(llm, prompt)]: assign the formatted
    documents to [context], format the prompt, call the model, parse the
    output as a string. *)
Definition document_chain (prompt : list segment)
    (context : list Document) (inputs : list (string * pyobj)) : M string :=
  let kwargs := ("context", OStr (format_docs context)) :: inputs in
  match format_prompt prompt kwargs with
  | Raised e => raise e
  | Returned text => llm_invoke text
  end.

(** [RunnablePassthrough()]: the input, unchanged. *)
Definition RunnablePassthrough (x : pyobj) : pyobj := x.

(** [RunnableLambda(lambda x: retriever.invoke(x["question"]))]. *)
Definition context_lambda (retriever : VectorStoreRetriever) (x : pyobj)
  : M (list Document) :=
  match x with
  | ODict items =>
      match getitem items "question" with
      | Some (OStr q) => retriever_invoke retriever q
      | Some (ODict _) => raise (Exn "TypeError" "query must be a string")
      | None => raise (Exn "KeyError" (repr_str "question"))
      end
  | OStr _ => raise (Exn "TypeError" "string indices must be integers")
  end.

(** The [retrieval_chain]: a parallel map whose three branches all
    receive the chain input, piped into the document chain. *)
Definition retrieval_chain (retriever : VectorStoreRetriever)
    (prompt : list segment) (x : pyobj) : M string :=
  context ← context_lambda retriever x;
  let question := RunnablePassthrough x in
  let chat_history := RunnablePassthrough x in
  document_chain prompt context
    [("question", question); ("chat_history", chat_history)].

(** [dict(doc.metadata) if hasattr(doc, "metadata") and doc.metadata else {}]:
    the items of the new dictionary.  The values are not copied: a nested
    dictionary stays the same object. *)
Definition metadata_items (h : gmap loc (gmap string pyval)) (doc : Document)
  : gmap string pyval :=
  match metadata doc with
  | Some l =>
      match h !! l with
      | Some d => if decide (d = ∅) then ∅ else d
      | None => ∅
      end
  | None => ∅
  end.

(** The body of the metadata loop for one document. *)
Definition copy_metadata (doc : Document) : M loc :=
  fun w =>
    (meta ← alloc (metadata_items (heap w) doc);
     _ ← match similarity_score doc with
         | Some score => dict_setitem meta "similarity_score" score
         | None => ret tt
         end;
     ret meta) w.

Definition default_k : Z := 5.

(** The statements under [try:]. *)
Definition qa_search_try (query : string) (retriever : VectorStoreRetriever)
    (prompt : list segment) (chat_history : option (list message))
  : M (gmap string pyval) :=
  retrieved_docs ← retriever_invoke retriever query;
  docs_metadata ← for_each copy_metadata retrieved_docs;
  answer ← retrieval_chain retriever prompt
             (ODict [("question", OStr query);
                     ("chat_history", OStr (chat_history_to_str chat_history))]);
  ret (list_to_map
         [("answer", VStr answer);
          ("document_metadata", VList (VRef <$> docs_metadata));
          ("raw_answer", VStr answer);
          ("retrieved_count", VInt (Z.of_nat (length retrieved_docs)))]).

(** The handler under [except Exception as e:]. *)
Definition qa_search_except (e : exn) : M (gmap string pyval) :=
  let error_message := "Error querying the model: " +:+ exn_str e in
  ret (list_to_map
         [("answer", VStr error_message);
          ("document_metadata", VList []);
          ("raw_answer", VStr error_message);
          ("error", VStr (exn_str e))]).

(** [vectorstore.as_retriever] is evaluated before the [try]; on [None]
    the attribute lookup raises. *)
Definition qa_search (query : string) (vectorstore : option VectorStore)
    (chat_history : option (list message)) (k : Z) : M (gmap string pyval) :=
  match vectorstore with
  | None =>
      raise (Exn "AttributeError"
                 "'NoneType' object has no attribute 'as_retriever'")
  | Some vs =>
      let retriever := {| retriever_store := vs; retriever_k := k |} in
      let prompt := from_template template in
      try_except (qa_search_try query retriever prompt chat_history)
                 qa_search_except
  end.

End Engine.


(** ** utils/streamlit.py and app.py: the session and one script run *)

(** [st.session_state]. *)
Record session_state := {
  messages : list message;
  last_query : string;
  should_process_query : bool;
  vectorstore : option VectorStore
}.

(** What the run shows: [st.error(msg)] or [st.success(...)]; the text of
    the latter holds the elapsed wall-clock time and is not modelled. *)
Inductive notice :=
| StError (msg : string)
| StSuccess.

(** utils/streamlit.py: [clear_chat]. *)
Definition clear_chat (st : session_state) : session_state :=
  {| messages := [];
     last_query := EmptyString;
     should_process_query := false;
     vectorstore := vectorstore st |}.

Definition set_messages (st : session_state) (ms : list message) : session_state :=
  {| messages := ms;
     last_query := last_query st;
     should_process_query := should_process_query st;
     vectorstore := vectorstore st |}.

(** [result[key]]: a missing key is a [KeyError], whose [str] is the
    [repr] of the key. *)
Definition result_getitem (result : gmap string pyval) (key : string) : M pyval :=
  match result !! key with
  | Some v => ret v
  | None => raise (Exn "KeyError" (repr_str key))
  end.

(** The window kept by the application. *)
Definition max_kept : Z := 10.

(** [st.session_state.messages = st.session_state.messages[-10:]] when
    longer than ten. *)
Definition trim (ms : list message) : list message :=
  if (Z.of_nat (length ms) >? max_kept)%Z then slice_from (- max_kept) ms else ms.

(** [st.session_state.should_process_query = False] followed by
    [st.session_state.messages.append({"role": "user", "content": query})]. *)
Definition append_user_turn (st : session_state) : session_state :=
  {| messages := (messages st ++ [{| role := "user"; content := last_query st;
                                     msg_metadata := None |}])%list;
     last_query := last_query st;
     should_process_query := false;
     vectorstore := vectorstore st |}.

Section App.

Variable llm : list event -> string -> outcome string.

(** The statements under [try:] of the query-processing block, given the
    session after the user turn was appended; it yields the new list of
    messages.  The two log lines read [result['answer']] and
    [result['retrieved_count']], the source loop reads
    [result["document_metadata"]], and the appended assistant turn reads
    the answer and the metadata again; the trim follows the append. *)
Definition answer_try (st : session_state) (vs : VectorStore)
    (query : string) (chat_history : list message) : M (list message) :=
  result ← qa_search llm query (Some vs) (Some chat_history) 6;
  _ ← result_getitem result "answer";
  _ ← result_getitem result "retrieved_count";
  _ ← result_getitem result "document_metadata";
  answer ← result_getitem result "answer";
  document_metadata ← result_getitem result "document_metadata";
  let appended :=
    (messages st ++ [{| role := "assistant";
                        content := match answer with VStr a => a | _ => EmptyString end;
                        msg_metadata := Some document_metadata |}])%list in
  ret (trim appended).

(** The block [if st.session_state.should_process_query and
    st.session_state.last_query:] of one script run; [vectorstore] is the
    index as loaded at the start of the run, [None] when loading failed. *)
Definition process_query (st : session_state) (w : world)
  : session_state * list notice * world :=
  if should_process_query st && negb (String.eqb (last_query st) EmptyString) then
    let query := last_query st in
    let st1 := append_user_turn st in
    let chat_history :=
      format_chat_history (drop_last (messages st1)) default_max_messages in
    match vectorstore st1 with
    | Some vs =>
        match answer_try st1 vs query chat_history w with
        | (Returned ms, w') => (set_messages st1 ms, [StSuccess], w')
        | (Raised e, w') =>
            (st1, [StError ("Error generating response: " +:+ exn_str e)], w')
        end
    | None =>
        (st1, [StError "Knowledge base not initialized. Please try again."], w)
    end
  else (st, [], w).

End App.

(** ** create_statistical_summary.py: the document aggregator *)

Module Aggregator.

#[global] Instance outcome_ret : MRet outcome := @Returned.
#[global] Instance outcome_bind : MBind outcome := fun A B k c =>
  match c with
  | Returned a => k a
  | Raised e => Raised e
  end.

(** A [Timestamp] of the [Date] column. *)
Record date := { year : Z; month : Z; day : Z }.

(** One row of the frame [pd.read_csv] returns, with its [Date] column
    converted by [pd.to_datetime].  In the text columns a cell that is
    empty or holds one of the NA tokens of the reader ([NA], [N/A],
    [null], [NaN], ...) is read as a missing value, here [None].  [Date]
    and the numeric columns hold a value in every row, [Customer_Age] an
    integer.  [Sales] and [Customer_Satisfaction] are floats, carried as
    bit patterns: the sums and means computed from them are
    floating-point and are left out of the summaries below. *)
Record sale := {
  Date : date;
  Product : option string;
  Region : option string;
  Sales : Z;
  Customer_Age : Z;
  Customer_Gender : option string;
  Customer_Satisfaction : Z
}.

(** A row of the frame [load_data] returns: the record and the derived
    columns.  A missing [Age_Group] (NaN) is [None]. *)
Record row := {
  record : sale;
  Year : Z;
  Month : Z;
  Quarter : Z;
  YearQuarter : string;
  Age_Group : option string
}.

(** [str(n)] / [astype(str)] on an integer. *)
Definition str_int (n : Z) : string :=
  DecimalString.NilZero.string_of_int (Z.to_int n).

(** [pd.cut(x, bins, labels)]: the intervals are open on the left and
    closed on the right; a value in none of them is missing. *)
Fixpoint cut (x : Z) (bins : list Z) (labels : list string) : option string :=
  match bins, labels with
  | lo :: ((hi :: _) as rest), label :: labels' =>
      if (lo <? x)%Z && (x <=? hi)%Z then Some label else cut x rest labels'
  | _, _ => None
  end.

Definition age_bins : list Z := [17; 25; 35; 50; 70]%Z.
Definition age_labels : list string := ["18-25"; "26-35"; "36-50"; "51-70"].

Definition load_row (s : sale) : row :=
  let y := year (Date s) in
  let m := month (Date s) in
  let q := ((m - 1) / 3 + 1)%Z in
  {| record := s;
     Year := y;
     Month := m;
     Quarter := q;
     YearQuarter := str_int y +:+ "-Q" +:+ str_int q;
     Age_Group := cut (Customer_Age s) age_bins age_labels |}.

Definition load_data (sales : list sale) : list row := map load_row sales.

(** [Series.unique()]: the distinct values in order of first appearance;
    a missing value is one of them. *)
Fixpoint unique_from {A} `{EqDecision A} (seen l : list A) : list A :=
  match l with
  | [] => []
  | x :: rest =>
      if decide (x ∈ seen) then unique_from seen rest
      else x :: unique_from (x :: seen) rest
  end.

Definition unique {A} `{EqDecision A} (l : list A) : list A := unique_from [] l.

(** [column == value] on a text column: a missing cell, or a missing
    value compared against, never matches. *)
Definition cell_eq (cell value : option string) : bool :=
  match cell, value with
  | Some a, Some b => String.eqb a b
  | _, _ => false
  end.

(** [column == value] on the categorical [Age_Group] column: a missing
    cell, or a missing value compared against, never matches. *)
Definition age_group_eq (cell value : option string) : bool :=
  match cell, value with
  | Some a, Some b => String.eqb a b
  | _, _ => false
  end.

(** [str(age_group)]. *)
Definition str_age_group (g : option string) : string :=
  match g with
  | Some label => label
  | None => "nan"
  end.

Definition date_leb (a b : date) : bool :=
  (year a <? year b)%Z
  || ((year a =? year b)%Z
      && ((month a <? month b)%Z
          || ((month a =? month b)%Z && (day a <=? day b)%Z))).

(** [Series.min()] and [Series.max()] of a date column; on an empty column
    the result is [NaT], here [None]. *)
Definition series_min (ds : list date) : option date :=
  match ds with
  | [] => None
  | d :: rest => Some (fold_left (fun m x => if date_leb x m then x else m) rest d)
  end.

Definition series_max (ds : list date) : option date :=
  match ds with
  | [] => None
  | d :: rest => Some (fold_left (fun m x => if date_leb m x then x else m) rest d)
  end.

Definition pad2 (n : Z) : string :=
  if (n <? 10)%Z then "0" +:+ str_int n else str_int n.

(** [t.strftime("%Y-%m-%d")]; [NaT] does not support it. *)
Definition strftime (t : option date) : outcome string :=
  match t with
  | Some d => Returned (str_int (year d) +:+ "-" +:+ pad2 (month d) +:+ "-" +:+ pad2 (day d))
  | None => Raised (Exn "ValueError" "NaTType does not support strftime")
  end.

(** The summary dictionary.  [summarized] is the chunk the aggregates are
    computed over, standing for the float-valued entries
    ([total_sales], [average_sale], [average_satisfaction] and the three
    per-category tables).  [value] is the value of the level as it is
    passed, a missing value being [None]. *)
Record summary := {
  level : string;
  value : option string;
  total_records : nat;
  date_range : string * string;
  summarized : list row
}.

(** utils/statistical_summary.py: [create_summary_dict]. *)
Definition create_summary_dict (chunk : list row) (level_name : string)
    (level_value : option string) : outcome summary :=
  start ← strftime (series_min (map (fun r => Date (record r)) chunk));
  end_ ← strftime (series_max (map (fun r => Date (record r)) chunk));
  mret {| level := level_name;
          value := level_value;
          total_records := length chunk;
          date_range := (start, end_);
          summarized := chunk |}.

(** utils/statistical_summary.py: the five plot functions, applied to the
    plots directory of the run.  Each draws a figure from the chunk with
    matplotlib (the overall one also with seaborn), saves it as a file
    named after the value, and returns the path of the file; drawing and
    saving are calls into these libraries and the file system, and may
    raise. *)
Record plotting := {
  create_time_period_plot : list row -> string -> outcome string;
  create_product_plot : list row -> option string -> outcome string;
  create_region_plot : list row -> option string -> outcome string;
  create_age_group_plot : list row -> option string -> outcome string;
  create_overall_plot : list row -> outcome string
}.

(** A document of [documents.json]: its id, the [type] of its metadata,
    the dimension key of its metadata with its value, the summary and the
    path of the plot.  The rendered text is not modelled. *)
Record document := {
  id : string;
  doc_type : string;
  doc_key : option (string * option string);
  raw_data : summary;
  plot_path : string
}.

Fixpoint for_each_doc {A} (f : A -> outcome document) (xs : list A)
  : outcome (list document) :=
  match xs with
  | [] => Returned []
  | x :: rest =>
      d ← f x;
      ds ← for_each_doc f rest;
      mret (d :: ds)
  end.

(** [s.replace(" ", "_")]. *)
Fixpoint replace_space (s : string) : string :=
  match s with
  | EmptyString => EmptyString
  | String c rest =>
      String (if Ascii.eqb c " "%char then "_"%char else c) (replace_space rest)
  end.

(** [product.replace(" ", "_")] on a cell: a missing value is a float and
    has no such method. *)
Definition cell_replace_space (product : option string) : outcome string :=
  match product with
  | Some p => Returned (replace_space p)
  | None => Raised (Exn "AttributeError" "'float' object has no attribute 'replace'")
  end.

(** [str(value)] of a cell, as an f-string prints it. *)
Definition str_cell (value : option string) : string :=
  match value with
  | Some text => text
  | None => "nan"
  end.

Definition time_period_document (plt : plotting) (sales_df : list row) (yq : string)
  : outcome document :=
  let chunk := filter (fun r => YearQuarter r = yq) sales_df in
  summary ← create_summary_dict chunk "time_period" (Some yq);
  plot_path ← create_time_period_plot plt chunk yq;
  mret {| id := "time_" +:+ yq; doc_type := "time_period";
          doc_key := Some ("period", Some yq); raw_data := summary;
          plot_path := plot_path |}.

Definition product_document (plt : plotting) (sales_df : list row)
    (product : option string) : outcome document :=
  let chunk := filter (fun r => cell_eq (Product (record r)) product = true) sales_df in
  summary ← create_summary_dict chunk "product" product;
  plot_path ← create_product_plot plt chunk product;
  name ← cell_replace_space product;
  mret {| id := "product_" +:+ name; doc_type := "product";
          doc_key := Some ("product", product); raw_data := summary;
          plot_path := plot_path |}.

Definition region_document (plt : plotting) (sales_df : list row)
    (region : option string) : outcome document :=
  let chunk := filter (fun r => cell_eq (Region (record r)) region = true) sales_df in
  summary ← create_summary_dict chunk "region" region;
  plot_path ← create_region_plot plt chunk region;
  mret {| id := "region_" +:+ str_cell region; doc_type := "region";
          doc_key := Some ("region", region); raw_data := summary;
          plot_path := plot_path |}.

Definition age_group_document (plt : plotting) (sales_df : list row)
    (age_group : option string) : outcome document :=
  let chunk := filter (fun r => age_group_eq (Age_Group r) age_group = true) sales_df in
  summary ← create_summary_dict chunk "age_group" (Some (str_age_group age_group));
  plot_path ← create_age_group_plot plt chunk age_group;
  mret {| id := "age_group_" +:+ str_age_group age_group; doc_type := "demographic";
          doc_key := Some ("age_group", Some (str_age_group age_group));
          raw_data := summary;
          plot_path := plot_path |}.

(** The script body from the loaded frame to the list of documents: the
    five groups of documents in order.  An exception ends the run before
    [documents.json] is written. *)
Definition main (plt : plotting) (sales : list sale) : outcome (list document) :=
  let sales_df := load_data sales in
  time_docs ← for_each_doc (time_period_document plt sales_df)
                (unique (map YearQuarter sales_df));
  product_docs ← for_each_doc (product_document plt sales_df)
                   (unique (map (fun r => Product (record r)) sales_df));
  region_docs ← for_each_doc (region_document plt sales_df)
                  (unique (map (fun r => Region (record r)) sales_df));
  age_docs ← for_each_doc (age_group_document plt sales_df)
               (unique (map Age_Group sales_df));
  overall_summary ← create_summary_dict sales_df "overall" (Some "all_data");
  plot_path ← create_overall_plot plt sales_df;
  mret (time_docs ++ product_docs ++ region_docs ++ age_docs
        ++ [{| id := "overall_summary"; doc_type := "overall";
               doc_key := None; raw_data := overall_summary;
               plot_path := plot_path |}])%list.

(** What the age-group document of the label [g] is expected to hold: the
    rows of the frame that carry this label. *)
Definition age_group_document_of (sales_df : list row) (g : option string)
    (d : document) : Prop :=
  exists label,
    g = Some label
    /\ doc_type d = "demographic"
    /\ doc_key d = Some ("age_group", Some label)
    /\ total_records (raw_data d)
       = length (filter (fun r => Age_Group r = Some label) sales_df)
    /\ summarized (raw_data d)
       = filter (fun r => Age_Group r = Some label) sales_df.

End Aggregator.


(** ** The vector index of the specification *)

Section SpecIndex.

(** [nearer q a b]: document [a] is at least as near to the query [q] as
    document [b] under the distance of the store. *)
Variable nearer : string -> Document -> Document -> bool.

Fixpoint insert_ranked (q : string) (d : Document) (ranked : list Document)
  : list Document :=
  match ranked with
  | [] => [d]
  | d' :: rest =>
      if nearer q d d' then d :: d' :: rest
      else d' :: insert_ranked q d rest
  end.

Definition rank (q : string) (docs : list Document) : list Document :=
  foldr (insert_ranked q) [] docs.

(** Modelled from the spec: the [search] operation of the Vector Index
    Adapter, whose module [utils/vectorstore.py] is not among the sources.
    Section 4.2: embed [query], return the [k] nearest documents by the
    distance of the store. *)
Definition search (index : list Document) (query : string) (k : Z)
  : list Document :=
  take (Z.to_nat k) (rank query index).

(** Modelled from the spec: an index holding [docs], reachable and
    unchanged during the queries. *)
Definition spec_index (docs : list Document) : VectorStore :=
  {| similarity_search := fun _ query k => Returned (search docs query k) |}.

End SpecIndex.

(** ** Notions used in the statements *)

(** The last [n] elements of a list, in their order. *)
Definition last_n {A} (n : nat) (l : list A) : list A :=
  drop (length l - n) l.

(** The line the specification gives for one turn: the speaker, the content,
    and a blank line. *)
Definition spec_line (turn : message) : string :=
  (if decide (role turn = "user") then "User: " else "Assistant: ")
  +:+ content turn +:+ nl +:+ nl.

(** The block the specification describes: the lines of the turns in
    chronological order. *)
Fixpoint rendered_block (turns : list message) : string :=
  match turns with
  | [] => EmptyString
  | turn :: rest => spec_line turn +:+ rendered_block rest
  end.

(** The literal text of the template around its three slots. *)
Definition template_text (i : nat) : string :=
  match from_template template !! i with
  | Some (Lit text) => text
  | _ => EmptyString
  end.

(** The prompt in which the three slots of the template hold the given
    texts. *)
Definition prompt_text (chat_history_slot context_slot question_slot : string)
  : string :=
  template_text 0 +:+ chat_history_slot +:+ template_text 2 +:+ context_slot
  +:+ template_text 4 +:+ question_slot +:+ template_text 6.

(** The input dictionary of the retrieval chain. *)
Definition chain_input (query : string) (chat_history : option (list message))
  : pyobj :=
  ODict [("question", OStr query);
         ("chat_history", OStr (chat_history_to_str chat_history))].

(** The items of a dictionary together with the similarity score of the
    document, when it carries one. *)
Definition with_score (doc : Document) (items : gmap string pyval)
  : gmap string pyval :=
  match similarity_score doc with
  | Some score => <["similarity_score" := score]> items
  | None => items
  end.

(** The run of the metadata loop over the heap: the new objects and the heap
    after the loop. *)
Fixpoint copy_all (docs : list Document) (h : gmap loc (gmap string pyval))
  : list loc * gmap loc (gmap string pyval) :=
  match docs with
  | [] => ([], h)
  | doc :: rest =>
      let l := fresh (dom h) in
      let '(ls, h') := copy_all rest (<[l := with_score doc (metadata_items h doc)]> h) in
      (l :: ls, h')
  end.

(** [d[k1][k2]...] starting from the dictionary at [l]. *)
Fixpoint getpath (h : gmap loc (gmap string pyval)) (l : loc) (path : list string)
  : option pyval :=
  match path with
  | [] => Some (VRef l)
  | [key] => h !! l ≫= (.!! key)
  | key :: rest =>
      match h !! l ≫= (.!! key) with
      | Some (VRef l') => getpath h l' rest
      | _ => None
      end
  end.

(** The retrieval requests among some events. *)
Definition retrievals (events : list event) : list (string * Z) :=
  omap (fun ev => match ev with
                  | EvRetrieve q k => Some (q, k)
                  | EvGenerate _ => None
                  end) events.

(** The prompts sent to the chat model among some events. *)
Definition generations (events : list event) : list string :=
  omap (fun ev => match ev with
                  | EvGenerate p => Some p
                  | EvRetrieve _ _ => None
                  end) events.

(** The prompt the chain builds from the documents [context]: both the
    chat-history slot and the question slot receive [str] of the chain
    input. *)
Definition chain_prompt (query : string) (chat_history : option (list message))
    (context : list Document) : string :=
  prompt_text (str (chain_input query chat_history)) (format_docs context)
              (str (chain_input query chat_history)).

(** The dictionary returned when the statements under [try] complete. *)
Definition success_result (answer : string) (metas : list loc) (count : nat)
  : gmap string pyval :=
  list_to_map
    [("answer", VStr answer);
     ("document_metadata", VList (VRef <$> metas));
     ("raw_answer", VStr answer);
     ("retrieved_count", VInt (Z.of_nat count))].

(** [d[k1]...[kn] = v] starting from the dictionary at [l]: the keys before
    the last are read, the last one is assigned. *)
Fixpoint setpath (l : loc) (path : list string) (v : pyval) : M unit :=
  match path with
  | [] => ret tt
  | [key] => dict_setitem l key v
  | key :: rest =>
      fun w =>
        match heap w !! l ≫= (.!! key) with
        | Some (VRef l') => setpath l' rest v w
        | Some _ => (Raised (Exn "TypeError" "object does not support item assignment"), w)
        | None => (Raised (Exn "KeyError" (repr_str key)), w)
        end
  end.

(** The dictionary returned by the handler for the exception [e]. *)
Definition failure_result (e : exn) : gmap string pyval :=
  list_to_map
    [("answer", VStr ("Error querying the model: " +:+ exn_str e));
     ("document_metadata", VList []);
     ("raw_answer", VStr ("Error querying the model: " +:+ exn_str e));
     ("error", VStr (exn_str e))].

(** Retrieval or generation fails with [e] during a call of [qa_search]:
    the first retrieval raises it, or the retrieval inside the chain does,
    or the chat model does on the prompt built from the retrieved
    documents. *)
Definition step_failure (llm : list event -> string -> outcome string)
    (query : string) (vs : VectorStore) (chat_history : option (list message))
    (k : Z) (w : world) (e : exn) : Prop :=
  similarity_search vs (trace w) query k = Raised e
  \/ (exists docs,
        similarity_search vs (trace w) query k = Returned docs
        /\ similarity_search vs (trace w ++ [EvRetrieve query k]) query k = Raised e)
  \/ (exists docs context,
        similarity_search vs (trace w) query k = Returned docs
        /\ similarity_search vs (trace w ++ [EvRetrieve query k]) query k
           = Returned context
        /\ llm ((trace w ++ [EvRetrieve query k]) ++ [EvRetrieve query k])
               (chain_prompt query chat_history context) = Raised e).

(** ** Sample inputs *)

Module Sample.

(** A chat model that always answers, and one that is down. *)
Definition llm : list event -> string -> outcome string :=
  fun _ _ => Returned "Widget A sold 100.".

Definition failing_llm : list event -> string -> outcome string :=
  fun _ _ => Raised (Exn "RuntimeError" "service unavailable").

(** A heap with the metadata of two stored documents; the first holds a
    nested [raw_data] dictionary. *)
Definition stored : gmap loc (gmap string pyval) :=
  {[ 1%positive := {[ "type" := VStr "product"; "product" := VStr "Widget A";
                      "raw_data" := VRef 2%positive;
                      "plot_path" := VStr "plots/product_Widget_A.png" ]};
     2%positive := {[ "total_records" := VInt 4; "level" := VStr "product" ]};
     3%positive := {[ "type" := VStr "overall" ]} ]}.

Definition widget : Document :=
  {| page_content := "Sales Summary for Widget A";
     metadata := Some 1%positive;
     similarity_score := None |}.

Definition overall : Document :=
  {| page_content := "Overall Sales Summary";
     metadata := Some 3%positive;
     similarity_score := Some (VFloat 4600877379321698714) |}.

Definition store : VectorStore :=
  {| similarity_search := fun _ _ k => Returned (take (Z.to_nat k) [widget; overall]) |}.

Definition world0 : world := {| heap := stored; trace := [] |}.

Definition turn (i : nat) : message :=
  {| role := if Nat.even i then "user" else "assistant";
     content := "turn";
     msg_metadata := None |}.

(** A session holding ten turns and a pending query. *)
Definition session (vs : option VectorStore) : session_state :=
  {| messages := turn <$> seq 0 10;
     last_query := "What is the total sales for Widget A?";
     should_process_query := true;
     vectorstore := vs |}.

(** Two sales records: a customer of 30 and a customer of 75. *)
Definition sale_in_range : Aggregator.sale :=
  {| Aggregator.Date :=
       {| Aggregator.year := 2023; Aggregator.month := 5; Aggregator.day := 7 |};
     Aggregator.Product := Some "Widget A";
     Aggregator.Region := Some "North";
     Aggregator.Sales := 4636737291354636288;
     Aggregator.Customer_Age := 30;
     Aggregator.Customer_Gender := Some "Female";
     Aggregator.Customer_Satisfaction := 4616189618054758400 |}.

Definition sale_out_of_range : Aggregator.sale :=
  {| Aggregator.Date :=
       {| Aggregator.year := 2023; Aggregator.month := 11; Aggregator.day := 17 |};
     Aggregator.Product := Some "Widget B";
     Aggregator.Region := Some "South";
     Aggregator.Sales := 4641240890982006784;
     Aggregator.Customer_Age := 75;
     Aggregator.Customer_Gender := Some "Male";
     Aggregator.Customer_Satisfaction := 4613937818241073152 |}.

(** Plot functions that draw and save every figure. *)
Definition plots : Aggregator.plotting :=
  {| Aggregator.create_time_period_plot := fun _ yq =>
       Returned ("sales_data_statistics/plots/time_period_" +:+ yq +:+ ".png");
     Aggregator.create_product_plot := fun _ product =>
       Returned ("sales_data_statistics/plots/product_"
                 +:+ Aggregator.str_cell product +:+ ".png");
     Aggregator.create_region_plot := fun _ region =>
       Returned ("sales_data_statistics/plots/region_"
                 +:+ Aggregator.str_cell region +:+ ".png");
     Aggregator.create_age_group_plot := fun _ age_group =>
       Returned ("sales_data_statistics/plots/age_group_"
                 +:+ Aggregator.str_age_group age_group +:+ ".png");
     Aggregator.create_overall_plot := fun _ =>
       Returned "sales_data_statistics/plots/overall_summary.png" |}.

(** An index of the specification holding three documents, ranked by
    the length of their text. *)
Definition time_period : Document :=
  {| page_content := "Sales Summary for 2023-Q1";
     metadata := None;
     similarity_score := None |}.

Definition nearer (q : string) (a b : Document) : bool :=
  (String.length (page_content a) <=? String.length (page_content b))%nat.

Definition index : list Document := [time_period; widget; overall].

(** The result and the world after [qa_search] on the sample index with
    [k = 2]. *)
Definition result : gmap string pyval :=
  success_result "Widget A sold 100." [4%positive; 5%positive] 2.

Definition world1 : world :=
  (qa_search llm "q" (Some store) None 2 world0).2.

End Sample.

(** ** app.py: setting a query and what one script run displays *)

(** [set_query]. *)
Definition set_query (query : string) (st : session_state) : session_state :=
  {| messages := messages st;
     last_query := query;
     should_process_query := true;
     vectorstore := vectorstore st |}.

(** [next((m for m in reversed(messages) if m["role"] == r), None)]. *)
Definition last_with_role (r : string) (ms : list message) : option message :=
  List.find (fun m => String.eqb (role m) r) (rev ms).

(** The latest-interaction block: the question and the answer it shows, if
    it shows any.  A message dictionary is never empty, so both tests of
    [if last_question and last_answer] are tests for [None]. *)
Definition latest_interaction (ms : list message) : option (message * message) :=
  if (2 <=? length ms)%nat then
    match last_with_role "user" ms, last_with_role "assistant" ms with
    | Some last_question, Some last_answer => Some (last_question, last_answer)
    | _, _ => None
    end
  else None.

(** [range(start, stop, step)] for a positive [step]. *)
Definition py_range (start stop step : Z) : list Z :=
  if (stop <=? start)%Z then []
  else (fun j => (start + step * Z.of_nat j)%Z)
       <$> seq 0 (Z.to_nat ((stop - start + step - 1) / step)).

(** [messages[i]] for an index that is not negative. *)
Definition message_at (ms : list message) (i : Z) : outcome message :=
  match ms !! Z.to_nat i with
  | Some m => Returned m
  | None => Raised (Exn "IndexError" "list index out of range")
  end.

(** The body of the loop of the history block for the index [i]: the
    messages it displays. *)
Definition display_pair (ms : list message) (i : Z) : outcome (list message) :=
  if (i + 1 <? Z.of_nat (length ms))%Z then
    match message_at ms i, message_at ms (i + 1) with
    | Returned a, Returned b => Returned [a; b]
    | Raised e, _ => Raised e
    | _, Raised e => Raised e
    end
  else Returned [].

Fixpoint display_pairs (ms : list message) (indices : list Z)
  : outcome (list message) :=
  match indices with
  | [] => Returned []
  | i :: rest =>
      match display_pair ms i with
      | Raised e => Raised e
      | Returned shown =>
          match display_pairs ms rest with
          | Raised e => Raised e
          | Returned more => Returned (shown ++ more)
          end
      end
  end.

(** The previous-conversations block: the messages it displays, in
    order. *)
Definition displayed_history (ms : list message) : outcome (list message) :=
  if (2 <? length ms)%nat
  then display_pairs ms (py_range 0 (Z.of_nat (length ms) - 2) 2)
  else Returned [].

(** ** evaluation.py: collecting the answers to grade *)

(** The loop over the rows of the evaluation data: [qa_search(row["query"],
    vectorstore, k=6)] and [result["answer"]] for each row.  The index is
    what [get_vectorstore()] returned and is not tested before the loop. *)
Definition rag_answers (llm : list event -> string -> outcome string)
    (vectorstore : option VectorStore) (queries : list string) : M (list pyval) :=
  for_each (fun query =>
              result ← qa_search llm query vectorstore None 6;
              result_getitem result "answer")
           queries.

(** ** Notions for the documents of the aggregator *)

Module AggregatorNotions.
Import Aggregator.

(** The document of the value [v] of a column: its kind, and the rows it
    aggregates, those that carry [v] in the column. *)
Definition group_document {B} `{EqDecision B} (column : row -> B) (kind : string)
    (sales_df : list row) (v : B) (d : document) : Prop :=
  doc_type d = kind
  /\ total_records (raw_data d) = length (filter (fun r => column r = v) sales_df)
  /\ summarized (raw_data d) = filter (fun r => column r = v) sales_df.

(** The plot functions draw and save every figure asked of them. *)
Definition draws_every_figure (plt : plotting) : Prop :=
  (forall chunk yq, exists path, create_time_period_plot plt chunk yq = Returned path)
  /\ (forall chunk v, exists path, create_product_plot plt chunk v = Returned path)
  /\ (forall chunk v, exists path, create_region_plot plt chunk v = Returned path)
  /\ (forall chunk v, exists path, create_age_group_plot plt chunk v = Returned path)
  /\ (forall df, exists path, create_overall_plot plt df = Returned path).

(** The documents of one kind among those written. *)
Definition documents_of_kind (kind : string) (docs : list document) : list document :=
  filter (fun d => doc_type d = kind) docs.

(** The records counted by some documents, with repetition. *)
Definition records_counted (docs : list document) : nat :=
  sum_list ((fun d => total_records (raw_data d)) <$> docs).

End AggregatorNotions.

(** ** utils/streamlit.py: the source cards *)

Module Display.

(** Case conversion of the ASCII letters. *)
Definition is_lower (c : ascii) : bool :=
  (97 <=? nat_of_ascii c)%nat && (nat_of_ascii c <=? 122)%nat.

Definition is_upper (c : ascii) : bool :=
  (65 <=? nat_of_ascii c)%nat && (nat_of_ascii c <=? 90)%nat.

Definition to_upper (c : ascii) : ascii :=
  if is_lower c then ascii_of_nat (nat_of_ascii c - 32) else c.

Definition to_lower (c : ascii) : ascii :=
  if is_upper c then ascii_of_nat (nat_of_ascii c + 32) else c.

Fixpoint lower (s : string) : string :=
  match s with
  | EmptyString => EmptyString
  | String c rest => String (to_lower c) (lower rest)
  end.

(** [s.capitalize()] on a text of ASCII characters. *)
Definition ascii_capitalize (s : string) : string :=
  match s with
  | EmptyString => EmptyString
  | String c rest => String (to_upper c) (lower rest)
  end.

(** [s.title()] on a text of ASCII characters: a letter is upper-cased at
    the start of a run of letters and lower-cased inside it. *)
Fixpoint title_from (inside_word : bool) (s : string) : string :=
  match s with
  | EmptyString => EmptyString
  | String c rest =>
      if is_lower c || is_upper c
      then String (if inside_word then to_lower c else to_upper c) (title_from true rest)
      else String c (title_from false rest)
  end.

Definition ascii_title (s : string) : string := title_from false s.

(** No byte of the text is outside ASCII. *)
Fixpoint is_ascii (s : string) : bool :=
  match s with
  | EmptyString => true
  | String c rest => (nat_of_ascii c <? 128)%nat && is_ascii rest
  end.

(** [s.replace(old, new)] for single characters. *)
Fixpoint replace_char (old new : ascii) (s : string) : string :=
  match s with
  | EmptyString => EmptyString
  | String c rest =>
      String (if Ascii.eqb c old then new else c) (replace_char old new rest)
  end.

Section Cards.

(** [format(v, spec)] for the number formats of the cards; it depends on
    floating-point printing and raises on a value that is not a number. *)
Variable format_number : string -> pyval -> outcome string.

(** [str(v)] of a value that is not a string. *)
Variable str_other : pyval -> string.

(** [s.capitalize()] and [s.title()] on a text that holds characters
    outside ASCII: they follow the case mappings of the Unicode database
    of the interpreter. *)
Variable unicode_capitalize : string -> string.
Variable unicode_title : string -> string.

(** [s.capitalize()]. *)
Definition capitalize (s : string) : string :=
  if is_ascii s then ascii_capitalize s else unicode_capitalize s.

(** [s.title()]. *)
Definition title (s : string) : string :=
  if is_ascii s then ascii_title s else unicode_title s.

(** [str(v)] as an f-string prints a value. *)
Definition format_value (v : pyval) : string :=
  match v with
  | VStr s => s
  | _ => str_other v
  end.

(** The loop over the four dimension keys. *)
Definition add_dimension (metadata : gmap string pyval)
    (display_data : gmap string pyval) (key : string) : gmap string pyval :=
  match metadata !! key with
  | Some v => <[title (replace_char "_" " " key) := v]> display_data
  | None => display_data
  end.

(** One formatted entry taken from [raw_data] when the key is there. *)
Definition add_formatted (raw_data : gmap string pyval) (key name spec : string)
    (before after : string) (display_data : gmap string pyval)
  : outcome (gmap string pyval) :=
  match raw_data !! key with
  | Some v =>
      text ← format_number spec v;
      mret (<[name := VStr (before +:+ text +:+ after)]> display_data)
  | None => Returned display_data
  end.

(** [extract_display_metadata]; [h] resolves the [raw_data] reference, and
    a value that is not a dictionary is skipped. *)
Definition extract_display_metadata (h : gmap loc (gmap string pyval))
    (metadata : gmap string pyval) : outcome (gmap string pyval) :=
  display_data ←
    match metadata !! "type" with
    | Some (VStr t) => Returned {[ "Type" := VStr (capitalize t) ]}
    | Some _ =>
        Raised (Exn "AttributeError" "object has no attribute 'capitalize'")
    | None => Returned ∅
    end;
  let display_data :=
    foldl (add_dimension metadata) display_data
          ["period"; "product"; "region"; "age_group"] in
  match metadata !! "raw_data" with
  | Some (VRef l) =>
      match h !! l with
      | Some raw_data =>
          display_data ← add_formatted raw_data "total_sales" "Total Sales"
                            ",.2f" "$" EmptyString display_data;
          display_data ← add_formatted raw_data "average_sale" "Average Sale"
                            ".2f" "$" EmptyString display_data;
          display_data ← add_formatted raw_data "average_satisfaction"
                            "Avg. Satisfaction" ".2f" EmptyString "/5" display_data;
          mret (match raw_data !! "total_records" with
                | Some v => <["Total Records" := v]> display_data
                | None => display_data
                end)
      | None => Returned display_data
      end
  | _ => Returned display_data
  end.

(** The heading [display_message] writes in the expander of a source, when
    it writes one. *)
Definition source_heading (display_data : gmap string pyval) : option string :=
  match display_data !! "Type" with
  | None => None
  | Some ty =>
      let is_type (name : string) :=
        match ty with VStr s => String.eqb s name | _ => false end in
      match display_data !! "Period", display_data !! "Product",
            display_data !! "Region", display_data !! "Age Group" with
      | period, product, region, age_group =>
          if is_type "Time_period" && bool_decide (is_Some period) then
            Some ("**" +:+ format_value ty +:+ ": "
                  +:+ format_value (default VNone period) +:+ "**")
          else if is_type "Product" && bool_decide (is_Some product) then
            Some ("**" +:+ format_value (default VNone product) +:+ "**")
          else if is_type "Region" && bool_decide (is_Some region) then
            Some ("**" +:+ format_value (default VNone region) +:+ " Region**")
          else if is_type "Demographic" && bool_decide (is_Some age_group) then
            Some ("**Age Group: " +:+ format_value (default VNone age_group) +:+ "**")
          else if is_type "Overall" then Some "**Overall Summary**"
          else Some ("**" +:+ format_value ty +:+ "**")
      end
  end.

(** The entries written before [raw_data] is read. *)
Definition base_display (metadata : gmap string pyval) : gmap string pyval :=
  foldl (add_dimension metadata)
        (match metadata !! "type" with
         | Some (VStr t) => {[ "Type" := VStr (capitalize t) ]}
         | _ => ∅
         end)
        ["period"; "product"; "region"; "age_group"].

End Cards.

End Display.

(** ** Further notions *)

(** A text [repr] leaves as it is between its quotes: printable ASCII
    characters, no backslash, and not both kinds of quote. *)
Definition plain_char (c : ascii) : bool :=
  negb (Ascii.eqb c backslash)
  && (32 <=? nat_of_ascii c)%nat
  && (nat_of_ascii c <? 127)%nat.

Fixpoint plain_text (s : string) : bool :=
  match s with
  | EmptyString => true
  | String c rest => plain_char c && plain_text rest
  end.

Definition mixed_quotes (s : string) : bool :=
  has_char squote s && has_char dquote s.

(** The events a call adds to the trace. *)
Definition new_events (before after : world) : list event :=
  drop (length (trace before)) (trace after).

(** A turn reduced to what the engine is given: its role, read as [user]
    or [assistant], and its content. *)
Definition normalize_turn (msg : message) : message :=
  {| role := if decide (role msg = "user") then "user" else "assistant";
     content := content msg;
     msg_metadata := None |}.

(** * Properties *)

(** ** Strings *)

Lemma string_app_cons (x : ascii) (a b : string) :
  String x a +:+ b = String x (a +:+ b).
Proof. reflexivity. Qed.

Lemma string_app_nil (b : string) : EmptyString +:+ b = b.
Proof. reflexivity. Qed.

Lemma string_app_assoc (a b c : string) : (a +:+ b) +:+ c = a +:+ (b +:+ c).
Proof.
  induction a as [|x a IH]; [reflexivity|].
  rewrite !string_app_cons. f_equal. exact IH.
Qed.

Lemma string_app_empty_r (a : string) : a +:+ EmptyString = a.
Proof.
  induction a as [|x a IH]; [reflexivity|].
  rewrite string_app_cons. f_equal. exact IH.
Qed.

Lemma startswith_app (p s : string) : startswith (p +:+ s) p = true.
Proof.
  induction p as [|x p IH]; [reflexivity|].
  rewrite string_app_cons. cbn [startswith].
  rewrite Ascii.eqb_refl. exact IH.
Qed.

Lemma str_contains_prefix (p s : string) : str_contains p (p +:+ s) = true.
Proof.
  destruct (p +:+ s) eqn:E; cbn [str_contains]; rewrite <- E, startswith_app;
    reflexivity.
Qed.

Lemma str_contains_suffix (p s : string) : str_contains s (p +:+ s) = true.
Proof.
  induction p as [|x p IH].
  - rewrite string_app_nil. rewrite <- (string_app_empty_r s) at 2.
    apply str_contains_prefix.
  - rewrite string_app_cons. cbn [str_contains]. rewrite IH. apply orb_true_r.
Qed.

Lemma eqb_decide (a b : string) :
  String.eqb a b = if decide (a = b) then true else false.
Proof.
  destruct (decide (a = b)) as [->|Hne].
  - apply String.eqb_refl.
  - now apply String.eqb_neq.
Qed.

(** ** Rendering of the chat history *)

Lemma history_line_spec (msg : message) : history_line msg = spec_line msg.
Proof.
  unfold history_line, spec_line. rewrite eqb_decide.
  destruct (decide (role msg = "user")); reflexivity.
Qed.

Lemma fold_history_lines (turns : list message) (acc : string) :
  fold_left (fun acc msg => acc +:+ history_line msg) turns acc
  = acc +:+ rendered_block turns.
Proof.
  revert acc. induction turns as [|t turns IH]; intros acc;
    cbn [fold_left rendered_block].
  - now rewrite string_app_empty_r.
  - rewrite IH, string_app_assoc, history_line_spec. reflexivity.
Qed.

Lemma chat_history_to_str_block (history : list message) :
  chat_history_to_str (Some history) = rendered_block history.
Proof.
  destruct history as [|t turns]; [reflexivity|].
  unfold chat_history_to_str. now rewrite fold_history_lines.
Qed.

Lemma rendered_block_app (a b : list message) :
  rendered_block (a ++ b) = rendered_block a +:+ rendered_block b.
Proof.
  induction a as [|t a IH]; simpl; [reflexivity|].
  now rewrite IH, string_app_assoc.
Qed.

Lemma slice_from_last_n {A} (n : nat) (l : list A) :
  (0 < n < length l)%nat -> slice_from (- Z.of_nat n) l = last_n n l.
Proof.
  intros Hlt. unfold slice_from, last_n.
  destruct (Z.ltb_spec (- Z.of_nat n) 0) as [Hneg|Hpos]; [|lia].
  f_equal. lia.
Qed.

Lemma last_n_all {A} (n : nat) (l : list A) :
  (length l <= n)%nat -> last_n n l = l.
Proof.
  intros Hle. unfold last_n.
  replace (length l - n)%nat with 0%nat by lia. reflexivity.
Qed.

Lemma last_n_length {A} (n : nat) (l : list A) :
  length (last_n n l) = Nat.min n (length l).
Proof. unfold last_n. rewrite length_drop. lia. Qed.

(** The ten-message window of [format_chat_history]. *)
Lemma recent_messages_last_n (msgs : list message) :
  (if (Z.of_nat (length msgs) >? default_max_messages)%Z
   then slice_from (- default_max_messages) msgs else msgs)
  = last_n 10 msgs.
Proof.
  unfold default_max_messages.
  destruct (Z.gtb_spec (Z.of_nat (length msgs)) 10) as [Hgt|Hle].
  - apply (slice_from_last_n 10 msgs). lia.
  - symmetry. apply last_n_all. lia.
Qed.

Lemma rendered_block_normalized (msgs : list message) :
  rendered_block
    (map (fun msg =>
            {| role := if String.eqb (role msg) "user" then "user" else "assistant";
               content := content msg;
               msg_metadata := None |}) msgs)
  = rendered_block msgs.
Proof.
  induction msgs as [|m msgs IH]; simpl; [reflexivity|].
  rewrite IH. f_equal. unfold spec_line; simpl. rewrite eqb_decide.
  destruct (decide (role m = "user")); reflexivity.
Qed.

(** C4. The rendered history block is the sequence of lines
    [User: <content>] / [Assistant: <content>], each followed by a blank
    line, in chronological order (so the block of a concatenation is the
    concatenation of the blocks); rendering what [format_chat_history]
    passes on shows the ten most recent turns when there are more than ten
    and never more than ten; an omitted and an empty history both render to
    the empty string, and [qa_search] behaves the same on both. *)
Theorem chat_history_rendering :
  (forall history, chat_history_to_str (Some history) = rendered_block history)
  /\ (forall earlier later,
        chat_history_to_str (Some (earlier ++ later))
        = chat_history_to_str (Some earlier) +:+ chat_history_to_str (Some later))
  /\ (forall msgs,
        chat_history_to_str (Some (format_chat_history msgs default_max_messages))
        = rendered_block (last_n 10 msgs)
        /\ (length (format_chat_history msgs default_max_messages) <= 10)%nat)
  /\ chat_history_to_str None = EmptyString
  /\ chat_history_to_str (Some []) = EmptyString
  /\ (forall llm query vectorstore k w,
        qa_search llm query vectorstore None k w
        = qa_search llm query vectorstore (Some []) k w).
Proof.
  split; [exact chat_history_to_str_block|].
  split.
  { intros a b. rewrite !chat_history_to_str_block. apply rendered_block_app. }
  split.
  { intros msgs. unfold format_chat_history.
    rewrite recent_messages_last_n, chat_history_to_str_block.
    split; [apply rendered_block_normalized|].
    rewrite length_map, last_n_length. lia. }
  repeat split; reflexivity.
Qed.


(** ** The metadata loop *)

Lemma copy_metadata_run (doc : Document) (w : world) :
  copy_metadata doc w
  = (Returned (fresh (dom (heap w))),
     {| heap := <[fresh (dom (heap w)) := with_score doc (metadata_items (heap w) doc)]>
                  (heap w);
        trace := trace w |}).
Proof.
  unfold copy_metadata, with_score, mbind, M_bind, bind, alloc, dict_setitem, ret.
  destruct (similarity_score doc) as [score|]; cbn; [|reflexivity].
  rewrite alter_insert_eq. reflexivity.
Qed.

Lemma for_each_copy_run (docs : list Document) (w : world) :
  for_each copy_metadata docs w
  = (Returned (copy_all docs (heap w)).1,
     {| heap := (copy_all docs (heap w)).2; trace := trace w |}).
Proof.
  revert w. induction docs as [|doc rest IH]; intros w.
  - destruct w; reflexivity.
  - cbn [for_each copy_all]. unfold mbind, M_bind, bind at 1.
    rewrite copy_metadata_run. unfold bind at 1. rewrite IH. cbn [heap trace].
    destruct (copy_all rest _) as [ls h']. reflexivity.
Qed.

Lemma metadata_items_stored (h : gmap loc (gmap string pyval)) doc l d :
  metadata doc = Some l -> h !! l = Some d -> metadata_items h doc = d.
Proof.
  intros Hm Hl. unfold metadata_items. rewrite Hm, Hl.
  destruct (decide (d = ∅)) as [->|]; reflexivity.
Qed.

(** The loop allocates one new object per document, leaves every object that
    existed untouched, and gives each new object the items of the metadata
    of its document. *)
Lemma copy_all_spec (docs : list Document) (h : gmap loc (gmap string pyval)) :
  h ⊆ (copy_all docs h).2
  /\ length (copy_all docs h).1 = length docs
  /\ forall i doc m,
       docs !! i = Some doc -> (copy_all docs h).1 !! i = Some m ->
       h !! m = None
       /\ forall l d, metadata doc = Some l -> h !! l = Some d ->
                      (copy_all docs h).2 !! m = Some (with_score doc d).
Proof.
  revert h. induction docs as [|doc rest IH]; intros h.
  - cbn. split; [reflexivity|]. split; [reflexivity|]. intros i doc m Hd. discriminate.
  - cbn [copy_all].
    set (l0 := fresh (dom h)).
    set (h1 := <[l0 := with_score doc (metadata_items h doc)]> h).
    specialize (IH h1). destruct (copy_all rest h1) as [ls h'] eqn:E.
    cbn [fst snd] in *. destruct IH as (Hsub & Hlen & Hall).
    assert (Hfresh : h !! l0 = None).
    { apply (not_elem_of_dom (D := gset loc)). apply is_fresh. }
    assert (Hsub1 : h ⊆ h1) by (apply insert_subseteq; exact Hfresh).
    split; [etrans; eassumption|].
    split; [cbn; now rewrite Hlen|].
    intros [|i] doc' m Hd Hm; cbn in Hd, Hm.
    + injection Hd as <-. injection Hm as <-. split; [exact Hfresh|].
      intros l d Hmeta Hl.
      apply (lookup_weaken h1); [|exact Hsub].
      unfold h1. rewrite lookup_insert_eq.
      now rewrite (metadata_items_stored h doc l d).
    + destruct (Hall i doc' m Hd Hm) as [Hnone Hcontent]. split.
      * destruct (h !! m) as [x|] eqn:Hx; [|reflexivity].
        apply (lookup_weaken _ h1) in Hx; [congruence | exact Hsub1].
      * intros l d Hmeta Hl. apply (Hcontent l d Hmeta).
        apply (lookup_weaken h); assumption.
Qed.

(** ** The prompt *)

Lemma from_template_template :
  from_template template
  = [Lit (template_text 0); Slot "chat_history"; Lit (template_text 2);
     Slot "context"; Lit (template_text 4); Slot "question";
     Lit (template_text 6)].
Proof. vm_compute. reflexivity. Qed.

(** Formatting the template: each slot receives [str] of the value bound to
    its name. *)
Lemma format_prompt_template (context : string) (question chat_history : pyobj) :
  format_prompt (from_template template)
    [("context", OStr context); ("question", question);
     ("chat_history", chat_history)]
  = Returned (prompt_text (str chat_history) context (str question)).
Proof.
  rewrite from_template_template. unfold prompt_text.
  generalize (template_text 0), (template_text 2), (template_text 4),
    (template_text 6).
  intros t0 t2 t4 t6. cbn. now rewrite string_app_empty_r.
Qed.

(** ** One run of the engine *)

Section EngineRun.

Variable llm : list event -> string -> outcome string.
Variables (query : string) (vs : VectorStore).
Variables (chat_history : option (list message)) (k : Z).

Local Abbreviation retriever := {| retriever_store := vs; retriever_k := k |}.
Local Abbreviation ev := (EvRetrieve query k).

Lemma retrieval_chain_run (w : world) :
  retrieval_chain llm retriever (from_template template)
                  (chain_input query chat_history) w
  = match similarity_search vs (trace w) query k with
    | Raised e => (Raised e, {| heap := heap w; trace := trace w ++ [ev] |})
    | Returned context =>
        (llm (trace w ++ [ev]) (chain_prompt query chat_history context),
         {| heap := heap w;
            trace := (trace w ++ [ev]) ++ [EvGenerate (chain_prompt query chat_history context)] |})
    end.
Proof.
  unfold retrieval_chain, mbind, M_bind, bind, context_lambda, chain_input.
  change (getitem _ "question") with (Some (OStr query)).
  unfold retriever_invoke. cbn [retriever_store retriever_k].
  destruct (similarity_search vs (trace w) query k) as [context|e]; [|reflexivity].
  unfold document_chain, RunnablePassthrough.
  rewrite format_prompt_template. reflexivity.
Qed.

(** The statements under [try], step by step: the first retrieval, the
    metadata loop, the retrieval of the chain, the generation. *)
Lemma qa_search_try_run (w : world) :
  qa_search_try llm query retriever (from_template template) chat_history w
  = match similarity_search vs (trace w) query k with
    | Raised e => (Raised e, {| heap := heap w; trace := trace w ++ [ev] |})
    | Returned docs =>
        let metas := (copy_all docs (heap w)).1 in
        let h' := (copy_all docs (heap w)).2 in
        match similarity_search vs (trace w ++ [ev]) query k with
        | Raised e =>
            (Raised e, {| heap := h'; trace := (trace w ++ [ev]) ++ [ev] |})
        | Returned context =>
            let w' := {| heap := h';
                         trace := ((trace w ++ [ev]) ++ [ev])
                                  ++ [EvGenerate (chain_prompt query chat_history context)] |} in
            match llm ((trace w ++ [ev]) ++ [ev]) (chain_prompt query chat_history context) with
            | Raised e => (Raised e, w')
            | Returned answer =>
                (Returned (success_result answer metas (length docs)), w')
            end
        end
    end.
Proof.
  unfold qa_search_try. unfold mbind, M_bind. unfold bind at 1.
  unfold retriever_invoke at 1. cbn [retriever_store retriever_k].
  destruct (similarity_search vs (trace w) query k) as [docs|e]; [|reflexivity].
  unfold bind at 1. rewrite for_each_copy_run. cbn [heap trace].
  unfold bind at 1.
  pose proof (retrieval_chain_run
                {| heap := (copy_all docs (heap w)).2; trace := trace w ++ [ev] |})
    as Hrun.
  unfold chain_input in Hrun. unfold mbind, M_bind in Hrun.
  rewrite Hrun. cbn [heap trace].
  destruct (similarity_search vs (trace w ++ [ev]) query k) as [context|e];
    [|reflexivity].
  destruct (llm _ _) as [answer|e]; reflexivity.
Qed.

End EngineRun.

(** ** Results of [qa_search] *)

Lemma success_result_lookups answer metas count :
  success_result answer metas count !! "answer" = Some (VStr answer)
  /\ success_result answer metas count !! "raw_answer" = Some (VStr answer)
  /\ success_result answer metas count !! "document_metadata"
     = Some (VList (VRef <$> metas))
  /\ success_result answer metas count !! "retrieved_count"
     = Some (VInt (Z.of_nat count))
  /\ success_result answer metas count !! "error" = None.
Proof. repeat split; reflexivity. Qed.

Lemma failure_result_lookups e :
  failure_result e !! "answer"
  = Some (VStr ("Error querying the model: " +:+ exn_str e))
  /\ failure_result e !! "raw_answer"
     = Some (VStr ("Error querying the model: " +:+ exn_str e))
  /\ failure_result e !! "document_metadata" = Some (VList [])
  /\ failure_result e !! "retrieved_count" = None
  /\ failure_result e !! "error" = Some (VStr (exn_str e)).
Proof. repeat split; reflexivity. Qed.

(** With an index, [qa_search] is the [try] body when it completes and the
    handler's dictionary when it raises. *)
Lemma qa_search_try_except llm query vs chat_history k w :
  qa_search llm query (Some vs) chat_history k w
  = match qa_search_try llm query {| retriever_store := vs; retriever_k := k |}
            (from_template template) chat_history w with
    | (Returned r, w') => (Returned r, w')
    | (Raised e, w') => (Returned (failure_result e), w')
    end.
Proof.
  unfold qa_search, try_except.
  destruct (qa_search_try _ _ _ _ _ _) as [[r|e] w']; reflexivity.
Qed.

(** A failure of retrieval or generation is a failure of the [try] body. *)
Lemma step_failure_raises llm query vs chat_history k w e :
  step_failure llm query vs chat_history k w e ->
  exists w',
    qa_search_try llm query {| retriever_store := vs; retriever_k := k |}
      (from_template template) chat_history w = (Raised e, w').
Proof.
  intros Hfail. rewrite qa_search_try_run.
  destruct Hfail as [H1 | [(docs & H1 & H2) | (docs & context & H1 & H2 & H3)]].
  - rewrite H1. eauto.
  - rewrite H1. cbn zeta. rewrite H2. eauto.
  - rewrite H1. cbn zeta. rewrite H2, H3. eauto.
Qed.

(** The successful runs, read back from the result. *)
Lemma qa_search_success_inv llm query vs chat_history k w r w' :
  qa_search llm query (Some vs) chat_history k w = (Returned r, w') ->
  r !! "error" = None ->
  exists docs context answer,
    similarity_search vs (trace w) query k = Returned docs
    /\ similarity_search vs (trace w ++ [EvRetrieve query k]) query k
       = Returned context
    /\ llm ((trace w ++ [EvRetrieve query k]) ++ [EvRetrieve query k])
           (chain_prompt query chat_history context) = Returned answer
    /\ r = success_result answer (copy_all docs (heap w)).1 (length docs)
    /\ w' = {| heap := (copy_all docs (heap w)).2;
               trace := ((trace w ++ [EvRetrieve query k]) ++ [EvRetrieve query k])
                        ++ [EvGenerate (chain_prompt query chat_history context)] |}.
Proof.
  rewrite qa_search_try_except, qa_search_try_run.
  intros Hrun Herr.
  destruct (similarity_search vs (trace w) query k) as [docs|e] eqn:H1.
  2:{ injection Hrun as <- <-. discriminate Herr. }
  cbn zeta in Hrun.
  destruct (similarity_search vs (trace w ++ _) query k) as [context|e] eqn:H2.
  2:{ injection Hrun as <- <-. discriminate Herr. }
  destruct (llm _ _) as [answer|e] eqn:H3.
  2:{ injection Hrun as <- <-. discriminate Herr. }
  injection Hrun as <- <-. exists docs, context, answer. auto.
Qed.

(** ** The absent index *)

Lemma qa_search_none llm query chat_history k w :
  qa_search llm query None chat_history k w
  = (Raised (Exn "AttributeError"
                 "'NoneType' object has no attribute 'as_retriever'"), w).
Proof. reflexivity. Qed.

(** C1, as stated, fails: called with an absent index, [qa_search] raises
    [AttributeError] instead of returning a result dictionary. *)
Lemma qa_search_absent_index_raises :
  (qa_search Sample.llm "What is the total sales for Widget A?" None None
             default_k Sample.world0).1
  = Raised (Exn "AttributeError"
                "'NoneType' object has no attribute 'as_retriever'")
  /\ ~ exists r,
        (qa_search Sample.llm "What is the total sales for Widget A?" None None
                   default_k Sample.world0).1 = Returned r.
Proof.
  split; [reflexivity|]. intros [r Hr]. discriminate Hr.
Qed.

(** C1, amended.  With an absent index nothing is retrieved or generated:
    [qa_search] itself raises [AttributeError] at once and leaves the world
    as it was; the query-processing step of the application guards the
    call, does not reach [qa_search], shows the not-initialized message and
    ends normally, the only change to the session being the appended user
    turn and the cleared flag. *)
Theorem absent_index_reported_by_caller :
  forall llm st w,
    should_process_query st = true ->
    last_query st <> EmptyString ->
    vectorstore st = None ->
    process_query llm st w
    = (append_user_turn st,
       [StError "Knowledge base not initialized. Please try again."], w)
    /\ forall query chat_history k,
         qa_search llm query None chat_history k w
         = (Raised (Exn "AttributeError"
                        "'NoneType' object has no attribute 'as_retriever'"), w).
Proof.
  intros llm st w Hflag Hquery Hvs. split; [|intros; apply qa_search_none].
  unfold process_query. rewrite Hflag.
  apply String.eqb_neq in Hquery. rewrite Hquery. cbn [andb negb].
  unfold append_user_turn at 1. cbn [vectorstore]. rewrite Hvs. reflexivity.
Qed.

Lemma absent_index_reported_by_caller_witness :
  process_query Sample.llm (Sample.session None) Sample.world0
  = (append_user_turn (Sample.session None),
     [StError "Knowledge base not initialized. Please try again."],
     Sample.world0)
  /\ forall query chat_history k,
       qa_search Sample.llm query None chat_history k Sample.world0
       = (Raised (Exn "AttributeError"
                      "'NoneType' object has no attribute 'as_retriever'"),
          Sample.world0).
Proof.
  apply (absent_index_reported_by_caller Sample.llm (Sample.session None)
           Sample.world0).
  - reflexivity.
  - discriminate.
  - reflexivity.
Defined.

(** ** Failure isolation *)

(** C2. When retrieval or generation fails with an exception [e] during a
    call of [qa_search] on an index, the call returns a dictionary: its
    answer is the text [Error querying the model: ] followed by [str(e)]
    (so it contains [Error] and the cause), its document metadata is the
    empty list, it has no [retrieved_count], and its [error] is [str(e)]. *)
Theorem qa_search_failure_isolated :
  forall llm query vs chat_history k w e,
    step_failure llm query vs chat_history k w e ->
    exists r w',
      qa_search llm query (Some vs) chat_history k w = (Returned r, w')
      /\ r !! "answer" = Some (VStr ("Error querying the model: " +:+ exn_str e))
      /\ str_contains "Error" ("Error querying the model: " +:+ exn_str e) = true
      /\ str_contains (exn_str e) ("Error querying the model: " +:+ exn_str e) = true
      /\ r !! "document_metadata" = Some (VList [])
      /\ r !! "retrieved_count" = None
      /\ r !! "error" = Some (VStr (exn_str e)).
Proof.
  intros llm query vs chat_history k w e Hfail.
  destruct (step_failure_raises _ _ _ _ _ _ _ Hfail) as [w' Hraise].
  exists (failure_result e), w'.
  rewrite qa_search_try_except, Hraise.
  destruct (failure_result_lookups e) as (Ha & _ & Hm & Hc & He).
  split; [reflexivity|]. split; [exact Ha|].
  split; [reflexivity|]. split; [apply str_contains_suffix|]. auto.
Qed.

Lemma qa_search_failure_isolated_witness :
  exists r w',
    qa_search Sample.failing_llm "q" (Some Sample.store) None 2 Sample.world0
    = (Returned r, w')
    /\ r !! "answer"
       = Some (VStr ("Error querying the model: " +:+ "service unavailable"))
    /\ str_contains "Error" ("Error querying the model: " +:+ "service unavailable")
       = true
    /\ str_contains "service unavailable"
         ("Error querying the model: " +:+ "service unavailable") = true
    /\ r !! "document_metadata" = Some (VList [])
    /\ r !! "retrieved_count" = None
    /\ r !! "error" = Some (VStr "service unavailable").
Proof.
  apply (qa_search_failure_isolated Sample.failing_llm "q" Sample.store None 2
           Sample.world0 (Exn "RuntimeError" "service unavailable")).
  right. right. exists [Sample.widget; Sample.overall], [Sample.widget; Sample.overall].
  repeat split; reflexivity.
Defined.

(** C10. On an index, [qa_search] always returns a dictionary; its
    [raw_answer] is its [answer]; when the statements under [try] complete
    it has [retrieved_count] and no [error], and when they raise it has
    [error] and no [retrieved_count]. *)
Theorem qa_search_result_keys :
  forall llm query vs chat_history k w,
    exists r w',
      qa_search llm query (Some vs) chat_history k w = (Returned r, w')
      /\ (exists a, r !! "answer" = Some (VStr a) /\ r !! "raw_answer" = Some (VStr a))
      /\ match (qa_search_try llm query {| retriever_store := vs; retriever_k := k |}
                  (from_template template) chat_history w).1 with
         | Returned _ => is_Some (r !! "retrieved_count") /\ r !! "error" = None
         | Raised _ => is_Some (r !! "error") /\ r !! "retrieved_count" = None
         end.
Proof.
  intros llm query vs chat_history k w.
  rewrite qa_search_try_except.
  pose proof (qa_search_try_run llm query vs chat_history k w) as Hrun.
  destruct (qa_search_try _ _ _ _ _ _) as [[r|e] w'] eqn:Htry; cbn [fst].
  - exists r, w'. split; [reflexivity|].
    destruct (similarity_search vs (trace w) query k) as [docs|e1];
      [|discriminate Hrun].
    cbn zeta in Hrun.
    destruct (similarity_search vs (trace w ++ _) query k) as [context|e2];
      [|discriminate Hrun].
    destruct (llm _ _) as [answer|e3]; [|discriminate Hrun].
    injection Hrun as -> _.
    destruct (success_result_lookups answer (copy_all docs (heap w)).1 (length docs))
      as (Ha & Hr & _ & Hc & He).
    split; [exists answer; auto|]. split; [rewrite Hc; eauto | exact He].
  - exists (failure_result e), w'. split; [reflexivity|].
    destruct (failure_result_lookups e) as (Ha & Hr & _ & Hc & He).
    split; [eexists; eauto|]. split; [rewrite He; eauto | exact Hc].
Qed.

(** ** What the prompt slots receive *)

Lemma string_length_app (a b : string) :
  String.length (a +:+ b) = (String.length a + String.length b)%nat.
Proof.
  induction a as [|x a IH]; [reflexivity|].
  rewrite string_app_cons. cbn [String.length]. now rewrite IH.
Qed.

Lemma repr_char_length (quote c : ascii) :
  (1 <= String.length (repr_char quote c))%nat.
Proof.
  unfold repr_char.
  repeat match goal with
         | |- context [if ?b then _ else _] => destruct b
         end; cbn [String.length]; lia.
Qed.

Lemma hex_length (width : nat) (n : N) : String.length (hex width n) = width.
Proof.
  revert n. induction width as [|w IH]; intros n; [reflexivity|].
  cbn [hex]. rewrite string_length_app, IH. cbn [String.length]. lia.
Qed.

Lemma repr_code_point_length (cp : N) (bytes : string) :
  (String.length bytes <= 4)%nat ->
  (String.length bytes <= String.length (repr_code_point cp bytes))%nat.
Proof.
  intros Hle. unfold repr_code_point.
  destruct (isprintable cp); [lia|].
  destruct (cp <? 256)%N; [|destruct (cp <? 65536)%N];
    cbn [String.length]; rewrite hex_length; lia.
Qed.

Lemma repr_chars_length (quote : ascii) (s : string) :
  (String.length s <= String.length (repr_chars quote s))%nat.
Proof.
  remember (String.length s) as m eqn:Hm.
  assert (Hle : (String.length s <= m)%nat) by lia. rewrite Hm. clear Hm.
  revert s Hle. induction m as [|m IH]; intros s Hle.
  - destruct s; [reflexivity | cbn [String.length] in Hle; lia].
  - destruct s as [|c rest]; [reflexivity|].
    cbn [String.length] in Hle. cbn [repr_chars].
    destruct (N_of_ascii c <? 128)%N.
    { rewrite string_length_app. cbn [String.length].
      pose proof (repr_char_length quote c).
      pose proof (IH rest ltac:(lia)). lia. }
    destruct (N_of_ascii c <? 224)%N.
    { destruct rest as [|c1 rest1]; [lia|].
      rewrite string_length_app. cbn [String.length] in *.
      pose proof (repr_code_point_length
                    ((N_of_ascii c mod 32) * 64 + continuation c1)%N
                    (String c (String c1 EmptyString)) ltac:(cbn; lia)) as Hcp.
      cbn [String.length] in Hcp.
      pose proof (IH rest1 ltac:(lia)). lia. }
    destruct (N_of_ascii c <? 240)%N.
    { destruct rest as [|c1 [|c2 rest2]]; try lia.
      rewrite string_length_app. cbn [String.length] in *.
      pose proof (repr_code_point_length
                    (((N_of_ascii c mod 16) * 64 + continuation c1) * 64
                     + continuation c2)%N
                    (String c (String c1 (String c2 EmptyString)))
                    ltac:(cbn; lia)) as Hcp.
      cbn [String.length] in Hcp.
      pose proof (IH rest2 ltac:(lia)). lia. }
    destruct rest as [|c1 [|c2 [|c3 rest3]]]; try lia.
    rewrite string_length_app. cbn [String.length] in *.
    pose proof (repr_code_point_length
                  ((((N_of_ascii c mod 8) * 64 + continuation c1) * 64
                    + continuation c2) * 64 + continuation c3)%N
                  (String c (String c1 (String c2 (String c3 EmptyString))))
                  ltac:(cbn; lia)) as Hcp.
    cbn [String.length] in Hcp.
    pose proof (IH rest3 ltac:(lia)). lia.
Qed.

Lemma repr_str_length (s : string) :
  (String.length s + 2 <= String.length (repr_str s))%nat.
Proof.
  unfold repr_str. rewrite string_app_cons. cbn [String.length].
  rewrite string_length_app. cbn [String.length].
  pose proof (repr_chars_length
                (if has_char squote s && negb (has_char dquote s)
                 then dquote else squote) s).
  lia.
Qed.

(** [str] of the chain input is longer than the query and than the
    rendered history it holds, so it is neither of them. *)
Lemma str_chain_input_longer (query : string) (chat_history : option (list message)) :
  (String.length query < String.length (str (chain_input query chat_history)))%nat
  /\ (String.length (chat_history_to_str chat_history)
      < String.length (str (chain_input query chat_history)))%nat.
Proof.
  unfold chain_input, str. cbn [repr map join fst snd].
  rewrite !string_length_app.
  pose proof (repr_str_length query).
  pose proof (repr_str_length (chat_history_to_str chat_history)).
  cbn [String.length]. lia.
Qed.

Lemma str_chain_input_differs (query : string) (chat_history : option (list message)) :
  str (chain_input query chat_history) <> query
  /\ str (chain_input query chat_history) <> chat_history_to_str chat_history.
Proof.
  destruct (str_chain_input_longer query chat_history) as [Hq Hh].
  split; intros Heq; rewrite Heq in *; lia.
Qed.

(** The prompts a call sends to the chat model: at most one, built by the
    chain from the documents of its own retrieval, with [str] of the chain
    input in the chat-history slot and in the question slot. *)
Lemma qa_search_generations llm query vs chat_history k w :
  generations
    (drop (length (trace w))
          (trace (qa_search llm query (Some vs) chat_history k w).2))
  = match similarity_search vs (trace w) query k,
          similarity_search vs (trace w ++ [EvRetrieve query k]) query k with
    | Returned _, Returned context =>
        [prompt_text (str (chain_input query chat_history)) (format_docs context)
                     (str (chain_input query chat_history))]
    | _, _ => []
    end.
Proof.
  rewrite qa_search_try_except, qa_search_try_run.
  destruct (similarity_search vs (trace w) query k) as [docs|e1].
  2:{ cbn [snd trace]. now rewrite drop_app_length. }
  cbn zeta.
  destruct (similarity_search vs (trace w ++ _) query k) as [context|e2].
  2:{ cbn [snd trace]. rewrite <- app_assoc. now rewrite drop_app_length. }
  destruct (llm _ _) as [answer|e3]; cbn [snd trace];
    rewrite <- !app_assoc; now rewrite drop_app_length.
Qed.

(** C3, at the query [q] with an empty history on the sample index: the one
    prompt sent to the chat model has the four parts in order, with the
    texts of the retrieved documents joined by a blank line in the context
    slot, but the question slot and the chat-history slot both hold the
    printed chain input [{'question': 'q', 'chat_history': ''}], not the
    query [q] and the empty rendered history. *)
Theorem prompt_slots_receive_chain_input :
  generations
    (trace (qa_search Sample.llm "q" (Some Sample.store) (Some []) default_k
                      Sample.world0).2)
  = [prompt_text "{'question': 'q', 'chat_history': ''}"
       ("Sales Summary for Widget A" +:+ nl +:+ nl +:+ "Overall Sales Summary")
       "{'question': 'q', 'chat_history': ''}"]
  /\ generations
       (trace (qa_search Sample.llm "q" (Some Sample.store) (Some []) default_k
                         Sample.world0).2)
     <> [prompt_text (chat_history_to_str (Some []))
           ("Sales Summary for Widget A" +:+ nl +:+ nl +:+ "Overall Sales Summary")
           "q"].
Proof.
  split; [vm_compute; reflexivity|].
  intros Heq. vm_compute in Heq. discriminate Heq.
Qed.

(** ** Copies of the metadata *)

(** C5, as stated, fails for nested dictionaries: after a call on the sample
    index, assigning through the first returned entry into its [raw_data]
    changes what the stored document shows under [raw_data]. *)
Lemma nested_raw_data_is_shared :
  exists r w' entry w'',
    qa_search Sample.llm "q" (Some Sample.store) None default_k Sample.world0
    = (Returned r, w')
    /\ r !! "document_metadata" = Some (VList [VRef entry; VRef 5%positive])
    /\ Sample.widget.(metadata) = Some 1%positive
    /\ entry <> 1%positive
    /\ getpath (heap w') 1%positive ["raw_data"; "total_records"] = Some (VInt 4)
    /\ setpath entry ["raw_data"; "total_records"] (VInt 0) w' = (Returned tt, w'')
    /\ getpath (heap w'') 1%positive ["raw_data"; "total_records"] = Some (VInt 0).
Proof.
  eexists _, _, 4%positive, _.
  split; [vm_compute; reflexivity|].
  split; [vm_compute; reflexivity|].
  split; [reflexivity|].
  split; [discriminate|].
  split; [vm_compute; reflexivity|].
  split; vm_compute; reflexivity.
Qed.

(** C5, amended.  For every document retrieved by a successful call whose
    metadata is a stored dictionary, the entry placed in
    [document_metadata] is a new dictionary object, distinct from the
    stored one, holding the same items (and [similarity_score] when the
    document carries one); the call leaves the stored dictionary as it
    was, and so does any later assignment or deletion of a key of the
    returned entry. *)
Theorem metadata_copy_isolated :
  forall llm query vs chat_history k w r w' docs,
    similarity_search vs (trace w) query k = Returned docs ->
    qa_search llm query (Some vs) chat_history k w = (Returned r, w') ->
    r !! "error" = None ->
    exists metas,
      r !! "document_metadata" = Some (VList (VRef <$> metas))
      /\ length metas = length docs
      /\ forall i doc l d m,
           docs !! i = Some doc -> metadata doc = Some l ->
           heap w !! l = Some d -> metas !! i = Some m ->
           m <> l
           /\ heap w !! m = None
           /\ heap w' !! m = Some (with_score doc d)
           /\ heap w' !! l = Some d
           /\ forall key v,
                heap (dict_setitem m key v w').2 !! l = Some d
                /\ heap (dict_delitem m key w').2 !! l = Some d.
Proof.
  intros llm query vs chat_history k w r w' docs Hdocs Hrun Herr.
  destruct (qa_search_success_inv _ _ _ _ _ _ _ _ Hrun Herr)
    as (docs' & context & answer & H1 & _ & _ & -> & ->).
  rewrite Hdocs in H1. injection H1 as <-.
  destruct (copy_all_spec docs (heap w)) as (Hsub & Hlen & Hall).
  exists (copy_all docs (heap w)).1.
  split; [apply success_result_lookups|]. split; [exact Hlen|].
  intros i doc l d m Hi Hmeta Hl Hm.
  destruct (Hall i doc m Hi Hm) as [Hfresh Hcontent].
  assert (Hne : m <> l) by congruence.
  assert (Hkept : (copy_all docs (heap w)).2 !! l = Some d)
    by (apply (lookup_weaken (heap w)); assumption).
  split; [exact Hne|]. split; [exact Hfresh|].
  split; [exact (Hcontent l d Hmeta Hl)|]. split; [exact Hkept|].
  intros key v. split.
  - cbn. rewrite lookup_alter_ne by exact Hne. exact Hkept.
  - unfold dict_delitem. cbn [heap].
    destruct (_ ≫= _); cbn; [|exact Hkept].
    rewrite lookup_alter_ne by exact Hne. exact Hkept.
Qed.

Lemma metadata_copy_isolated_witness :
  exists metas,
    Sample.result !! "document_metadata" = Some (VList (VRef <$> metas))
    /\ length metas = length [Sample.widget; Sample.overall]
    /\ forall i doc l d m,
         [Sample.widget; Sample.overall] !! i = Some doc -> metadata doc = Some l ->
         heap Sample.world0 !! l = Some d -> metas !! i = Some m ->
         m <> l
         /\ heap Sample.world0 !! m = None
         /\ heap Sample.world1 !! m = Some (with_score doc d)
         /\ heap Sample.world1 !! l = Some d
         /\ forall key v,
              heap (dict_setitem m key v Sample.world1).2 !! l = Some d
              /\ heap (dict_delitem m key Sample.world1).2 !! l = Some d.
Proof.
  apply (metadata_copy_isolated Sample.llm "q" Sample.store None 2 Sample.world0
           Sample.result Sample.world1 [Sample.widget; Sample.overall]).
  - reflexivity.
  - vm_compute. reflexivity.
  - reflexivity.
Defined.

(** ** The number of retrieved documents *)

Lemma insert_ranked_length nearer q d (ranked : list Document) :
  length (insert_ranked nearer q d ranked) = S (length ranked).
Proof.
  induction ranked as [|d' rest IH]; [reflexivity|].
  cbn [insert_ranked]. destruct (nearer q d d'); cbn; [reflexivity | now rewrite IH].
Qed.

Lemma rank_length nearer q (docs : list Document) :
  length (rank nearer q docs) = length docs.
Proof.
  induction docs as [|d rest IH]; [reflexivity|].
  unfold rank in *. cbn [foldr]. rewrite insert_ranked_length. cbn [length].
  f_equal. exact IH.
Qed.

(** The search of the specification returns [k] documents when the index
    holds at least [k], and all of them otherwise. *)
Lemma search_length nearer (index : list Document) q (k : Z) :
  (0 <= k)%Z ->
  Z.of_nat (length (search nearer index q k)) = Z.min k (Z.of_nat (length index)).
Proof.
  intros Hk. unfold search. rewrite length_take, rank_length. lia.
Qed.

(** On any index, a successful call counts the documents its first search
    returned, and every search it issued asked for [k] documents. *)
Lemma qa_search_retrieved_count llm query vs chat_history k w r w' :
  qa_search llm query (Some vs) chat_history k w = (Returned r, w') ->
  r !! "error" = None ->
  exists docs,
    similarity_search vs (trace w) query k = Returned docs
    /\ r !! "retrieved_count" = Some (VInt (Z.of_nat (length docs)))
    /\ retrievals (drop (length (trace w)) (trace w')) = [(query, k); (query, k)].
Proof.
  intros Hrun Herr.
  destruct (qa_search_success_inv _ _ _ _ _ _ _ _ Hrun Herr)
    as (docs & context & answer & H1 & _ & _ & -> & ->).
  exists docs. split; [exact H1|]. split; [apply success_result_lookups|].
  cbn [trace]. rewrite <- !app_assoc. now rewrite drop_app_length.
Qed.

(** C6. For [k >= 1], a successful call on the index of the specification
    asks the index for exactly [k] documents in each of its searches, and
    its [retrieved_count] is the number of documents the search returned:
    [k] when the index holds at least [k] documents, the size of the index
    otherwise. *)
Theorem retrieved_count_min_k_size :
  forall nearer llm index query chat_history k w r w',
    (1 <= k)%Z ->
    qa_search llm query (Some (spec_index nearer index)) chat_history k w
    = (Returned r, w') ->
    r !! "error" = None ->
    retrievals (drop (length (trace w)) (trace w')) = [(query, k); (query, k)]
    /\ r !! "retrieved_count"
       = Some (VInt (Z.of_nat (length (search nearer index query k))))
    /\ r !! "retrieved_count"
       = Some (VInt (if decide (k <= Z.of_nat (length index))%Z
                     then k else Z.of_nat (length index))).
Proof.
  intros nearer llm index query chat_history k w r w' Hk Hrun Herr.
  destruct (qa_search_retrieved_count _ _ _ _ _ _ _ _ Hrun Herr)
    as (docs & Hdocs & Hcount & Hreq).
  cbn in Hdocs. injection Hdocs as <-.
  split; [exact Hreq|]. split; [exact Hcount|].
  rewrite Hcount, search_length by lia.
  destruct (decide (k <= Z.of_nat (length index))%Z); do 2 f_equal; lia.
Qed.

Lemma retrieved_count_min_k_size_witness :
  retrievals
    (drop (length (trace Sample.world0))
          (trace (qa_search Sample.llm "What is the total sales for Widget A?"
                    (Some (spec_index Sample.nearer Sample.index)) None 2
                    Sample.world0).2))
  = [("What is the total sales for Widget A?", 2%Z);
     ("What is the total sales for Widget A?", 2%Z)]
  /\ Sample.result !! "retrieved_count"
     = Some (VInt (Z.of_nat (length (search Sample.nearer Sample.index
                                       "What is the total sales for Widget A?" 2))))
  /\ Sample.result !! "retrieved_count"
     = Some (VInt (if decide (2 <= Z.of_nat (length Sample.index))%Z
                   then 2 else Z.of_nat (length Sample.index))).
Proof.
  apply (retrieved_count_min_k_size Sample.nearer Sample.llm Sample.index
           "What is the total sales for Widget A?" None 2 Sample.world0
           Sample.result).
  - lia.
  - vm_compute. reflexivity.
  - reflexivity.
Defined.

(** ** The conversation state *)

Lemma trim_last_n (ms : list message) : trim ms = last_n 10 ms.
Proof.
  unfold trim, max_kept.
  destruct (Z.gtb_spec (Z.of_nat (length ms)) 10) as [Hgt|Hle].
  - apply (slice_from_last_n 10 ms). lia.
  - symmetry. apply last_n_all. lia.
Qed.

(** When the statements under [try] of the query block complete, the new
    messages are the old ones, the assistant turn, trimmed. *)
Lemma answer_try_returned llm st vs query chat_history w ms w' :
  answer_try llm st vs query chat_history w = (Returned ms, w') ->
  exists answer document_metadata,
    ms = trim (messages st ++ [{| role := "assistant"; content := answer;
                                  msg_metadata := Some document_metadata |}]).
Proof.
  unfold answer_try, mbind, M_bind, bind, result_getitem.
  destruct (qa_search _ _ _ _ _ _) as [[r|e] w1]; [|discriminate].
  destruct (r !! "answer") as [a|]; [|discriminate]. cbn [ret].
  destruct (r !! "retrieved_count") as [c|]; [|discriminate]. cbn [ret].
  destruct (r !! "document_metadata") as [m|]; [|discriminate]. cbn [ret].
  intros Heq. injection Heq as <- _. eauto.
Qed.

(** C7, as stated, fails: a run appends the user turn first and trims
    nothing at that point, so a session of ten turns holds eleven while the
    engine is called; and a run that ends without an answer (absent index,
    or a failed engine call) leaves the eleven turns in the session. *)
Lemma session_exceeds_ten_turns :
  length (messages (Sample.session (Some Sample.store))) = 10%nat
  /\ length (messages (append_user_turn (Sample.session (Some Sample.store))))
     = 11%nat
  /\ length (messages (process_query Sample.llm (Sample.session None)
                                     Sample.world0).1.1) = 11%nat
  /\ length (messages (process_query Sample.failing_llm
                                     (Sample.session (Some Sample.store))
                                     Sample.world0).1.1) = 11%nat.
Proof. repeat split; vm_compute; reflexivity. Qed.

(** C7, amended.  A run of the query block that answers (it ends with the
    success notice) leaves in the session the ten most recent turns, in
    their order, of the previous turns followed by the user turn and the
    assistant turn, hence at most ten turns; and [clear_chat] leaves no
    turn. *)
Theorem session_trimmed_after_answer :
  forall llm st w st' w',
    should_process_query st = true ->
    last_query st <> EmptyString ->
    process_query llm st w = (st', [StSuccess], w') ->
    (exists answer document_metadata,
        messages st'
        = last_n 10
            (messages st
             ++ [{| role := "user"; content := last_query st; msg_metadata := None |};
                 {| role := "assistant"; content := answer;
                    msg_metadata := Some document_metadata |}]))
    /\ (length (messages st') <= 10)%nat
    /\ messages (clear_chat st') = [].
Proof.
  intros llm st w st' w' Hflag Hquery Hrun.
  unfold process_query in Hrun. rewrite Hflag in Hrun.
  apply String.eqb_neq in Hquery. rewrite Hquery in Hrun. cbn [andb negb] in Hrun.
  destruct (vectorstore (append_user_turn st)) as [vs|]; [|discriminate Hrun].
  destruct (answer_try _ _ _ _ _ _) as [[ms|e] w1] eqn:Htry; [|discriminate Hrun].
  injection Hrun as <- <-.
  destruct (answer_try_returned _ _ _ _ _ _ _ _ Htry) as (answer & meta & ->).
  cbn [set_messages messages append_user_turn].
  rewrite trim_last_n, <- app_assoc. cbn [app].
  split; [eauto|]. split; [|reflexivity].
  rewrite last_n_length. lia.
Qed.

Lemma session_trimmed_after_answer_witness :
  (exists answer document_metadata,
      messages (process_query Sample.llm (Sample.session (Some Sample.store))
                              Sample.world0).1.1
      = last_n 10
          (messages (Sample.session (Some Sample.store))
           ++ [{| role := "user";
                  content := last_query (Sample.session (Some Sample.store));
                  msg_metadata := None |};
               {| role := "assistant"; content := answer;
                  msg_metadata := Some document_metadata |}]))
  /\ (length (messages (process_query Sample.llm
                                      (Sample.session (Some Sample.store))
                                      Sample.world0).1.1) <= 10)%nat
  /\ messages (clear_chat (process_query Sample.llm
                                         (Sample.session (Some Sample.store))
                                         Sample.world0).1.1) = [].
Proof.
  apply (session_trimmed_after_answer Sample.llm
           (Sample.session (Some Sample.store)) Sample.world0
           (process_query Sample.llm (Sample.session (Some Sample.store))
                          Sample.world0).1.1
           (process_query Sample.llm (Sample.session (Some Sample.store))
                          Sample.world0).2).
  - reflexivity.
  - discriminate.
  - vm_compute. reflexivity.
Defined.

(** ** Age groups *)

Module AggregatorFacts.
Import Aggregator AggregatorNotions.

(** The label [load_data] gives to an integer age. *)
Lemma age_group_of_age (s : sale) :
  Age_Group (load_row s)
  = if decide (18 <= Customer_Age s <= 25)%Z then Some "18-25"
    else if decide (26 <= Customer_Age s <= 35)%Z then Some "26-35"
    else if decide (36 <= Customer_Age s <= 50)%Z then Some "36-50"
    else if decide (51 <= Customer_Age s <= 70)%Z then Some "51-70"
    else None.
Proof.
  cbn [load_row Age_Group]. unfold age_bins, age_labels. cbn [cut].
  generalize (Customer_Age s). intros age.
  repeat match goal with
         | |- context [(?a <? ?b)%Z] => destruct (Z.ltb_spec a b)
         | |- context [(?a <=? ?b)%Z] => destruct (Z.leb_spec a b)
         end; cbn [andb];
    repeat match goal with
           | |- context [decide ?P] => destruct (decide P)
           end; try reflexivity; lia.
Qed.

Lemma age_group_out_of_range (s : sale) :
  (Customer_Age s < 18 \/ 70 < Customer_Age s)%Z ->
  Age_Group (load_row s) = None.
Proof.
  intros Hout. rewrite age_group_of_age.
  repeat match goal with
         | |- context [decide ?P] => destruct (decide P)
         end; try reflexivity; lia.
Qed.

Lemma unique_from_elem {A} `{EqDecision A} (x : A) (seen l : list A) :
  x ∈ l -> x ∉ seen -> x ∈ unique_from seen l.
Proof.
  revert seen. induction l as [|y l IH]; intros seen Hin Hseen.
  - inversion Hin.
  - cbn [unique_from]. destruct (decide (y ∈ seen)) as [Hy|Hy].
    + apply IH; [|exact Hseen].
      apply elem_of_cons in Hin as [->|Hin]; [contradiction | exact Hin].
    + destruct (decide (x = y)) as [->|Hne]; [apply list_elem_of_here|].
      apply list_elem_of_further. apply IH.
      * apply elem_of_cons in Hin as [->|Hin]; [contradiction | exact Hin].
      * intros Hx. apply elem_of_cons in Hx as [->|Hx]; contradiction.
Qed.

Lemma unique_elem {A} `{EqDecision A} (x : A) (l : list A) :
  x ∈ l -> x ∈ unique l.
Proof. intros Hin. apply unique_from_elem; [exact Hin | apply not_elem_of_nil]. Qed.

(** The chunk selected for the missing age group is empty. *)
Lemma missing_age_group_chunk (sales_df : list row) :
  filter (fun r => age_group_eq (Age_Group r) None = true) sales_df = [].
Proof.
  destruct (filter _ sales_df) as [|r rest] eqn:E; [reflexivity|].
  assert (Hin : r ∈ filter (fun r => age_group_eq (Age_Group r) None = true) sales_df)
    by (rewrite E; apply list_elem_of_here).
  apply list_elem_of_filter in Hin as [Hp _].
  destruct (Age_Group r); discriminate Hp.
Qed.

Lemma missing_age_group_raises (plt : plotting) (sales_df : list row) :
  age_group_document plt sales_df None
  = Raised (Exn "ValueError" "NaTType does not support strftime").
Proof.
  unfold age_group_document. rewrite missing_age_group_chunk. reflexivity.
Qed.

Lemma for_each_doc_raises {A} (f : A -> outcome document) (xs : list A) (x : A) :
  x ∈ xs -> (exists e, f x = Raised e) -> exists e, for_each_doc f xs = Raised e.
Proof.
  induction xs as [|y xs IH]; intros Hin Hx; [inversion Hin|].
  cbn [for_each_doc]. unfold mbind, outcome_bind.
  destruct (f y) as [d|e] eqn:Hy; [|eauto].
  apply elem_of_cons in Hin as [->|Hin].
  - destruct Hx as [e He]. congruence.
  - destruct (IH Hin Hx) as [e ->]. eauto.
Qed.

(** A record whose age is outside 18..70 makes the run end with an
    exception, whatever the plot functions do: no document is produced,
    the overall one included. *)
Lemma main_raises_on_unbucketed_record (plt : plotting) (sales : list sale) (s : sale) :
  s ∈ sales ->
  (Customer_Age s < 18 \/ 70 < Customer_Age s)%Z ->
  exists e, main plt sales = Raised e.
Proof.
  intros Hin Hout. unfold main. unfold mbind at 1, outcome_bind at 1.
  destruct (for_each_doc (time_period_document _ _) _) as [time_docs|e]; [|eauto].
  unfold mbind at 1, outcome_bind at 1.
  destruct (for_each_doc (product_document _ _) _) as [product_docs|e]; [|eauto].
  unfold mbind at 1, outcome_bind at 1.
  destruct (for_each_doc (region_document _ _) _) as [region_docs|e]; [|eauto].
  unfold mbind at 1, outcome_bind at 1.
  destruct (for_each_doc_raises (age_group_document plt (load_data sales))
              (unique (map Age_Group (load_data sales))) None) as [e ->].
  - apply unique_elem. rewrite <- (age_group_out_of_range s Hout).
    unfold load_data. rewrite map_map.
    apply (list_elem_of_fmap_2 (fun x => Age_Group (load_row x))). exact Hin.
  - eexists. apply missing_age_group_raises.
  - eauto.
Qed.

(** C8, at a data set of two records, a customer of 30 and a customer of
    75, with plot functions that draw and save every figure: the first
    record is labelled [26-35] and the second receives no label, as
    claimed; but the age-group loop also visits the missing label,
    selects an empty chunk for it, and [create_summary_dict] raises
    [ValueError] on the empty date column, so the run produces no
    document at all, the overall aggregation included.  Whatever the plot
    functions do, the run on these two records ends with an exception.
    On the first record alone the run completes and the overall document
    counts it. *)
Theorem unbucketed_record_aborts_run :
  Age_Group (load_row Sample.sale_in_range) = Some "26-35"
  /\ Age_Group (load_row Sample.sale_out_of_range) = None
  /\ main Sample.plots [Sample.sale_in_range; Sample.sale_out_of_range]
     = Raised (Exn "ValueError" "NaTType does not support strftime")
  /\ (forall plt,
        exists e,
          main plt [Sample.sale_in_range; Sample.sale_out_of_range] = Raised e)
  /\ (exists docs overall,
        main Sample.plots [Sample.sale_in_range] = Returned docs
        /\ last docs = Some overall
        /\ doc_type overall = "overall"
        /\ summarized (raw_data overall) = load_data [Sample.sale_in_range]).
Proof.
  split; [reflexivity|]. split; [reflexivity|].
  split; [vm_compute; reflexivity|].
  split.
  { intros plt.
    apply (main_raises_on_unbucketed_record plt _ Sample.sale_out_of_range).
    - apply list_elem_of_further, list_elem_of_here.
    - right. cbn. lia. }
  eexists _, _. split; [vm_compute; reflexivity|].
  split; [reflexivity|]. split; reflexivity.
Qed.

(** *** What a completed run did *)

Lemma unique_from_subset {A} `{EqDecision A} (x : A) (seen l : list A) :
  x ∈ unique_from seen l -> x ∈ l.
Proof.
  revert seen. induction l as [|y l IH]; intros seen; cbn [unique_from].
  - intros Hx. inversion Hx.
  - destruct (decide (y ∈ seen)).
    + intros Hx. apply list_elem_of_further. eapply IH, Hx.
    + intros Hx. apply elem_of_cons in Hx as [->|Hx];
        [apply list_elem_of_here | apply list_elem_of_further; eapply IH, Hx].
Qed.

Lemma create_summary_dict_returns (chunk : list row) (level_name : string)
    (level_value : option string) :
  chunk <> [] ->
  exists range,
    create_summary_dict chunk level_name level_value
    = Returned {| level := level_name; value := level_value;
                  total_records := length chunk; date_range := range;
                  summarized := chunk |}.
Proof.
  destruct chunk as [|r rest]; [contradiction|]. intros _.
  unfold create_summary_dict. cbn [map series_min series_max strftime].
  eexists. reflexivity.
Qed.

Lemma create_summary_dict_inv (chunk : list row) (level_name : string)
    (level_value : option string) (s : summary) :
  create_summary_dict chunk level_name level_value = Returned s ->
  chunk <> [] /\ total_records s = length chunk /\ summarized s = chunk.
Proof.
  destruct chunk as [|r rest]; [discriminate|]. intros Hs.
  destruct (create_summary_dict_returns (r :: rest) level_name level_value)
    as [range Hret]; [discriminate|].
  rewrite Hret in Hs. injection Hs as <-. repeat split. discriminate.
Qed.

Lemma bind_returned {A B} (c : outcome A) (k : A -> outcome B) (b : B) :
  mbind k c = Returned b -> exists a, c = Returned a /\ k a = Returned b.
Proof. destruct c as [a|e]; cbn; [eauto | discriminate]. Qed.

Lemma for_each_doc_returns {A} (Q : A -> document -> Prop)
    (f : A -> outcome document) (xs : list A) :
  (forall x, x ∈ xs -> exists d, f x = Returned d /\ Q x d) ->
  exists ds, for_each_doc f xs = Returned ds /\ Forall2 Q xs ds.
Proof.
  induction xs as [|x xs IH]; intros Hall.
  - exists []. split; [reflexivity | constructor].
  - destruct (Hall x (list_elem_of_here _ _)) as (d & Hd & HQ).
    destruct IH as (ds & Hds & HF).
    { intros y Hy. apply Hall. now apply list_elem_of_further. }
    exists (d :: ds). cbn [for_each_doc]. rewrite Hd. cbn. rewrite Hds. cbn.
    split; [reflexivity | now constructor].
Qed.

Lemma for_each_doc_inv {A} (f : A -> outcome document) (xs : list A)
    (ds : list document) :
  for_each_doc f xs = Returned ds -> Forall2 (fun x d => f x = Returned d) xs ds.
Proof.
  revert ds. induction xs as [|x xs IH]; intros ds; cbn [for_each_doc].
  - intros H. injection H as <-. constructor.
  - intros H. apply bind_returned in H as (d & Hd & H).
    apply bind_returned in H as (ds' & Hds & H).
    injection H as <-. constructor; [exact Hd | now apply IH].
Qed.

Lemma filter_occurs {A B} `{EqDecision B} (f : A -> B) (l : list A) (x : A) :
  x ∈ l -> filter (fun y => f y = f x) l <> [].
Proof.
  intros Hin Hnil.
  apply (filter_nil_not_elem_of _ _ x Hnil); [reflexivity | exact Hin].
Qed.

Lemma age_group_eq_some (cell : option string) (label : string) :
  age_group_eq cell (Some label) = true <-> cell = Some label.
Proof.
  destruct cell as [a|]; cbn.
  - rewrite String.eqb_eq. split; congruence.
  - split; discriminate.
Qed.

Lemma cell_eq_some (cell : option string) (text : string) :
  cell_eq cell (Some text) = true <-> cell = Some text.
Proof.
  destruct cell as [a|]; cbn.
  - rewrite String.eqb_eq. split; congruence.
  - split; discriminate.
Qed.

(** The chunk of a value of a text column: the rows that carry it, and no
    row for the missing value. *)
Lemma cell_chunk (column : row -> option string) (sales_df : list row)
    (v : option string) :
  filter (fun r => cell_eq (column r) v = true) sales_df
  = match v with
    | Some text => filter (fun r => column r = Some text) sales_df
    | None => []
    end.
Proof.
  destruct v as [text|].
  - apply list_filter_iff. intros x. apply cell_eq_some.
  - destruct (filter _ sales_df) as [|r rest] eqn:E; [reflexivity|].
    assert (Hin : r ∈ filter (fun r => cell_eq (column r) None = true) sales_df)
      by (rewrite E; apply list_elem_of_here).
    apply list_elem_of_filter in Hin as [Hp _].
    destruct (column r); discriminate Hp.
Qed.

Lemma age_group_chunk (sales_df : list row) (label : string) :
  filter (fun r => age_group_eq (Age_Group r) (Some label) = true) sales_df
  = filter (fun r => Age_Group r = Some label) sales_df.
Proof. apply list_filter_iff. intros x. apply age_group_eq_some. Qed.

Lemma time_period_document_inv plt sales_df yq d :
  time_period_document plt sales_df yq = Returned d ->
  group_document YearQuarter "time_period" sales_df yq d
  /\ create_time_period_plot plt (filter (fun r => YearQuarter r = yq) sales_df) yq
     = Returned (plot_path d).
Proof.
  unfold time_period_document. intros H.
  apply bind_returned in H as (s & Hs & H).
  apply bind_returned in H as (path & Hp & H).
  injection H as <-.
  apply create_summary_dict_inv in Hs as (_ & Hc & Hr).
  split; [repeat split; assumption | exact Hp].
Qed.

Lemma product_document_inv plt sales_df product d :
  product_document plt sales_df product = Returned d ->
  is_Some product
  /\ group_document (fun r => Product (record r)) "product" sales_df product d
  /\ create_product_plot plt
       (filter (fun r => Product (record r) = product) sales_df) product
     = Returned (plot_path d).
Proof.
  unfold product_document. intros H.
  apply bind_returned in H as (s & Hs & H).
  apply bind_returned in H as (path & Hp & H).
  apply bind_returned in H as (name & _ & H).
  injection H as <-.
  rewrite (cell_chunk (fun r => Product (record r))) in Hs, Hp.
  apply create_summary_dict_inv in Hs as (Hne & Hc & Hr).
  destruct product as [text|]; [|contradiction].
  split; [eauto|]. split; [repeat split; assumption | exact Hp].
Qed.

Lemma region_document_inv plt sales_df region d :
  region_document plt sales_df region = Returned d ->
  is_Some region
  /\ group_document (fun r => Region (record r)) "region" sales_df region d
  /\ create_region_plot plt
       (filter (fun r => Region (record r) = region) sales_df) region
     = Returned (plot_path d).
Proof.
  unfold region_document. intros H.
  apply bind_returned in H as (s & Hs & H).
  apply bind_returned in H as (path & Hp & H).
  injection H as <-.
  rewrite (cell_chunk (fun r => Region (record r))) in Hs, Hp.
  apply create_summary_dict_inv in Hs as (Hne & Hc & Hr).
  destruct region as [text|]; [|contradiction].
  split; [eauto|]. split; [repeat split; assumption | exact Hp].
Qed.

Lemma age_group_document_inv plt sales_df age_group d :
  age_group_document plt sales_df age_group = Returned d ->
  age_group_document_of sales_df age_group d
  /\ create_age_group_plot plt
       (filter (fun r => Age_Group r = age_group) sales_df) age_group
     = Returned (plot_path d).
Proof.
  unfold age_group_document. intros H.
  apply bind_returned in H as (s & Hs & H).
  apply bind_returned in H as (path & Hp & H).
  injection H as <-.
  destruct age_group as [label|].
  2:{ rewrite missing_age_group_chunk in Hs. discriminate Hs. }
  rewrite age_group_chunk in Hs, Hp.
  apply create_summary_dict_inv in Hs as (Hne & Hc & Hr).
  split; [|exact Hp].
  exists label. repeat split; assumption.
Qed.

Lemma age_group_document_of_group (sales_df : list row) (g : option string)
    (d : document) :
  age_group_document_of sales_df g d ->
  group_document Age_Group "demographic" sales_df g d.
Proof.
  intros (label & -> & Hkind & _ & Hcount & Hrows). repeat split; assumption.
Qed.

(** The steps of a completed run. *)
Lemma main_inv (plt : plotting) (sales : list sale) (docs : list document) :
  main plt sales = Returned docs ->
  exists time_docs product_docs region_docs age_docs overall,
    docs = time_docs ++ product_docs ++ region_docs ++ age_docs ++ [overall]
    /\ Forall2 (fun v d => time_period_document plt (load_data sales) v = Returned d)
         (unique (YearQuarter <$> load_data sales)) time_docs
    /\ Forall2 (fun v d => product_document plt (load_data sales) v = Returned d)
         (unique ((fun r => Product (record r)) <$> load_data sales)) product_docs
    /\ Forall2 (fun v d => region_document plt (load_data sales) v = Returned d)
         (unique ((fun r => Region (record r)) <$> load_data sales)) region_docs
    /\ Forall2 (fun v d => age_group_document plt (load_data sales) v = Returned d)
         (unique (Age_Group <$> load_data sales)) age_docs
    /\ doc_type overall = "overall"
    /\ create_summary_dict (load_data sales) "overall" (Some "all_data")
       = Returned (raw_data overall)
    /\ create_overall_plot plt (load_data sales) = Returned (plot_path overall).
Proof.
  unfold main. intros H.
  apply bind_returned in H as (t & Ht & H).
  apply bind_returned in H as (p & Hp & H).
  apply bind_returned in H as (r & Hr & H).
  apply bind_returned in H as (a & Ha & H).
  apply bind_returned in H as (o & Ho & H).
  apply bind_returned in H as (path & Hpath & H).
  injection H as <-.
  eexists t, p, r, a, _. split; [reflexivity|].
  split; [now apply for_each_doc_inv|]. split; [now apply for_each_doc_inv|].
  split; [now apply for_each_doc_inv|]. split; [now apply for_each_doc_inv|].
  split; [reflexivity|]. split; [exact Ho | exact Hpath].
Qed.

(** The documents of a completed run, group by group. *)
Lemma main_groups (plt : plotting) (sales : list sale) (docs : list document) :
  main plt sales = Returned docs ->
  exists time_docs product_docs region_docs age_docs overall,
    docs = time_docs ++ product_docs ++ region_docs ++ age_docs ++ [overall]
    /\ Forall2 (group_document YearQuarter "time_period" (load_data sales))
         (unique (YearQuarter <$> load_data sales)) time_docs
    /\ Forall2 (group_document (fun r => Product (record r)) "product"
                  (load_data sales))
         (unique ((fun r => Product (record r)) <$> load_data sales)) product_docs
    /\ Forall2 (group_document (fun r => Region (record r)) "region"
                  (load_data sales))
         (unique ((fun r => Region (record r)) <$> load_data sales)) region_docs
    /\ Forall2 (age_group_document_of (load_data sales))
         (unique (Age_Group <$> load_data sales)) age_docs
    /\ doc_type overall = "overall"
    /\ total_records (raw_data overall) = length sales
    /\ summarized (raw_data overall) = load_data sales.
Proof.
  intros Hrun.
  destruct (main_inv plt sales docs Hrun)
    as (t & p & r & a & o & Hdocs & Ht & Hp & Hr & Ha & Ho & Hsum & _).
  exists t, p, r, a, o. split; [exact Hdocs|].
  split.
  { eapply Forall2_impl; [exact Ht|]. intros v d Hd.
    now apply time_period_document_inv in Hd as [Hg _]. }
  split.
  { eapply Forall2_impl; [exact Hp|]. intros v d Hd.
    now apply product_document_inv in Hd as (_ & Hg & _). }
  split.
  { eapply Forall2_impl; [exact Hr|]. intros v d Hd.
    now apply region_document_inv in Hd as (_ & Hg & _). }
  split.
  { eapply Forall2_impl; [exact Ha|]. intros v d Hd.
    now apply age_group_document_inv in Hd as [Hg _]. }
  split; [exact Ho|].
  apply create_summary_dict_inv in Hsum as (_ & Hc & Hs).
  split; [|exact Hs]. rewrite Hc. unfold load_data. apply length_map.
Qed.

Lemma group_documents_kind {B} `{EqDecision B} (column : row -> B) (kind : string)
    (sales_df : list row) (vs : list B) (ds : list document) :
  Forall2 (group_document column kind sales_df) vs ds ->
  Forall (fun d => doc_type d = kind) ds.
Proof.
  induction 1 as [|v d vs ds (Hkind & _) _ IH]; constructor; assumption.
Qed.

(** *** Data sets whose ages all lie in 18..70 *)

(** When there is at least one record, every age lies in 18..70, no
    product or region cell is missing and every figure is drawn and
    saved, the run completes. *)
Lemma main_returns (plt : plotting) (sales : list sale) :
  sales <> [] ->
  (forall s, s ∈ sales -> 18 <= Customer_Age s <= 70)%Z ->
  (forall s, s ∈ sales -> is_Some (Product s) /\ is_Some (Region s)) ->
  draws_every_figure plt ->
  exists docs, main plt sales = Returned docs.
Proof.
  intros Hne Hrange Hcells (Hpt & Hpp & Hpr & Hpa & Hpo). unfold main.
  set (sales_df := load_data sales).
  assert (Hrow : forall r, r ∈ sales_df ->
             (exists label, Age_Group r = Some label)
             /\ is_Some (Product (record r)) /\ is_Some (Region (record r))).
  { intros r Hr. apply list_elem_of_fmap in Hr as (s & -> & Hs).
    split; [|exact (Hcells s Hs)].
    specialize (Hrange s Hs). rewrite age_group_of_age.
    repeat match goal with
           | |- context [decide ?P] => destruct (decide P)
           end; eauto; lia. }
  destruct (for_each_doc_returns (fun _ _ => True)
              (time_period_document plt sales_df) (unique (map YearQuarter sales_df)))
    as (time_docs & -> & _).
  { intros v Hv. apply unique_from_subset in Hv.
    apply list_elem_of_fmap in Hv as (r & -> & Hr). unfold time_period_document.
    destruct (create_summary_dict_returns
                (filter (fun r' => YearQuarter r' = YearQuarter r) sales_df)
                "time_period" (Some (YearQuarter r))) as [range ->].
    { apply (filter_occurs YearQuarter sales_df r Hr). }
    cbn. destruct (Hpt (filter (fun r' => YearQuarter r' = YearQuarter r) sales_df)
                       (YearQuarter r)) as [path ->].
    cbn. eauto. }
  destruct (for_each_doc_returns (fun _ _ => True)
              (product_document plt sales_df)
              (unique (map (fun r => Product (record r)) sales_df)))
    as (product_docs & -> & _).
  { intros v Hv. apply unique_from_subset in Hv.
    apply list_elem_of_fmap in Hv as (r & -> & Hr). unfold product_document.
    rewrite (cell_chunk (fun r => Product (record r))).
    destruct (Hrow r Hr) as (_ & [text Htext] & _). rewrite Htext.
    destruct (create_summary_dict_returns
                (filter (fun r' => Product (record r') = Some text) sales_df)
                "product" (Some text)) as [range ->].
    { rewrite <- Htext. apply (filter_occurs (fun r => Product (record r)) sales_df r Hr). }
    cbn. destruct (Hpp (filter (fun r' => Product (record r') = Some text) sales_df)
                       (Some text)) as [path ->].
    cbn. eauto. }
  destruct (for_each_doc_returns (fun _ _ => True)
              (region_document plt sales_df)
              (unique (map (fun r => Region (record r)) sales_df)))
    as (region_docs & -> & _).
  { intros v Hv. apply unique_from_subset in Hv.
    apply list_elem_of_fmap in Hv as (r & -> & Hr). unfold region_document.
    rewrite (cell_chunk (fun r => Region (record r))).
    destruct (Hrow r Hr) as (_ & _ & [text Htext]). rewrite Htext.
    destruct (create_summary_dict_returns
                (filter (fun r' => Region (record r') = Some text) sales_df)
                "region" (Some text)) as [range ->].
    { rewrite <- Htext. apply (filter_occurs (fun r => Region (record r)) sales_df r Hr). }
    cbn. destruct (Hpr (filter (fun r' => Region (record r') = Some text) sales_df)
                       (Some text)) as [path ->].
    cbn. eauto. }
  destruct (for_each_doc_returns (fun _ _ => True)
              (age_group_document plt sales_df) (unique (map Age_Group sales_df)))
    as (age_docs & -> & _).
  { intros g Hg. apply unique_from_subset in Hg.
    apply list_elem_of_fmap in Hg as (r & -> & Hr). unfold age_group_document.
    destruct (Hrow r Hr) as ([label Hlabel] & _). rewrite Hlabel.
    rewrite age_group_chunk.
    destruct (create_summary_dict_returns
                (filter (fun r' => Age_Group r' = Some label) sales_df)
                "age_group" (Some (str_age_group (Some label)))) as [range ->].
    { rewrite <- Hlabel. apply (filter_occurs Age_Group sales_df r Hr). }
    cbn. destruct (Hpa (filter (fun r' => Age_Group r' = Some label) sales_df)
                       (Some label)) as [path ->].
    cbn. eauto. }
  destruct (create_summary_dict_returns sales_df "overall" (Some "all_data"))
    as [range ->].
  { unfold sales_df, load_data. destruct sales; [contradiction | discriminate]. }
  destruct (Hpo sales_df) as [path ->].
  cbn. eauto.
Qed.

(** When every age lies in 18..70 and the run completes, every age-group
    document aggregates exactly the rows of one label, every record is in
    the age-group document of its label, and the last document, the
    overall one, aggregates all rows.  The run completes when, moreover,
    there is at least one record, no product or region cell is missing
    and every figure is drawn and saved. *)
Lemma main_in_range (plt : plotting) (sales : list sale) :
  sales <> [] ->
  (forall s, s ∈ sales -> 18 <= Customer_Age s <= 70)%Z ->
  (forall s, s ∈ sales -> is_Some (Product s) /\ is_Some (Region s)) ->
  draws_every_figure plt ->
  exists docs overall,
    main plt sales = Returned docs
    /\ (forall d, d ∈ docs -> doc_type d = "demographic" ->
          exists label, age_group_document_of (load_data sales) (Some label) d)
    /\ (forall s, s ∈ sales ->
          exists d label,
            d ∈ docs /\ Age_Group (load_row s) = Some label
            /\ age_group_document_of (load_data sales) (Some label) d
            /\ load_row s ∈ summarized (raw_data d))
    /\ last docs = Some overall
    /\ doc_type overall = "overall"
    /\ total_records (raw_data overall) = length sales
    /\ summarized (raw_data overall) = load_data sales.
Proof.
  intros Hne Hrange Hcells Hplots.
  destruct (main_returns plt sales Hne Hrange Hcells Hplots) as [docs Hrun].
  destruct (main_groups plt sales docs Hrun)
    as (t & p & r & a & o & -> & Ht & Hp & Hr & Ha & Ho & Hoc & Hos).
  set (sales_df := load_data sales) in *.
  pose proof (group_documents_kind _ _ _ _ _ Ht) as Htime.
  pose proof (group_documents_kind _ _ _ _ _ Hp) as Hproduct.
  pose proof (group_documents_kind _ _ _ _ _ Hr) as Hregion.
  exists (t ++ p ++ r ++ a ++ [o]), o. split; [exact Hrun|].
  split; [|split; [|split]].
  - intros d Hd Hdemo.
    rewrite !elem_of_app in Hd.
    destruct Hd as [Hd|[Hd|[Hd|[Hd|Hd]]]].
    + rewrite Forall_forall in Htime. rewrite (Htime d Hd) in Hdemo. discriminate.
    + rewrite Forall_forall in Hproduct. rewrite (Hproduct d Hd) in Hdemo. discriminate.
    + rewrite Forall_forall in Hregion. rewrite (Hregion d Hd) in Hdemo. discriminate.
    + apply list_elem_of_lookup in Hd as [i Hi].
      destruct (Forall2_lookup_r _ _ _ _ _ Ha Hi) as (g & _ & Hof).
      destruct Hof as (label & -> & Hrest). exists label, label. auto.
    + apply list_elem_of_singleton in Hd as ->. rewrite Ho in Hdemo. discriminate.
  - intros s Hs.
    assert (Hrow : load_row s ∈ sales_df) by (apply list_elem_of_fmap; eauto).
    assert (Hlabelled : exists label, Age_Group (load_row s) = Some label).
    { specialize (Hrange s Hs). rewrite age_group_of_age.
      repeat match goal with
             | |- context [decide ?P] => destruct (decide P)
             end; eauto; lia. }
    destruct Hlabelled as [label Hlabel].
    assert (Hg : Some label ∈ unique (map Age_Group sales_df)).
    { apply unique_elem. rewrite <- Hlabel.
      apply (list_elem_of_fmap_2 Age_Group). exact Hrow. }
    apply list_elem_of_lookup in Hg as [i Hi].
    destruct (Forall2_lookup_l _ _ _ _ _ Ha Hi) as (d & Hd & Hof).
    exists d, label. split.
    { rewrite !elem_of_app. right. right. right. left.
      apply list_elem_of_lookup. eauto. }
    split; [exact Hlabel|]. split; [exact Hof|].
    destruct Hof as (label' & Heq & _ & _ & _ & ->). injection Heq as <-.
    apply list_elem_of_filter. auto.
  - rewrite !app_assoc. apply last_snoc.
  - repeat split; assumption.
Qed.

End AggregatorFacts.


(** * Further properties of the code *)

(** ** The engine and the world *)

(** A call of [qa_search], whatever its outcome, leaves every dictionary
    that existed as it was and only adds events to the trace. *)
Theorem qa_search_frame :
  forall llm query vectorstore chat_history k w,
    heap w ⊆ heap (qa_search llm query vectorstore chat_history k w).2
    /\ trace w `prefix_of` trace (qa_search llm query vectorstore chat_history k w).2.
Proof.
  intros llm query [vs|] chat_history k w.
  2:{ rewrite qa_search_none. split; reflexivity. }
  rewrite qa_search_try_except, qa_search_try_run.
  destruct (copy_all_spec
              (match similarity_search vs (trace w) query k with
               | Returned docs => docs | Raised _ => [] end) (heap w))
    as (Hsub & _).
  destruct (similarity_search vs (trace w) query k) as [docs|e1].
  2:{ cbn [snd heap trace]. split; [reflexivity | now apply prefix_app_r]. }
  cbn zeta.
  destruct (similarity_search vs (trace w ++ _) query k) as [context|e2].
  2:{ cbn [snd heap trace]. split; [exact Hsub|].
      rewrite <- app_assoc. now apply prefix_app_r. }
  destruct (llm _ _) as [answer|e3]; cbn [snd heap trace];
    (split; [exact Hsub | rewrite <- !app_assoc; now apply prefix_app_r]).
Qed.

(** The calls of [qa_search] on an index are fixed by the answers of its
    collaborators.  When the first search raises, the call made that one
    search and nothing else, and allocated nothing.  When the first search
    returns and the second raises, the call made these two searches and
    nothing else.  When both return, it made the two searches and then one
    generation, whatever the chat model answers.  Each search is for the
    query and [k]; nothing is retried, and the chat model is called only
    after two searches that returned. *)
Theorem qa_search_call_sequence :
  forall llm query vs chat_history k w,
    match similarity_search vs (trace w) query k with
    | Raised _ =>
        new_events w (qa_search llm query (Some vs) chat_history k w).2
        = [EvRetrieve query k]
        /\ heap (qa_search llm query (Some vs) chat_history k w).2 = heap w
    | Returned _ =>
        match similarity_search vs (trace w ++ [EvRetrieve query k]) query k with
        | Raised _ =>
            new_events w (qa_search llm query (Some vs) chat_history k w).2
            = [EvRetrieve query k; EvRetrieve query k]
        | Returned context =>
            new_events w (qa_search llm query (Some vs) chat_history k w).2
            = [EvRetrieve query k; EvRetrieve query k;
               EvGenerate (chain_prompt query chat_history context)]
        end
    end.
Proof.
  intros llm query vs chat_history k w. unfold new_events.
  rewrite qa_search_try_except, qa_search_try_run.
  destruct (similarity_search vs (trace w) query k) as [docs|e1].
  2:{ cbn [snd heap trace]. rewrite drop_app_length. auto. }
  cbn zeta.
  destruct (similarity_search vs (trace w ++ _) query k) as [context|e2].
  2:{ cbn [snd heap trace]. now rewrite <- app_assoc, drop_app_length. }
  destruct (llm _ _) as [answer|e3]; cbn [snd trace];
    rewrite <- !app_assoc; now rewrite drop_app_length.
Qed.



(** ** What the prompt holds *)

Lemma startswith_app_l (t s b : string) :
  startswith t s = true -> startswith (t +:+ b) s = true.
Proof.
  revert t. induction s as [|c s IH]; intros t; [reflexivity|].
  destruct t as [|c' t]; cbn [startswith]; [discriminate|].
  rewrite string_app_cons. intros H. apply andb_true_iff in H as [Hc Ht].
  rewrite Hc. cbn. now apply IH.
Qed.

Lemma str_contains_app_l (s t b : string) :
  str_contains s t = true -> str_contains s (t +:+ b) = true.
Proof.
  induction t as [|c t IH].
  - cbn [str_contains]. rewrite orb_false_r. intros H.
    destruct s; [|discriminate H]. destruct b; reflexivity.
  - rewrite string_app_cons. cbn [str_contains]. intros H.
    apply orb_true_iff in H as [H|H].
    + rewrite <- string_app_cons, (startswith_app_l _ _ _ H). reflexivity.
    + rewrite (IH H). apply orb_true_r.
Qed.

Lemma str_contains_app_r (s a t : string) :
  str_contains s t = true -> str_contains s (a +:+ t) = true.
Proof.
  intros H. induction a as [|c a IH]; [exact H|].
  rewrite string_app_cons. cbn [str_contains]. rewrite IH. apply orb_true_r.
Qed.

Lemma str_contains_refl (s : string) : str_contains s s = true.
Proof. rewrite <- (string_app_empty_r s) at 2. apply str_contains_prefix. Qed.

Lemma str_contains_join (sep part : string) (parts : list string) :
  part ∈ parts -> str_contains part (join sep parts) = true.
Proof.
  induction parts as [|p rest IH]; intros Hin; [inversion Hin|].
  apply elem_of_cons in Hin as [->|Hin].
  - destruct rest as [|p' rest']; cbn [join]; [apply str_contains_refl|].
    apply str_contains_prefix.
  - destruct rest as [|p' rest']; [inversion Hin|].
    cbn [join]. do 2 apply str_contains_app_r. exact (IH Hin).
Qed.

Lemma str_contains_prompt_context (history context question part : string) :
  str_contains part context = true ->
  str_contains part (prompt_text history context question) = true.
Proof.
  intros H. unfold prompt_text.
  do 3 apply str_contains_app_r. now apply str_contains_app_l.
Qed.

Lemma str_contains_prompt_question (history context question part : string) :
  str_contains part question = true ->
  str_contains part (prompt_text history context question) = true.
Proof.
  intros H. unfold prompt_text.
  do 5 apply str_contains_app_r. now apply str_contains_app_l.
Qed.

(** The prompt a call sends to the chat model, when both searches
    returned. *)
Lemma qa_search_prompt llm query vs chat_history k w first context :
  similarity_search vs (trace w) query k = Returned first ->
  similarity_search vs (trace w ++ [EvRetrieve query k]) query k = Returned context ->
  generations (new_events w (qa_search llm query (Some vs) chat_history k w).2)
  = [chain_prompt query chat_history context].
Proof.
  intros H1 H2. unfold new_events.
  rewrite qa_search_try_except, qa_search_try_run, H1. cbn zeta. rewrite H2.
  destruct (llm _ _) as [answer|e3]; cbn [snd trace];
    rewrite <- !app_assoc; now rewrite drop_app_length.
Qed.

(** When both searches of a call return, the one prompt the call sends to
    the chat model holds the text of every document of the second search,
    unchanged. *)
Theorem prompt_holds_every_document_text :
  forall llm query vs chat_history k w first context,
    similarity_search vs (trace w) query k = Returned first ->
    similarity_search vs (trace w ++ [EvRetrieve query k]) query k
    = Returned context ->
    exists prompt,
      generations (new_events w (qa_search llm query (Some vs) chat_history k w).2)
      = [prompt]
      /\ forall doc, doc ∈ context ->
           str_contains (page_content doc) prompt = true.
Proof.
  intros llm query vs chat_history k w first context H1 H2.
  exists (chain_prompt query chat_history context).
  split; [now apply (qa_search_prompt llm query vs chat_history k w first)|].
  intros doc Hin. unfold chain_prompt.
  apply str_contains_prompt_context. unfold format_docs.
  apply str_contains_join.
  apply (list_elem_of_fmap_2 page_content). exact Hin.
Qed.

Lemma prompt_holds_every_document_text_witness :
  exists prompt,
    generations (new_events Sample.world0
                   (qa_search Sample.llm "q" (Some Sample.store) None 2
                              Sample.world0).2)
    = [prompt]
    /\ forall doc, doc ∈ [Sample.widget; Sample.overall] ->
         str_contains (page_content doc) prompt = true.
Proof.
  apply (prompt_holds_every_document_text Sample.llm "q" Sample.store None 2
           Sample.world0 [Sample.widget; Sample.overall]
           [Sample.widget; Sample.overall]);
    reflexivity.
Defined.

Lemma plain_char_ascii (c : ascii) :
  plain_char c = true -> (N_of_ascii c <? 128)%N = true.
Proof.
  unfold plain_char, nat_of_ascii. intros Hp.
  apply andb_true_iff in Hp as [_ H127]. apply Nat.ltb_lt in H127.
  apply N.ltb_lt. lia.
Qed.

Lemma repr_char_plain (quote c : ascii) :
  plain_char c = true -> Ascii.eqb quote c = false ->
  repr_char quote c = String c EmptyString.
Proof.
  unfold plain_char, repr_char. intros Hp Hq.
  apply andb_true_iff in Hp as [Hp H127]. apply andb_true_iff in Hp as [Hb H32].
  rewrite Ascii.eqb_sym, Hq. apply negb_true_iff in Hb. rewrite Hb. cbn [orb].
  apply Nat.leb_le in H32. apply Nat.ltb_lt in H127.
  destruct (Nat.eqb_spec (nat_of_ascii c) 9); [lia|].
  destruct (Nat.eqb_spec (nat_of_ascii c) 10); [lia|].
  destruct (Nat.eqb_spec (nat_of_ascii c) 13); [lia|].
  destruct (Nat.ltb_spec (nat_of_ascii c) 32); [lia|].
  destruct (Nat.eqb_spec (nat_of_ascii c) 127); [lia|]. reflexivity.
Qed.

Lemma repr_chars_plain (quote : ascii) (s : string) :
  plain_text s = true -> has_char quote s = false -> repr_chars quote s = s.
Proof.
  induction s as [|c s IH]; [reflexivity|].
  cbn [plain_text has_char repr_chars]. intros Hp Hq.
  apply andb_true_iff in Hp as [Hc Hs]. apply orb_false_iff in Hq as [Hqc Hqs].
  rewrite (plain_char_ascii c Hc).
  rewrite (repr_char_plain quote c Hc Hqc), (IH Hs Hqs). reflexivity.
Qed.

Lemma repr_str_plain (s : string) :
  plain_text s = true -> mixed_quotes s = false ->
  str_contains s (repr_str s) = true.
Proof.
  intros Hp Hm. unfold repr_str, mixed_quotes in *.
  set (quote := if has_char squote s && negb (has_char dquote s) then dquote else squote).
  assert (Hq : has_char quote s = false).
  { unfold quote.
    destruct (has_char squote s) eqn:Hs, (has_char dquote s) eqn:Hd;
      cbn in *; congruence. }
  rewrite (repr_chars_plain quote s Hp Hq).
  change (String quote s) with (String quote EmptyString +:+ s).
  rewrite string_app_assoc. apply str_contains_app_r, str_contains_prefix.
Qed.

(** Although the question slot receives the printed chain input, a query
    of printable ASCII characters with no backslash and not both kinds of
    quote is still readable by the chat model: when both searches of the
    call return, the one prompt sent holds the query text unchanged. *)
Theorem prompt_holds_plain_query :
  forall llm query vs chat_history k w first context,
    plain_text query = true ->
    mixed_quotes query = false ->
    similarity_search vs (trace w) query k = Returned first ->
    similarity_search vs (trace w ++ [EvRetrieve query k]) query k
    = Returned context ->
    exists prompt,
      generations (new_events w (qa_search llm query (Some vs) chat_history k w).2)
      = [prompt]
      /\ str_contains query prompt = true.
Proof.
  intros llm query vs chat_history k w first context Hp Hm H1 H2.
  exists (chain_prompt query chat_history context).
  split; [now apply (qa_search_prompt llm query vs chat_history k w first)|].
  unfold chain_prompt. apply str_contains_prompt_question.
  unfold chain_input, str. cbn [repr map join fst snd].
  apply str_contains_app_r, str_contains_app_l, str_contains_app_l.
  do 2 apply str_contains_app_r. now apply repr_str_plain.
Qed.

Lemma prompt_holds_plain_query_witness :
  exists prompt,
    generations
      (new_events Sample.world0
         (qa_search Sample.llm "What is the total sales for Widget A?"
                    (Some Sample.store) None 2 Sample.world0).2)
    = [prompt]
    /\ str_contains "What is the total sales for Widget A?" prompt = true.
Proof.
  apply (prompt_holds_plain_query Sample.llm
           "What is the total sales for Widget A?" Sample.store None 2
           Sample.world0 [Sample.widget; Sample.overall]
           [Sample.widget; Sample.overall]);
    reflexivity.
Defined.

(** ** The window of [format_chat_history] *)

Lemma format_chat_history_normalize (msgs : list message) (n : Z) :
  format_chat_history msgs n
  = normalize_turn
    <$> (if (Z.of_nat (length msgs) >? n)%Z then slice_from (- n) msgs else msgs).
Proof.
  unfold format_chat_history. apply map_ext. intros msg.
  unfold normalize_turn. rewrite eqb_decide.
  destruct (decide (role msg = "user")); reflexivity.
Qed.

Lemma format_chat_history_window_eq (msgs : list message) (n : Z) :
  format_chat_history msgs n
  = normalize_turn
    <$> (if decide (0 < n)%Z then last_n (Z.to_nat n) msgs
         else if decide (n = 0)%Z then msgs
         else drop (Z.to_nat (- n)) msgs).
Proof.
  rewrite format_chat_history_normalize. f_equal.
  destruct (decide (0 < n)%Z) as [Hpos|Hnpos].
  - destruct (Z.gtb_spec (Z.of_nat (length msgs)) n) as [Hgt|Hle].
    + rewrite <- (Z2Nat.id n) at 1 by lia. apply slice_from_last_n. lia.
    + symmetry. apply last_n_all. lia.
  - destruct (decide (n = 0)%Z) as [->|Hneg].
    + destruct (Z.gtb_spec (Z.of_nat (length msgs)) 0); [|reflexivity].
      unfold slice_from. cbn [Z.opp Z.ltb Z.compare].
      rewrite Z.min_l by lia. reflexivity.
    + destruct (Z.gtb_spec (Z.of_nat (length msgs)) n) as [Hgt|Hle]; [|lia].
      unfold slice_from. destruct (Z.ltb_spec (- n) 0) as [|_]; [lia|].
      destruct (Z.min_spec (- n) (Z.of_nat (length msgs))) as [[_ ->]|[Hge ->]];
        [reflexivity|].
      rewrite Nat2Z.id, !drop_ge by lia. reflexivity.
Qed.

(** [format_chat_history] with a positive [max_messages] keeps the last
    [max_messages] turns; with [0] it keeps every turn, since the slice
    [messages[-0:]] is the whole list; with a negative value it drops that
    many turns from the front.  The kept turns carry a role [user] or
    [assistant] and their content, and no metadata. *)
Theorem format_chat_history_window :
  forall msgs n,
    format_chat_history msgs n
    = normalize_turn
      <$> (if decide (0 < n)%Z then last_n (Z.to_nat n) msgs
           else if decide (n = 0)%Z then msgs
           else drop (Z.to_nat (- n)) msgs).
Proof. exact format_chat_history_window_eq. Qed.

Lemma normalize_turn_idemp (msg : message) :
  normalize_turn (normalize_turn msg) = normalize_turn msg.
Proof.
  unfold normalize_turn. cbn [role content].
  destruct (decide (role msg = "user")); reflexivity.
Qed.

(** For a [max_messages] that is not negative, formatting a formatted
    history changes nothing. *)
Theorem format_chat_history_idempotent :
  forall msgs n,
    (0 <= n)%Z ->
    format_chat_history (format_chat_history msgs n) n = format_chat_history msgs n.
Proof.
  intros msgs n Hn.
  rewrite (format_chat_history_window_eq (format_chat_history msgs n)).
  rewrite format_chat_history_window_eq.
  assert (Hidem : forall l : list message,
             normalize_turn <$> (normalize_turn <$> l) = normalize_turn <$> l).
  { intros l. rewrite <- list_fmap_compose. apply list_fmap_ext.
    intros i x _. apply normalize_turn_idemp. }
  destruct (decide (0 < n)%Z) as [Hpos|Hnpos].
  - rewrite last_n_all; [apply Hidem|].
    rewrite length_fmap, last_n_length. lia.
  - destruct (decide (n = 0)%Z); [apply Hidem | lia].
Qed.

Lemma format_chat_history_idempotent_witness :
  format_chat_history
    (format_chat_history (messages (Sample.session None)) 4) 4
  = format_chat_history (messages (Sample.session None)) 4.
Proof.
  apply (format_chat_history_idempotent (messages (Sample.session None)) 4). lia.
Defined.

(** ** One script run of the application *)

Lemma drop_last_snoc {A} (l : list A) (x : A) : drop_last (l ++ [x]) = l.
Proof.
  unfold drop_last. rewrite length_app. cbn [length].
  replace (length l + 1 - 1)%nat with (length l) by lia.
  now rewrite take_app_length.
Qed.

(** A run that processes the query ends either with the success notice, or
    with an error notice and the session as it was after the user turn was
    appended. *)
Lemma process_query_cases llm st w :
  should_process_query st = true ->
  last_query st <> EmptyString ->
  (exists ms w',
      process_query llm st w = (set_messages (append_user_turn st) ms, [StSuccess], w')
      /\ exists vs,
           vectorstore st = Some vs
           /\ answer_try llm (append_user_turn st) vs (last_query st)
                 (format_chat_history (messages st) default_max_messages) w
              = (Returned ms, w'))
  \/ (exists msg w', process_query llm st w = (append_user_turn st, [StError msg], w')).
Proof.
  intros Hflag Hquery. unfold process_query. rewrite Hflag.
  apply String.eqb_neq in Hquery. rewrite Hquery. cbn [andb negb].
  change (messages (append_user_turn st))
    with (messages st ++ [{| role := "user"; content := last_query st;
                             msg_metadata := None |}]).
  rewrite drop_last_snoc.
  change (vectorstore (append_user_turn st)) with (vectorstore st).
  destruct (vectorstore st) as [vs|]; [|right; eauto].
  destruct (answer_try _ _ _ _ _ _) as [[ms|e] w'] eqn:Htry; [|right; eauto].
  left. exists ms, w'. split; [reflexivity|]. eauto.
Qed.

(** Running the query block again right after a run does nothing: after any
    run, a further run leaves the session and the world as they are and
    shows nothing, so a query is processed once. *)
Theorem process_query_rerun_does_nothing :
  forall llm st w w2,
    process_query llm (process_query llm st w).1.1 w2
    = ((process_query llm st w).1.1, [], w2).
Proof.
  intros llm st w w2.
  destruct (should_process_query st && negb (String.eqb (last_query st) EmptyString))
    eqn:Hcond.
  - apply andb_true_iff in Hcond as [Hflag Hquery].
    apply negb_true_iff, String.eqb_neq in Hquery.
    destruct (process_query_cases llm st w Hflag Hquery)
      as [(ms & w' & -> & _) | (msg & w' & ->)]; reflexivity.
  - unfold process_query at 2. rewrite Hcond. cbn [fst].
    unfold process_query. rewrite Hcond. reflexivity.
Qed.

(** A returned dictionary with a [retrieved_count] is the result of a
    successful call. *)
Lemma qa_search_counted_is_success llm query vs chat_history k w r w' c :
  qa_search llm query (Some vs) chat_history k w = (Returned r, w') ->
  r !! "retrieved_count" = Some c ->
  r !! "error" = None.
Proof.
  rewrite qa_search_try_except, qa_search_try_run. intros Hrun Hc.
  destruct (similarity_search vs (trace w) query k) as [docs|e1].
  2:{ injection Hrun as <- _. discriminate Hc. }
  cbn zeta in Hrun.
  destruct (similarity_search vs (trace w ++ _) query k) as [context|e2].
  2:{ injection Hrun as <- _. discriminate Hc. }
  destruct (llm _ _) as [answer|e3].
  2:{ injection Hrun as <- _. discriminate Hc. }
  injection Hrun as <- _. reflexivity.
Qed.

(** What a completed [try] block of the query step did. *)
Lemma answer_try_inv llm st vs query chat_history w ms w' :
  answer_try llm st vs query chat_history w = (Returned ms, w') ->
  exists r answer,
    qa_search llm query (Some vs) (Some chat_history) 6 w = (Returned r, w')
    /\ r !! "error" = None
    /\ r !! "answer" = Some (VStr answer)
    /\ ms = trim (messages st
                  ++ [{| role := "assistant"; content := answer;
                         msg_metadata := r !! "document_metadata" |}]).
Proof.
  unfold answer_try, mbind, M_bind, bind, result_getitem.
  destruct (qa_search _ _ _ _ _ _) as [[r|e] w1] eqn:Hrun; [|discriminate].
  destruct (r !! "answer") as [a|] eqn:Ha; [|discriminate]. cbn [ret].
  destruct (r !! "retrieved_count") as [c|] eqn:Hc; [|discriminate]. cbn [ret].
  destruct (r !! "document_metadata") as [m|] eqn:Hm; [|discriminate]. cbn [ret].
  intros Heq. injection Heq as <- <-.
  pose proof (qa_search_counted_is_success _ _ _ _ _ _ _ _ _ Hrun Hc) as Herr.
  destruct (qa_search_success_inv _ _ _ _ _ _ _ _ Hrun Herr)
    as (docs & context & answer & _ & _ & _ & Hr & _).
  exists r, answer. split; [reflexivity|]. split; [exact Herr|].
  assert (Hanswer : a = VStr answer).
  { rewrite Hr in Ha. destruct (success_result_lookups answer
      (copy_all docs (heap w)).1 (length docs)) as (Hl & _). congruence. }
  subst a. split; [exact Ha|]. rewrite Hm. reflexivity.
Qed.

(** When retrieval or generation fails during a run, the run shows
    [Error generating response: 'retrieved_count'] whatever the cause: the
    error dictionary of the engine has no [retrieved_count], the log line
    that reads it raises [KeyError], and the error text of the engine is
    not shown.  No assistant turn is appended. *)
Theorem engine_failure_shown_as_key_error :
  forall llm st w vs e,
    should_process_query st = true ->
    last_query st <> EmptyString ->
    vectorstore st = Some vs ->
    step_failure llm (last_query st) vs
      (Some (format_chat_history (messages st) default_max_messages)) 6 w e ->
    exists w',
      process_query llm st w
      = (append_user_turn st,
         [StError "Error generating response: 'retrieved_count'"], w').
Proof.
  intros llm st w vs e Hflag Hquery Hvs Hfail.
  unfold process_query. rewrite Hflag.
  apply String.eqb_neq in Hquery. rewrite Hquery. cbn [andb negb].
  change (messages (append_user_turn st))
    with (messages st ++ [{| role := "user"; content := last_query st;
                             msg_metadata := None |}]).
  rewrite drop_last_snoc.
  change (vectorstore (append_user_turn st)) with (vectorstore st). rewrite Hvs.
  destruct (step_failure_raises _ _ _ _ _ _ _ Hfail) as [w' Hraise].
  unfold answer_try, mbind, M_bind. unfold bind at 1.
  rewrite qa_search_try_except, Hraise. exists w'. reflexivity.
Qed.

Lemma engine_failure_shown_as_key_error_witness :
  exists w',
    process_query Sample.failing_llm (Sample.session (Some Sample.store)) Sample.world0
    = (append_user_turn (Sample.session (Some Sample.store)),
       [StError "Error generating response: 'retrieved_count'"], w').
Proof.
  apply (engine_failure_shown_as_key_error Sample.failing_llm
           (Sample.session (Some Sample.store)) Sample.world0 Sample.store
           (Exn "RuntimeError" "service unavailable")).
  - reflexivity.
  - discriminate.
  - reflexivity.
  - right. right. exists [Sample.widget; Sample.overall], [Sample.widget; Sample.overall].
    repeat split; reflexivity.
Defined.

(** A run that answers calls the engine with the pending query, [k = 6] and
    the formatted turns that preceded the query: the user turn appended by
    the run itself is not part of the history. *)
Theorem answered_query_calls :
  forall llm st w st' w',
    should_process_query st = true ->
    last_query st <> EmptyString ->
    process_query llm st w = (st', [StSuccess], w') ->
    exists context,
      new_events w w'
      = [EvRetrieve (last_query st) 6; EvRetrieve (last_query st) 6;
         EvGenerate
           (chain_prompt (last_query st)
              (Some (format_chat_history (messages st) default_max_messages))
              context)].
Proof.
  intros llm st w st' w' Hflag Hquery Hrun.
  destruct (process_query_cases llm st w Hflag Hquery)
    as [(ms & w1 & Heq & vs & Hvs & Htry) | (msg & w1 & Heq)];
    rewrite Heq in Hrun; [|discriminate Hrun].
  injection Hrun as _ <-.
  destruct (answer_try_inv _ _ _ _ _ _ _ _ Htry) as (r & answer & Hcall & Herr & _).
  destruct (qa_search_success_inv _ _ _ _ _ _ _ _ Hcall Herr)
    as (docs & context & answer' & _ & _ & _ & _ & ->).
  exists context. unfold new_events. cbn [trace].
  rewrite <- !app_assoc. now rewrite drop_app_length.
Qed.

Lemma answered_query_calls_witness :
  exists context,
    new_events Sample.world0
      (process_query Sample.llm (Sample.session (Some Sample.store)) Sample.world0).2
    = [EvRetrieve (last_query (Sample.session (Some Sample.store))) 6;
       EvRetrieve (last_query (Sample.session (Some Sample.store))) 6;
       EvGenerate
         (chain_prompt (last_query (Sample.session (Some Sample.store)))
            (Some (format_chat_history
                     (messages (Sample.session (Some Sample.store)))
                     default_max_messages))
            context)].
Proof.
  apply (answered_query_calls Sample.llm (Sample.session (Some Sample.store))
           Sample.world0
           (process_query Sample.llm (Sample.session (Some Sample.store))
                          Sample.world0).1.1).
  - reflexivity.
  - discriminate.
  - vm_compute. reflexivity.
Defined.

(** ** What a run displays *)

Lemma last_n_app_tail {A} (n : nat) (l t : list A) :
  (length t <= n)%nat -> last_n n (l ++ t) = last_n (n - length t) l ++ t.
Proof.
  intros Hle. unfold last_n. rewrite length_app.
  replace (length l + length t - n)%nat with (length l - (n - length t))%nat by lia.
  apply drop_app_le. lia.
Qed.

Lemma latest_interaction_snoc (earlier : list message) (a b : message) :
  role a <> role b ->
  latest_interaction (earlier ++ [a; b])
  = if String.eqb (role b) "user" then
      (if String.eqb (role a) "assistant" then Some (b, a)
       else (fun q => (b, q)) <$> last_with_role "assistant" earlier)
    else if String.eqb (role b) "assistant" then
      (if String.eqb (role a) "user" then Some (a, b)
       else (fun q => (q, b)) <$> last_with_role "user" earlier)
    else
      match (if String.eqb (role a) "user" then Some a
             else last_with_role "user" earlier),
            (if String.eqb (role a) "assistant" then Some a
             else last_with_role "assistant" earlier) with
      | Some q, Some r => Some (q, r)
      | _, _ => None
      end.
Proof.
  intros Hne. unfold latest_interaction, last_with_role.
  rewrite length_app. cbn [length].
  replace (2 <=? length earlier + 2)%nat with true
    by (symmetry; apply Nat.leb_le; lia).
  rewrite rev_app_distr. cbn [rev app List.find].
  destruct (String.eqb_spec (role b) "user") as [Hb|Hb];
    destruct (String.eqb_spec (role b) "assistant") as [Hb'|Hb'];
    destruct (String.eqb_spec (role a) "user") as [Ha|Ha];
    destruct (String.eqb_spec (role a) "assistant") as [Ha'|Ha'];
    try congruence; try reflexivity;
    destruct (List.find _ (rev earlier)); reflexivity.
Qed.

(** After a run that answers, the latest-interaction block shows the query
    of the run next to the assistant turn of this run: the turn whose
    content is the [answer] entry of the dictionary the engine returned in
    this run, for this query and the turns that preceded it, and whose
    metadata is the [document_metadata] entry of the same dictionary.  The
    trim to ten turns never removes the two. *)
Theorem latest_interaction_after_answer :
  forall llm st w st' w',
    should_process_query st = true ->
    last_query st <> EmptyString ->
    process_query llm st w = (st', [StSuccess], w') ->
    exists vs r answer,
      vectorstore st = Some vs
      /\ qa_search llm (last_query st) (Some vs)
           (Some (format_chat_history (messages st) default_max_messages)) 6 w
         = (Returned r, w')
      /\ r !! "answer" = Some (VStr answer)
      /\ latest_interaction (messages st')
         = Some ({| role := "user"; content := last_query st;
                    msg_metadata := None |},
                 {| role := "assistant"; content := answer;
                    msg_metadata := r !! "document_metadata" |}).
Proof.
  intros llm st w st' w' Hflag Hquery Hrun.
  destruct (process_query_cases llm st w Hflag Hquery)
    as [(ms & w1 & Heq & vs & Hvs & Htry) | (msg & w1 & Heq)];
    rewrite Heq in Hrun; [|discriminate Hrun].
  injection Hrun as <- <-.
  destruct (answer_try_inv _ _ _ _ _ _ _ _ Htry)
    as (r & answer & Hcall & _ & Hanswer & ->).
  exists vs, r, answer.
  split; [exact Hvs|]. split; [exact Hcall|]. split; [exact Hanswer|].
  cbn [set_messages messages append_user_turn].
  rewrite trim_last_n, <- app_assoc. cbn [app].
  rewrite last_n_app_tail by (cbn; lia).
  rewrite latest_interaction_snoc by discriminate. reflexivity.
Qed.

Lemma latest_interaction_after_answer_witness :
  exists vs r answer,
    vectorstore (Sample.session (Some Sample.store)) = Some vs
    /\ qa_search Sample.llm (last_query (Sample.session (Some Sample.store)))
         (Some vs)
         (Some (format_chat_history
                  (messages (Sample.session (Some Sample.store)))
                  default_max_messages)) 6 Sample.world0
       = (Returned r,
          (process_query Sample.llm (Sample.session (Some Sample.store))
                         Sample.world0).2)
    /\ r !! "answer" = Some (VStr answer)
    /\ latest_interaction
         (messages (process_query Sample.llm (Sample.session (Some Sample.store))
                                  Sample.world0).1.1)
       = Some ({| role := "user";
                  content := last_query (Sample.session (Some Sample.store));
                  msg_metadata := None |},
               {| role := "assistant"; content := answer;
                  msg_metadata := r !! "document_metadata" |}).
Proof.
  apply (latest_interaction_after_answer Sample.llm
           (Sample.session (Some Sample.store)) Sample.world0
           (process_query Sample.llm (Sample.session (Some Sample.store))
                          Sample.world0).1.1
           (process_query Sample.llm (Sample.session (Some Sample.store))
                          Sample.world0).2).
  - reflexivity.
  - discriminate.
  - vm_compute. reflexivity.
Defined.

(** After a run that ends with an error notice, in a session whose last
    turn was an assistant turn, the latest-interaction block shows the new
    question next to that earlier answer. *)
Theorem latest_interaction_after_error :
  forall llm st w st' w' msg earlier previous_answer,
    should_process_query st = true ->
    last_query st <> EmptyString ->
    messages st = earlier ++ [previous_answer] ->
    role previous_answer = "assistant" ->
    process_query llm st w = (st', [StError msg], w') ->
    latest_interaction (messages st')
    = Some ({| role := "user"; content := last_query st; msg_metadata := None |},
            previous_answer).
Proof.
  intros llm st w st' w' msg earlier pa Hflag Hquery Hms Hrole Hrun.
  destruct (process_query_cases llm st w Hflag Hquery)
    as [(ms & w1 & Heq & _) | (msg' & w1 & Heq)];
    rewrite Heq in Hrun; [discriminate Hrun|].
  injection Hrun as <- _ _.
  cbn [append_user_turn messages]. rewrite Hms, <- app_assoc. cbn [app].
  rewrite latest_interaction_snoc by (cbn [role]; rewrite Hrole; discriminate).
  cbn [role]. rewrite Hrole. reflexivity.
Qed.

Lemma latest_interaction_after_error_witness :
  latest_interaction
    (messages (process_query Sample.llm (Sample.session None) Sample.world0).1.1)
  = Some ({| role := "user"; content := last_query (Sample.session None);
             msg_metadata := None |},
          Sample.turn 9).
Proof.
  apply (latest_interaction_after_error Sample.llm (Sample.session None)
           Sample.world0
           (process_query Sample.llm (Sample.session None) Sample.world0).1.1
           (process_query Sample.llm (Sample.session None) Sample.world0).2
           "Knowledge base not initialized. Please try again."
           (Sample.turn <$> seq 0 9) (Sample.turn 9)).
  - reflexivity.
  - discriminate.
  - reflexivity.
  - reflexivity.
  - reflexivity.
Defined.

Lemma display_pair_run (ms : list message) (j : nat) (a b : message) :
  ms !! (2 * j)%nat = Some a -> ms !! S (2 * j) = Some b ->
  display_pair ms (0 + 2 * Z.of_nat j) = Returned [a; b].
Proof.
  intros Ha Hb. unfold display_pair, message_at.
  assert (Hlen : (S (2 * j) < length ms)%nat) by (apply lookup_lt_Some in Hb; lia).
  destruct (Z.ltb_spec (0 + 2 * Z.of_nat j + 1) (Z.of_nat (length ms))); [|lia].
  replace (Z.to_nat (0 + 2 * Z.of_nat j)) with (2 * j)%nat by lia.
  replace (Z.to_nat (0 + 2 * Z.of_nat j + 1)) with (S (2 * j)) by lia.
  now rewrite Ha, Hb.
Qed.

Lemma display_pairs_run (ms : list message) (count j : nat) :
  (2 * (j + count) <= length ms)%nat ->
  display_pairs ms ((fun t => (0 + 2 * Z.of_nat t)%Z) <$> seq j count)
  = Returned (take (2 * count) (drop (2 * j) ms)).
Proof.
  revert j. induction count as [|count IH]; intros j Hlen.
  - reflexivity.
  - cbn [seq fmap list_fmap display_pairs].
    destruct (lookup_lt_is_Some_2 ms (2 * j)) as [a Ha]; [lia|].
    destruct (lookup_lt_is_Some_2 ms (S (2 * j))) as [b Hb]; [lia|].
    rewrite (display_pair_run ms j a b Ha Hb).
    change (list_fmap nat Z (fun t => (0 + 2 * Z.of_nat t)%Z) (seq (S j) count))
      with ((fun t => (0 + 2 * Z.of_nat t)%Z) <$> seq (S j) count).
    rewrite IH by lia.
    rewrite (drop_S ms a (2 * j) Ha), (drop_S ms b (S (2 * j)) Hb).
    replace (2 * S count)%nat with (S (S (2 * count))) by lia.
    replace (2 * S j)%nat with (S (S (2 * j))) by lia.
    reflexivity.
Qed.

(** The previous-conversations block never indexes out of range, and it
    displays the messages before position [2 * ((n - 1) / 2)] of the [n]
    messages, in order: all but the last two when [n] is even, all but the
    last one when [n] is odd, and nothing for up to two messages. *)
Theorem displayed_history_prefix :
  forall ms,
    displayed_history ms
    = Returned (take (2 * ((length ms - 1) / 2)) ms).
Proof.
  intros ms. unfold displayed_history.
  destruct (Nat.ltb_spec 2 (length ms)) as [Hlong|Hshort].
  - unfold py_range.
    destruct (Z.leb_spec (Z.of_nat (length ms) - 2) 0) as [|_]; [lia|].
    replace (Z.to_nat ((Z.of_nat (length ms) - 2 - 0 + 2 - 1) / 2))
      with ((length ms - 1) / 2)%nat.
    2:{ replace (Z.of_nat (length ms) - 2 - 0 + 2 - 1)%Z
          with (Z.of_nat (length ms - 1)) by lia.
        change 2%Z with (Z.of_nat 2). rewrite <- Nat2Z.inj_div. lia. }
    rewrite display_pairs_run.
    + reflexivity.
    + pose proof (Nat.Div0.mul_div_le (length ms - 1) 2). lia.
  - replace ((length ms - 1) / 2)%nat with 0%nat; [reflexivity|].
    symmetry. apply Nat.div_small. lia.
Qed.

(** ** The evaluation loop *)

(** On an index a call returns either the dictionary of a generated answer
    or the error dictionary of some exception. *)
Lemma qa_search_outcomes llm query vs chat_history k w :
  exists r w',
    qa_search llm query (Some vs) chat_history k w = (Returned r, w')
    /\ ((exists answer metas count tr prompt,
            llm tr prompt = Returned answer
            /\ r = success_result answer metas count)
        \/ exists e, r = failure_result e).
Proof.
  rewrite qa_search_try_except, qa_search_try_run.
  destruct (similarity_search vs (trace w) query k) as [docs|e1]; [|eauto 6].
  cbn zeta.
  destruct (similarity_search vs (trace w ++ _) query k) as [context|e2]; [|eauto 6].
  destruct (llm _ _) as [answer|e3] eqn:Hllm; [|eauto 6].
  eexists _, _. split; [reflexivity|]. left. eauto 8.
Qed.

Lemma rag_answer_row llm vs query w :
  exists a w1,
    (result ← qa_search llm query (Some vs) None 6;
     result_getitem result "answer") w = (Returned a, w1)
    /\ ((exists tr prompt answer,
            llm tr prompt = Returned answer /\ a = VStr answer)
        \/ exists e, a = VStr ("Error querying the model: " +:+ exn_str e)).
Proof.
  unfold mbind, M_bind, bind.
  destruct (qa_search_outcomes llm query vs None 6 w) as (r & w1 & -> & Hr).
  unfold result_getitem.
  destruct Hr as [(answer & metas & count & tr & prompt & Hllm & ->) | (e & ->)].
  - destruct (success_result_lookups answer metas count) as (-> & _).
    eexists _, _. split; [reflexivity|]. left. eauto.
  - destruct (failure_result_lookups e) as (-> & _).
    eexists _, _. split; [reflexivity|]. right. eauto.
Qed.

Lemma rag_answers_one_text_per_row_aux :
  forall llm vs queries w,
    exists answers w',
      rag_answers llm (Some vs) queries w = (Returned answers, w')
      /\ length answers = length queries
      /\ Forall (fun a =>
                   (exists tr prompt answer,
                       llm tr prompt = Returned answer /\ a = VStr answer)
                   \/ exists e,
                        a = VStr ("Error querying the model: " +:+ exn_str e))
                answers.
Proof.
  intros llm vs queries. unfold rag_answers.
  set (row := fun query : string =>
                result ← qa_search llm query (Some vs) None 6;
                result_getitem result "answer").
  induction queries as [|q rest IH]; intros w.
  - exists [], w. repeat split. constructor.
  - destruct (rag_answer_row llm vs q w) as (a & w1 & Hrow & Hkind).
    change (row q w = (Returned a, w1)) in Hrow.
    destruct (IH w1) as (answers & w' & Hrest & Hlen & Hall).
    exists (a :: answers), w'.
    split; [|split; [cbn; now rewrite Hlen | now constructor]].
    cbn [for_each]. unfold mbind, M_bind, bind. rewrite Hrow, Hrest. reflexivity.
Qed.

(** With an index the evaluation loop never raises and collects one answer
    text per row; each is a text the chat model generated or an error text
    of the engine, which is then graded like an answer. *)
Theorem rag_answers_one_text_per_row :
  forall llm vs queries w,
    exists answers w',
      rag_answers llm (Some vs) queries w = (Returned answers, w')
      /\ length answers = length queries
      /\ Forall (fun a =>
                   (exists tr prompt answer,
                       llm tr prompt = Returned answer /\ a = VStr answer)
                   \/ exists e,
                        a = VStr ("Error querying the model: " +:+ exn_str e))
                answers.
Proof. exact rag_answers_one_text_per_row_aux. Qed.

(** When the chat model fails on every prompt, the evaluation loop still
    completes, and every collected answer is an error text of the engine. *)
Theorem rag_answers_when_model_is_down :
  forall llm vs queries w e,
    (forall tr prompt, llm tr prompt = Raised e) ->
    exists answers w',
      rag_answers llm (Some vs) queries w = (Returned answers, w')
      /\ length answers = length queries
      /\ Forall (fun a =>
                   exists e', a = VStr ("Error querying the model: " +:+ exn_str e'))
                answers.
Proof.
  intros llm vs queries w e Hdown.
  destruct (rag_answers_one_text_per_row_aux llm vs queries w)
    as (answers & w' & Hrun & Hlen & Hall).
  exists answers, w'. split; [exact Hrun|]. split; [exact Hlen|].
  eapply Forall_impl; [exact Hall|]. cbn.
  intros a [(tr & prompt & answer & Hllm & _) | He]; [|exact He].
  rewrite Hdown in Hllm. discriminate Hllm.
Qed.

Lemma rag_answers_when_model_is_down_witness :
  exists answers w',
    rag_answers Sample.failing_llm (Some Sample.store) ["q1"; "q2"] Sample.world0
    = (Returned answers, w')
    /\ length answers = length ["q1"; "q2"]
    /\ Forall (fun a =>
                 exists e', a = VStr ("Error querying the model: " +:+ exn_str e'))
              answers.
Proof.
  apply (rag_answers_when_model_is_down Sample.failing_llm Sample.store
           ["q1"; "q2"] Sample.world0 (Exn "RuntimeError" "service unavailable")).
  reflexivity.
Defined.

(** Without an index the evaluation loop raises [AttributeError] on its
    first row, before any search or generation; with no row at all it
    collects nothing and ends normally. *)
Theorem rag_answers_absent_index :
  forall llm queries w,
    rag_answers llm None queries w
    = match queries with
      | [] => (Returned [], w)
      | _ :: _ =>
          (Raised (Exn "AttributeError"
                       "'NoneType' object has no attribute 'as_retriever'"), w)
      end.
Proof. intros llm [|q rest] w; reflexivity. Qed.

(** ** The documents of the aggregator *)

Module AggregatorMore.
Import Aggregator AggregatorNotions AggregatorFacts.

(** A run that builds its documents had at least one record, only ages
    from 18 to 70 and no missing product or region cell, and its overall
    figure was drawn and saved: on an empty data set, on a record of any
    other age, or on a missing product or region, the run ends with an
    exception before the documents are written. *)
Theorem main_returns_only_if :
  forall plt sales docs,
    main plt sales = Returned docs ->
    sales <> []
    /\ (forall s, s ∈ sales ->
          (18 <= Customer_Age s <= 70)%Z
          /\ is_Some (Product s) /\ is_Some (Region s))
    /\ (exists path, create_overall_plot plt (load_data sales) = Returned path).
Proof.
  intros plt sales docs Hrun.
  destruct (main_inv plt sales docs Hrun)
    as (t & p & r & a & o & _ & _ & Hp & Hr & _ & _ & Hsum & Hplot).
  split.
  { intros ->. discriminate Hsum. }
  split; [|eauto].
  intros s Hs.
  assert (Hrow : load_row s ∈ load_data sales) by (apply list_elem_of_fmap; eauto).
  split; [|split].
  - destruct (decide (18 <= Customer_Age s <= 70)%Z) as [Hin|Hout]; [exact Hin|].
    destruct (main_raises_on_unbucketed_record plt sales s Hs) as [e He]; [lia|].
    rewrite He in Hrun. discriminate Hrun.
  - assert (Hv : Product s ∈ unique ((fun r => Product (record r)) <$> load_data sales)).
    { apply unique_elem.
      apply (list_elem_of_fmap_2 (fun r => Product (record r)) _ (load_row s)).
      exact Hrow. }
    apply list_elem_of_lookup in Hv as [i Hi].
    destruct (Forall2_lookup_l _ _ _ _ _ Hp Hi) as (d & _ & Hd).
    now apply product_document_inv in Hd as (Hsome & _).
  - assert (Hv : Region s ∈ unique ((fun r => Region (record r)) <$> load_data sales)).
    { apply unique_elem.
      apply (list_elem_of_fmap_2 (fun r => Region (record r)) _ (load_row s)).
      exact Hrow. }
    apply list_elem_of_lookup in Hv as [i Hi].
    destruct (Forall2_lookup_l _ _ _ _ _ Hr Hi) as (d & _ & Hd).
    now apply region_document_inv in Hd as (Hsome & _).
Qed.

Lemma main_returns_only_if_witness :
  [Sample.sale_in_range] <> []
  /\ (forall s, s ∈ [Sample.sale_in_range] ->
        (18 <= Customer_Age s <= 70)%Z
        /\ is_Some (Product s) /\ is_Some (Region s))
  /\ (exists path,
        create_overall_plot Sample.plots (load_data [Sample.sale_in_range])
        = Returned path).
Proof.
  eapply (main_returns_only_if Sample.plots [Sample.sale_in_range]).
  vm_compute. reflexivity.
Defined.

Lemma unique_from_NoDup {A} `{EqDecision A} (seen l : list A) :
  NoDup (unique_from seen l) /\ forall x, x ∈ unique_from seen l -> x ∉ seen.
Proof.
  revert seen. induction l as [|y l IH]; intros seen; cbn [unique_from].
  - split; [constructor | intros x Hx; inversion Hx].
  - destruct (decide (y ∈ seen)) as [Hy|Hy]; [apply IH|].
    destruct (IH (y :: seen)) as [Hnd Hfresh]. split.
    + constructor; [|exact Hnd]. intros Hin.
      apply (Hfresh y Hin). apply list_elem_of_here.
    + intros x Hx. apply elem_of_cons in Hx as [->|Hx]; [exact Hy|].
      intros Hseen. apply (Hfresh x Hx). now apply list_elem_of_further.
Qed.

Lemma filter_all {A} (P : A -> Prop) `{forall x, Decision (P x)} (l : list A) :
  Forall P l -> filter P l = l.
Proof.
  induction 1 as [|x l Hx _ IH]; [reflexivity|].
  rewrite filter_cons_True by exact Hx. now rewrite IH.
Qed.

Lemma filter_none {A} (P : A -> Prop) `{forall x, Decision (P x)} (l : list A) :
  Forall (fun x => ~ P x) l -> filter P l = [].
Proof.
  induction 1 as [|x l Hx _ IH]; [reflexivity|].
  rewrite filter_cons_False by exact Hx. exact IH.
Qed.

(** The rows carrying one of several distinct values are counted once each
    by the chunks of these values. *)
Lemma chunks_count {A B} `{EqDecision B} (f : A -> B) (l : list A) (vs : list B) :
  NoDup vs ->
  sum_list ((fun v => length (filter (fun r => f r = v) l)) <$> vs)
  = length (filter (fun r => f r ∈ vs) l).
Proof.
  induction 1 as [|v vs Hv Hnd IH].
  - cbn. rewrite filter_none; [reflexivity|].
    apply Forall_forall. intros r _ Hr. inversion Hr.
  - rewrite fmap_cons. cbn [sum_list]. rewrite IH. clear IH.
    unfold Datatypes.id.
    induction l as [|r l IHl]; [reflexivity|].
    destruct (decide (f r = v)) as [Heq|Hne].
    + rewrite (filter_cons_True (fun r => f r = v)) by exact Heq.
      rewrite (filter_cons_False (fun r => f r ∈ vs)) by (rewrite Heq; exact Hv).
      rewrite (filter_cons_True (fun r => f r ∈ v :: vs))
        by (rewrite Heq; apply list_elem_of_here).
      cbn [length]. lia.
    + rewrite (filter_cons_False (fun r => f r = v)) by exact Hne.
      destruct (decide (f r ∈ vs)) as [Hin|Hnin].
      * rewrite (filter_cons_True (fun r => f r ∈ vs)) by exact Hin.
        rewrite (filter_cons_True (fun r => f r ∈ v :: vs))
          by (now apply list_elem_of_further).
        cbn [length]. lia.
      * rewrite (filter_cons_False (fun r => f r ∈ vs)) by exact Hnin.
        rewrite (filter_cons_False (fun r => f r ∈ v :: vs)); [exact IHl|].
        intros Hin. apply elem_of_cons in Hin as [?|?]; contradiction.
Qed.

Lemma unique_chunks_count {A B} `{EqDecision B} (f : A -> B) (l : list A) :
  sum_list ((fun v => length (filter (fun r => f r = v) l)) <$> unique (f <$> l))
  = length l.
Proof.
  rewrite chunks_count by apply unique_from_NoDup.
  rewrite filter_all; [reflexivity|].
  apply Forall_forall. intros r Hr. apply unique_elem.
  now apply list_elem_of_fmap_2.
Qed.

Lemma group_documents_count {B} `{EqDecision B} (column : row -> B) (kind : string)
    (sales_df : list row) (vs : list B) (ds : list document) :
  Forall2 (group_document column kind sales_df) vs ds ->
  Forall (fun d => doc_type d = kind) ds
  /\ length ds = length vs
  /\ records_counted ds
     = sum_list ((fun v => length (filter (fun r => column r = v) sales_df)) <$> vs).
Proof.
  induction 1 as [|v d vs ds (Hkind & Hcount & _) _ (IHk & IHl & IHc)].
  - repeat split. constructor.
  - split; [now constructor|]. split; [cbn; now rewrite IHl|].
    unfold records_counted in *. cbn. now rewrite Hcount, IHc.
Qed.

(** The groups of a completed run, each as documents of the values of its
    column. *)
Lemma main_group_documents (plt : plotting) (sales : list sale)
    (docs : list document) :
  main plt sales = Returned docs ->
  exists time_docs product_docs region_docs age_docs overall,
    docs = time_docs ++ product_docs ++ region_docs ++ age_docs ++ [overall]
    /\ Forall2 (group_document YearQuarter "time_period" (load_data sales))
         (unique (YearQuarter <$> load_data sales)) time_docs
    /\ Forall2 (group_document (fun r => Product (record r)) "product"
                  (load_data sales))
         (unique ((fun r => Product (record r)) <$> load_data sales)) product_docs
    /\ Forall2 (group_document (fun r => Region (record r)) "region"
                  (load_data sales))
         (unique ((fun r => Region (record r)) <$> load_data sales)) region_docs
    /\ Forall2 (group_document Age_Group "demographic" (load_data sales))
         (unique (Age_Group <$> load_data sales)) age_docs
    /\ doc_type overall = "overall"
    /\ total_records (raw_data overall) = length sales.
Proof.
  intros Hrun.
  destruct (main_groups plt sales docs Hrun)
    as (t & p & r & a & o & Hdocs & Ht & Hp & Hr & Ha & Ho & Hoc & _).
  exists t, p, r, a, o. repeat (split; [assumption|]).
  split; [|split; assumption].
  eapply Forall2_impl; [exact Ha|]. intros v d. apply age_group_document_of_group.
Qed.

Lemma doc_types_of_group (kind : string) (ds : list document) :
  Forall (fun d => doc_type d = kind) ds ->
  doc_type <$> ds = replicate (length ds) kind.
Proof.
  induction 1 as [|d ds Hd _ IH]; [reflexivity|].
  cbn. now rewrite Hd, IH.
Qed.

(** The documents a completed run writes come group by group: one
    time-period document per distinct quarter, then one per product, one
    per region, one per age group, and the overall document last. *)
Theorem documents_in_group_order :
  forall plt sales docs,
    main plt sales = Returned docs ->
    doc_type <$> docs
    = replicate (length (unique (YearQuarter <$> load_data sales))) "time_period"
      ++ replicate (length (unique ((fun r => Product (record r)) <$> load_data sales)))
           "product"
      ++ replicate (length (unique ((fun r => Region (record r)) <$> load_data sales)))
           "region"
      ++ replicate (length (unique (Age_Group <$> load_data sales))) "demographic"
      ++ ["overall"].
Proof.
  intros plt sales docs Hrun.
  destruct (main_group_documents plt sales docs Hrun)
    as (t & p & r & a & o & -> & Ht & Hp & Hr & Ha & Ho & _).
  destruct (group_documents_count _ _ _ _ _ Ht) as (Htk & Htl & _).
  destruct (group_documents_count _ _ _ _ _ Hp) as (Hpk & Hpl & _).
  destruct (group_documents_count _ _ _ _ _ Hr) as (Hrk & Hrl & _).
  destruct (group_documents_count _ _ _ _ _ Ha) as (Hak & Hal & _).
  rewrite !fmap_app.
  rewrite (doc_types_of_group _ _ Htk), (doc_types_of_group _ _ Hpk),
    (doc_types_of_group _ _ Hrk), (doc_types_of_group _ _ Hak).
  rewrite Htl, Hpl, Hrl, Hal. cbn. now rewrite Ho.
Qed.

Lemma documents_in_group_order_witness :
  doc_type <$> match main Sample.plots [Sample.sale_in_range] with
               | Returned docs => docs
               | Raised _ => []
               end
  = replicate (length (unique (YearQuarter <$> load_data [Sample.sale_in_range])))
      "time_period"
    ++ replicate (length (unique ((fun r => Product (record r))
                                  <$> load_data [Sample.sale_in_range])))
         "product"
    ++ replicate (length (unique ((fun r => Region (record r))
                                  <$> load_data [Sample.sale_in_range])))
         "region"
    ++ replicate (length (unique (Age_Group <$> load_data [Sample.sale_in_range])))
         "demographic"
    ++ ["overall"].
Proof.
  apply (documents_in_group_order Sample.plots [Sample.sale_in_range]). reflexivity.
Defined.

Lemma documents_of_kind_group (kind kind' : string) (ds : list document) :
  Forall (fun d => doc_type d = kind') ds ->
  documents_of_kind kind ds = if decide (kind = kind') then ds else [].
Proof.
  intros Hall. unfold documents_of_kind.
  destruct (decide (kind = kind')) as [->|Hne].
  - now apply filter_all.
  - apply filter_none. eapply Forall_impl; [exact Hall|]. cbn. congruence.
Qed.

Lemma records_counted_group {B} `{EqDecision B} (column : row -> B) (kind : string)
    (sales_df : list row) (ds : list document) :
  Forall2 (group_document column kind sales_df) (unique (column <$> sales_df)) ds ->
  records_counted ds = length sales_df.
Proof.
  intros Hds. destruct (group_documents_count _ _ _ _ _ Hds) as (_ & _ & ->).
  apply unique_chunks_count.
Qed.

(** In the documents of a completed run every record is counted exactly
    once in each dimension: the [total_records] of the time-period
    documents add up to the number of records, and so do those of the
    product documents, of the region documents, of the age-group documents,
    and that of the overall document. *)
Theorem every_record_counted_once_per_dimension :
  forall plt sales docs kind,
    main plt sales = Returned docs ->
    kind ∈ ["time_period"; "product"; "region"; "demographic"; "overall"] ->
    records_counted (documents_of_kind kind docs) = length sales.
Proof.
  intros plt sales docs kind Hrun Hkind.
  destruct (main_group_documents plt sales docs Hrun)
    as (t & p & r & a & o & -> & Ht & Hp & Hr & Ha & Ho & Hoc).
  pose proof (records_counted_group _ _ _ _ Ht) as Htc.
  pose proof (records_counted_group _ _ _ _ Hp) as Hpc.
  pose proof (records_counted_group _ _ _ _ Hr) as Hrc.
  pose proof (records_counted_group _ _ _ _ Ha) as Hac.
  destruct (group_documents_count _ _ _ _ _ Ht) as (Htk & _).
  destruct (group_documents_count _ _ _ _ _ Hp) as (Hpk & _).
  destruct (group_documents_count _ _ _ _ _ Hr) as (Hrk & _).
  destruct (group_documents_count _ _ _ _ _ Ha) as (Hak & _).
  assert (Hok : Forall (fun d => doc_type d = "overall") [o])
    by (constructor; [exact Ho | constructor]).
  assert (Hlen : length (load_data sales) = length sales)
    by (unfold load_data; apply length_map).
  unfold documents_of_kind. rewrite !filter_app.
  fold (documents_of_kind kind t) (documents_of_kind kind p)
    (documents_of_kind kind r) (documents_of_kind kind a)
    (documents_of_kind kind [o]).
  rewrite (documents_of_kind_group kind _ t Htk),
    (documents_of_kind_group kind _ p Hpk),
    (documents_of_kind_group kind _ r Hrk),
    (documents_of_kind_group kind _ a Hak),
    (documents_of_kind_group kind _ [o] Hok).
  repeat (apply elem_of_cons in Hkind as [->|Hkind]);
    [..|inversion Hkind];
    repeat match goal with
           | |- context [decide ?P] =>
               destruct (decide P); [try discriminate | try congruence]
           end;
    rewrite ?app_nil_r; cbn [app];
    try (rewrite Htc, Hlen; reflexivity);
    try (rewrite Hpc, Hlen; reflexivity);
    try (rewrite Hrc, Hlen; reflexivity);
    try (rewrite Hac, Hlen; reflexivity).
  unfold records_counted. cbn. rewrite Hoc. lia.
Qed.

Lemma every_record_counted_once_per_dimension_witness :
  records_counted
    (documents_of_kind "product"
       match main Sample.plots [Sample.sale_in_range; Sample.sale_in_range] with
       | Returned docs => docs
       | Raised _ => []
       end)
  = length [Sample.sale_in_range; Sample.sale_in_range].
Proof.
  apply (every_record_counted_once_per_dimension Sample.plots
           [Sample.sale_in_range; Sample.sale_in_range]).
  - reflexivity.
  - apply list_elem_of_further, list_elem_of_here.
Defined.

End AggregatorMore.

(** ** The source cards *)

Module DisplayFacts.
Import Display.

Section Cards.

Variable format_number : string -> pyval -> outcome string.
Variable str_other : pyval -> string.
Variable unicode_capitalize : string -> string.
Variable unicode_title : string -> string.

Lemma add_formatted_lookup raw_data key name spec before after dd dd' k :
  add_formatted format_number raw_data key name spec before after dd = Returned dd' ->
  k <> name -> dd' !! k = dd !! k.
Proof.
  unfold add_formatted. intros Hrun Hk.
  destruct (raw_data !! key) as [v|]; [|injection Hrun as <-; reflexivity].
  cbn in Hrun. destruct (format_number spec v) as [text|e]; [|discriminate Hrun].
  injection Hrun as <-. now rewrite lookup_insert_ne.
Qed.

(** Reading [raw_data] adds the four statistics at most: every other entry
    of the result is the one written before. *)
Lemma extract_display_metadata_lookup h metadata dd k :
  extract_display_metadata format_number unicode_capitalize unicode_title h metadata = Returned dd ->
  k ∉ ["Total Sales"; "Average Sale"; "Avg. Satisfaction"; "Total Records"] ->
  dd !! k = base_display unicode_capitalize unicode_title metadata !! k.
Proof.
  unfold extract_display_metadata, base_display. intros Hrun Hk.
  assert (Hk1 : k <> "Total Sales") by (intros ->; apply Hk; set_solver).
  assert (Hk2 : k <> "Average Sale") by (intros ->; apply Hk; set_solver).
  assert (Hk3 : k <> "Avg. Satisfaction") by (intros ->; apply Hk; set_solver).
  assert (Hk4 : k <> "Total Records") by (intros ->; apply Hk; set_solver).
  destruct (metadata !! "type") as [[| | |t| |]|]; cbn in Hrun; try discriminate Hrun.
  all: destruct (metadata !! "raw_data") as [[| | | |l|]|];
    try (injection Hrun as <-; reflexivity).
  all: destruct (h !! l) as [raw_data|]; [|injection Hrun as <-; reflexivity].
  all: cbn in Hrun.
  all: destruct (add_formatted _ raw_data "total_sales" _ _ _ _ _) as [d1|e] eqn:H1;
    [|discriminate Hrun]; cbn in Hrun.
  all: destruct (add_formatted _ raw_data "average_sale" _ _ _ _ _) as [d2|e] eqn:H2;
    [|discriminate Hrun]; cbn in Hrun.
  all: destruct (add_formatted _ raw_data "average_satisfaction" _ _ _ _ _)
    as [d3|e] eqn:H3; [|discriminate Hrun]; cbn in Hrun.
  all: injection Hrun as <-.
  all: assert (Hd3 : d3 !! k = d1 !! k)
    by (rewrite (add_formatted_lookup _ _ _ _ _ _ _ _ k H3 Hk3);
        apply (add_formatted_lookup _ _ _ _ _ _ _ _ k H2 Hk2)).
  all: rewrite (add_formatted_lookup _ _ _ _ _ _ _ _ k H1 Hk1) in Hd3.
  all: destruct (raw_data !! "total_records");
    [rewrite lookup_insert_ne by congruence|]; exact Hd3.
Qed.

Lemma base_display_lookups (metadata : gmap string pyval) :
  base_display unicode_capitalize unicode_title metadata !! "Type"
  = match metadata !! "type" with
    | Some (VStr t) => Some (VStr (capitalize unicode_capitalize t))
    | _ => None
    end
  /\ base_display unicode_capitalize unicode_title metadata !! "Period" = metadata !! "period"
  /\ base_display unicode_capitalize unicode_title metadata !! "Product" = metadata !! "product"
  /\ base_display unicode_capitalize unicode_title metadata !! "Region" = metadata !! "region"
  /\ base_display unicode_capitalize unicode_title metadata !! "Age Group" = metadata !! "age_group".
Proof.
  unfold base_display, add_dimension. cbn [foldl].
  change (title unicode_title (replace_char "_" " " "period")) with "Period".
  change (title unicode_title (replace_char "_" " " "product")) with "Product".
  change (title unicode_title (replace_char "_" " " "region")) with "Region".
  change (title unicode_title (replace_char "_" " " "age_group")) with "Age Group".
  destruct (metadata !! "type") as [[| | |t| |]|];
    destruct (metadata !! "period"), (metadata !! "product"),
      (metadata !! "region"), (metadata !! "age_group");
    repeat split;
    repeat (rewrite lookup_insert_ne by discriminate);
    rewrite ?lookup_insert_eq, ?lookup_singleton_eq, ?lookup_empty;
    try reflexivity;
    rewrite lookup_singleton_ne by discriminate; reflexivity.
Qed.

(** For the metadata of each of the five kinds of documents the aggregator
    writes, the source card gets the heading of its kind and not the
    fallback one: the capitalised type and the title-cased key are the
    strings [display_message] tests for. *)
Theorem source_heading_of_each_kind :
  forall h metadata display_data v,
    extract_display_metadata format_number unicode_capitalize unicode_title h metadata = Returned display_data ->
    (metadata !! "type" = Some (VStr "time_period")
     /\ metadata !! "period" = Some (VStr v) ->
     source_heading str_other display_data
     = Some ("**Time_period: " +:+ v +:+ "**"))
    /\ (metadata !! "type" = Some (VStr "product")
        /\ metadata !! "product" = Some (VStr v) ->
        source_heading str_other display_data = Some ("**" +:+ v +:+ "**"))
    /\ (metadata !! "type" = Some (VStr "region")
        /\ metadata !! "region" = Some (VStr v) ->
        source_heading str_other display_data = Some ("**" +:+ v +:+ " Region**"))
    /\ (metadata !! "type" = Some (VStr "demographic")
        /\ metadata !! "age_group" = Some (VStr v) ->
        source_heading str_other display_data
        = Some ("**Age Group: " +:+ v +:+ "**"))
    /\ (metadata !! "type" = Some (VStr "overall") ->
        source_heading str_other display_data = Some "**Overall Summary**").
Proof.
  intros h metadata dd v Hrun.
  destruct (base_display_lookups metadata) as (Hty & Hpe & Hpr & Hre & Hag).
  assert (Hkeep : forall k,
             k ∈ ["Type"; "Period"; "Product"; "Region"; "Age Group"] ->
             dd !! k = base_display unicode_capitalize unicode_title metadata !! k).
  { intros k Hk. apply (extract_display_metadata_lookup h metadata dd k Hrun).
    intros Hbad.
    repeat (apply elem_of_cons in Hk as [->|Hk]);
      [..|inversion Hk];
      repeat (apply elem_of_cons in Hbad as [Hbad|Hbad]; [discriminate Hbad|]);
      inversion Hbad. }
  unfold source_heading.
  rewrite (Hkeep "Type") by set_solver. rewrite (Hkeep "Period") by set_solver.
  rewrite (Hkeep "Product") by set_solver. rewrite (Hkeep "Region") by set_solver.
  rewrite (Hkeep "Age Group") by set_solver.
  rewrite Hty, Hpe, Hpr, Hre, Hag.
  repeat split.
  - intros [-> ->]. reflexivity.
  - intros [-> ->]. reflexivity.
  - intros [-> ->]. reflexivity.
  - intros [-> ->]. reflexivity.
  - intros ->. reflexivity.
Qed.

End Cards.

Lemma source_heading_of_each_kind_witness :
  source_heading (fun _ => EmptyString)
    (match extract_display_metadata (fun _ _ => Returned "0.00") (fun s => s)
             (fun s => s) Sample.stored
             {[ "type" := VStr "demographic"; "age_group" := VStr "26-35";
                "raw_data" := VRef 2%positive ]} with
     | Returned display_data => display_data
     | Raised _ => ∅
     end)
  = Some ("**Age Group: " +:+ "26-35" +:+ "**").
Proof.
  apply (source_heading_of_each_kind (fun _ _ => Returned "0.00")
           (fun _ => EmptyString) (fun s => s) (fun s => s) Sample.stored
           {[ "type" := VStr "demographic"; "age_group" := VStr "26-35";
              "raw_data" := VRef 2%positive ]}
           _ "26-35").
  - vm_compute. reflexivity.
  - split; reflexivity.
Defined.

End DisplayFacts.

(** ** Asking a query *)

(** A query set with [set_query] and not empty is recorded by the next run
    of the query block, whatever the run ends with: the session then holds
    the user turn of this query. *)
Theorem asked_query_is_recorded :
  forall llm st w query,
    query <> EmptyString ->
    {| role := "user"; content := query; msg_metadata := None |}
    ∈ messages (process_query llm (set_query query st) w).1.1.
Proof.
  intros llm st w query Hquery.
  destruct (process_query_cases llm (set_query query st) w eq_refl Hquery)
    as [(ms & w' & -> & vs & _ & Htry) | (msg & w' & ->)]; cbn [fst].
  - destruct (answer_try_inv _ _ _ _ _ _ _ _ Htry) as (r & answer & _ & _ & _ & ->).
    cbn [set_messages messages append_user_turn set_query last_query].
    rewrite trim_last_n, <- app_assoc. cbn [app].
    rewrite last_n_app_tail by (cbn; lia).
    apply elem_of_app. right. apply list_elem_of_here.
  - cbn [messages append_user_turn set_query last_query].
    apply elem_of_app. right. apply list_elem_of_here.
Qed.

Lemma asked_query_is_recorded_witness :
  {| role := "user"; content := "How have Widget A sales changed over time?";
     msg_metadata := None |}
  ∈ messages (process_query Sample.llm
                (set_query "How have Widget A sales changed over time?"
                           (Sample.session (Some Sample.store)))
                Sample.world0).1.1.
Proof.
  apply (asked_query_is_recorded Sample.llm (Sample.session (Some Sample.store))
           Sample.world0 "How have Widget A sales changed over time?").
  discriminate.
Defined.
